(** * Lunar lander simulation kernel: Entity/Lander, Physics and Game.

    A shallow embedding of [Physics.cpp], [Entity.cpp] and [Game.cpp].
    C++ [float] values are IEEE-754 binary32 numbers; they are modelled with
    the bit-level specification of the standard library ([SpecFloat]) at
    precision 24 and maximal exponent 128, so that rounding, infinities,
    signed zeros and NaN behave as on the machine.  Every operation on
    floats is rounded to nearest even in single precision, one operation at
    a time. *)

From Stdlib Require Import ZArith Bool List Lia.
From Stdlib Require Import SpecFloat.
Import ListNotations.

Set Implicit Arguments.

(** ** Binary32 arithmetic *)

Module Float32.

Definition prec : Z := 24.
Definition emax : Z := 128.

Definition float : Type := spec_float.

Definition add : float -> float -> float := SFadd prec emax.
Definition sub : float -> float -> float := SFsub prec emax.
Definition mul : float -> float -> float := SFmul prec emax.
Definition div : float -> float -> float := SFdiv prec emax.
Definition abs : float -> float := SFabs.

(** The comparison operators of C++: every comparison with a NaN operand
    is false, except [!=] which is true. *)
Definition ltb : float -> float -> bool := SFltb.
Definition leb : float -> float -> bool := SFleb.
Definition gtb (a b : float) : bool := SFltb b a.
Definition eqb : float -> float -> bool := SFeqb.
Definition neqb (a b : float) : bool := negb (SFeqb a b).

(** Conversion of an [int] to [float] (round to nearest even). *)
Definition of_Z (z : Z) : float := binary_normalize prec emax z 0 false.

(** The literal whose decimal value is [n / d]: the division of two exactly
    representable integers is correctly rounded, which is how the compiler
    reads [1.62f] from [162 / 100]. *)
Definition literal (n d : Z) : float := div (of_Z n) (of_Z d).

Definition zero : float := S754_zero false.
Definition one : float := of_Z 1.

(** [std::max(a, b)] is [(a < b) ? b : a]; [std::min(a, b)] is
    [(b < a) ? b : a]. *)
Definition max (a b : float) : float := if ltb a b then b else a.
Definition min (a b : float) : float := if ltb b a then b else a.

Definition is_nan (a : float) : bool :=
  match a with S754_nan => true | _ => false end.

End Float32.

Import Float32.

Declare Scope f32_scope.
Delimit Scope f32_scope with f32.
Infix "+" := add : f32_scope.
Infix "-" := sub : f32_scope.
Infix "*" := mul : f32_scope.
Infix "/" := div : f32_scope.
Infix "<?" := ltb : f32_scope.
Infix "<=?" := leb : f32_scope.
Infix ">?" := gtb : f32_scope.

(** ** Entity and Lander ([Entity.cpp]) *)

(** A [float[3]] array, indexed 0, 1, 2. *)
Record float3 : Type := Float3 { at0 : float; at1 : float; at2 : float }.

Definition zero3 : float3 := Float3 zero zero zero.

(** The [Lander] object with the fields it inherits from [Entity].  The
    identifier and the name of an entity are bookkeeping that no modelled
    method reads, and are left out. *)
Record Lander : Type := mkLander {
  mActive : bool;
  mPosition : float3;
  mRotation : float3;
  mScale : float3;
  mVelocity : float3;
  mAcceleration : float3;
  mWidth : float;
  mHeight : float;
  mDepth : float;
  mMass : float;
  mThrustLevel : float;
  mThrustActive : bool;
  mMaxThrustForce : float;
  mFuel : float;
  mMaxFuel : float;
  mFuelConsumptionRate : float;
  mLanded : bool;
  mCrashed : bool
}.

Module Lander.

Definition with_mActive (b : bool) (l : Lander) : Lander :=
  mkLander b l.(mPosition) l.(mRotation) l.(mScale) l.(mVelocity)
    l.(mAcceleration) l.(mWidth) l.(mHeight) l.(mDepth) l.(mMass)
    l.(mThrustLevel) l.(mThrustActive) l.(mMaxThrustForce) l.(mFuel)
    l.(mMaxFuel) l.(mFuelConsumptionRate) l.(mLanded) l.(mCrashed).

Definition with_mPosition (p : float3) (l : Lander) : Lander :=
  mkLander l.(mActive) p l.(mRotation) l.(mScale) l.(mVelocity)
    l.(mAcceleration) l.(mWidth) l.(mHeight) l.(mDepth) l.(mMass)
    l.(mThrustLevel) l.(mThrustActive) l.(mMaxThrustForce) l.(mFuel)
    l.(mMaxFuel) l.(mFuelConsumptionRate) l.(mLanded) l.(mCrashed).

Definition with_mRotation (r : float3) (l : Lander) : Lander :=
  mkLander l.(mActive) l.(mPosition) r l.(mScale) l.(mVelocity)
    l.(mAcceleration) l.(mWidth) l.(mHeight) l.(mDepth) l.(mMass)
    l.(mThrustLevel) l.(mThrustActive) l.(mMaxThrustForce) l.(mFuel)
    l.(mMaxFuel) l.(mFuelConsumptionRate) l.(mLanded) l.(mCrashed).

Definition with_mVelocity (v : float3) (l : Lander) : Lander :=
  mkLander l.(mActive) l.(mPosition) l.(mRotation) l.(mScale) v
    l.(mAcceleration) l.(mWidth) l.(mHeight) l.(mDepth) l.(mMass)
    l.(mThrustLevel) l.(mThrustActive) l.(mMaxThrustForce) l.(mFuel)
    l.(mMaxFuel) l.(mFuelConsumptionRate) l.(mLanded) l.(mCrashed).

Definition with_mAcceleration (a : float3) (l : Lander) : Lander :=
  mkLander l.(mActive) l.(mPosition) l.(mRotation) l.(mScale) l.(mVelocity)
    a l.(mWidth) l.(mHeight) l.(mDepth) l.(mMass)
    l.(mThrustLevel) l.(mThrustActive) l.(mMaxThrustForce) l.(mFuel)
    l.(mMaxFuel) l.(mFuelConsumptionRate) l.(mLanded) l.(mCrashed).

Definition with_thrust (level : float) (active : bool) (l : Lander) : Lander :=
  mkLander l.(mActive) l.(mPosition) l.(mRotation) l.(mScale) l.(mVelocity)
    l.(mAcceleration) l.(mWidth) l.(mHeight) l.(mDepth) l.(mMass)
    level active l.(mMaxThrustForce) l.(mFuel)
    l.(mMaxFuel) l.(mFuelConsumptionRate) l.(mLanded) l.(mCrashed).

Definition with_mFuel (f : float) (l : Lander) : Lander :=
  mkLander l.(mActive) l.(mPosition) l.(mRotation) l.(mScale) l.(mVelocity)
    l.(mAcceleration) l.(mWidth) l.(mHeight) l.(mDepth) l.(mMass)
    l.(mThrustLevel) l.(mThrustActive) l.(mMaxThrustForce) f
    l.(mMaxFuel) l.(mFuelConsumptionRate) l.(mLanded) l.(mCrashed).

(** Modelled from the spec: the inline accessors of [Entity.h], which is
    not among the sources ([SetLanded], [SetCrashed], [SetActive] and the
    getters [IsLanded], [IsCrashed], [IsThrustActive], [GetFuel],
    [GetHeight], ...), each taken to write or read the member of its
    name. *)
Definition with_mLanded (b : bool) (l : Lander) : Lander :=
  mkLander l.(mActive) l.(mPosition) l.(mRotation) l.(mScale) l.(mVelocity)
    l.(mAcceleration) l.(mWidth) l.(mHeight) l.(mDepth) l.(mMass)
    l.(mThrustLevel) l.(mThrustActive) l.(mMaxThrustForce) l.(mFuel)
    l.(mMaxFuel) l.(mFuelConsumptionRate) b l.(mCrashed).

Definition with_mCrashed (b : bool) (l : Lander) : Lander :=
  mkLander l.(mActive) l.(mPosition) l.(mRotation) l.(mScale) l.(mVelocity)
    l.(mAcceleration) l.(mWidth) l.(mHeight) l.(mDepth) l.(mMass)
    l.(mThrustLevel) l.(mThrustActive) l.(mMaxThrustForce) l.(mFuel)
    l.(mMaxFuel) l.(mFuelConsumptionRate) l.(mLanded) b.

(** [Entity::SetPosition(x, y, z)] and [Entity::SetRotation(x, y, z)]. *)
Definition SetPosition (x y z : float) (l : Lander) : Lander :=
  with_mPosition (Float3 x y z) l.

Definition SetRotation (x y z : float) (l : Lander) : Lander :=
  with_mRotation (Float3 x y z) l.

(** [Lander::Lander()], after [Entity::Entity()]. *)
Definition ctor : Lander :=
  {| mActive := true;
     mPosition := zero3;
     mRotation := zero3;
     mScale := Float3 one one one;
     mVelocity := zero3;
     mAcceleration := zero3;
     mWidth := of_Z 20;
     mHeight := of_Z 30;
     mDepth := of_Z 20;
     mMass := of_Z 10000;
     mThrustLevel := zero;
     mThrustActive := false;
     mMaxThrustForce := of_Z 50000;
     mFuel := of_Z 1000;
     mMaxFuel := of_Z 1000;
     mFuelConsumptionRate := of_Z 10;
     mLanded := false;
     mCrashed := false |}.

(** The position step of [Lander::Update]: all three coordinates move by
    velocity times [deltaTime]. *)
Definition advance (deltaTime : float) (l : Lander) : Lander :=
  let p := l.(mPosition) in
  let v := l.(mVelocity) in
  with_mPosition
    (Float3 (p.(at0) + v.(at0) * deltaTime)
            (p.(at1) + v.(at1) * deltaTime)
            (p.(at2) + v.(at2) * deltaTime))%f32 l.

(** The fuel step of [Lander::Update]. *)
Definition burn (deltaTime : float) (l : Lander) : Lander :=
  if l.(mThrustActive) && (l.(mFuel) >? zero)%f32 then
    let fuel1 := (l.(mFuel) - l.(mFuelConsumptionRate) * l.(mThrustLevel) * deltaTime)%f32 in
    let fuel2 := max zero fuel1 in
    let l := with_mFuel fuel2 l in
    if (fuel2 <=? zero)%f32
    then with_thrust l.(mThrustLevel) false l
    else l
  else l.

(** [Lander::Update(deltaTime)]. *)
Definition Update (deltaTime : float) (l : Lander) : Lander :=
  burn deltaTime (advance deltaTime l).

(** [Lander::ApplyThrust(amount)]. *)
Definition ApplyThrust (amount : float) (l : Lander) : Lander :=
  if (l.(mFuel) <=? zero)%f32 then
    with_thrust zero false l
  else
    let level := max zero (min one amount) in
    with_thrust level (level >? zero)%f32 l.

(** The normalisation loops of [RotateLeft] and [RotateRight] subtract or
    add 360 while the angle is out of range.  They need not terminate on
    an infinite angle, so the loop is run with fuel and reports [None]
    when the fuel runs out. *)
Fixpoint wrap_down (fuel : nat) (r : float) : option float :=
  if (of_Z 360 <=? r)%f32 then
    match fuel with
    | O => None
    | S fuel => wrap_down fuel (r - of_Z 360)%f32
    end
  else Some r.

Fixpoint wrap_up (fuel : nat) (r : float) : option float :=
  if (r <? zero)%f32 then
    match fuel with
    | O => None
    | S fuel => wrap_up fuel (r + of_Z 360)%f32
    end
  else Some r.

Definition RotateLeft (fuel : nat) (amount : float) (l : Lander) : option Lander :=
  let r := l.(mRotation) in
  match wrap_down fuel (r.(at2) + amount)%f32 with
  | Some z => Some (with_mRotation (Float3 r.(at0) r.(at1) z) l)
  | None => None
  end.

Definition RotateRight (fuel : nat) (amount : float) (l : Lander) : option Lander :=
  let r := l.(mRotation) in
  match wrap_up fuel (r.(at2) - amount)%f32 with
  | Some z => Some (with_mRotation (Float3 r.(at0) r.(at1) z) l)
  | None => None
  end.

(** [Lander::Reset()]. *)
Definition Reset (l : Lander) : Lander :=
  let l := SetPosition zero (of_Z 100) zero l in
  let l := SetRotation zero zero zero l in
  let l := with_mVelocity zero3 l in
  let l := with_mAcceleration zero3 l in
  let l := with_thrust zero false l in
  let l := with_mFuel l.(mMaxFuel) l in
  let l := with_mLanded false l in
  with_mCrashed false l.

End Lander.

(** ** Terrain ([Terrain.h]) *)


Record TerrainSegment : Type := mkSegment {
  x1 : float; y1 : float;
  x2 : float; y2 : float;
  seg_isLandingPad : bool
}.

Record TerrainTriangle : Type := mkTriangle {
  vertices : list float;
  normal : float3;
  tri_isLandingPad : bool
}.

(** The data of a terrain.  A terrain is also an entity; its transform is
    not read by the kernel and is left out. *)
Record Terrain : Type := mkTerrain {
  mSegments2D : list TerrainSegment;
  mTriangles3D : list TerrainTriangle;
  mHeightData : list float;
  terrain_mWidth : Z;
  terrain_mHeight : Z;
  terrain_mLength : Z
}.

(** The header declares the terrain queries and generators; their bodies
    ([Terrain.cpp]), the declarations of [Entity.h], the build flag
    [USE_OPENGL] and the [libm] calls of the 3D thrust model are not part
    of the sources.  They are the parameters of the development; the
    terrain queries are taken to answer without changing the lander. *)
Record Externals : Type := mkExternals {
  (** [Terrain::Terrain()] *)
  Terrain_ctor : Terrain;
  (** [Generate2D(width, height)] and [Generate3D(width, length, height)] *)
  Generate2D : Z -> Z -> Terrain -> Terrain;
  Generate3D : Z -> Z -> Z -> Terrain -> Terrain;
  (** [Terrain::Update(deltaTime)] *)
  Terrain_Update : float -> Terrain -> Terrain;
  (** [CheckCollision2D(lander, collisionHeight)]: the returned flag and
      the height left in the reference argument, which holds 0 on entry *)
  CheckCollision2D : Terrain -> Lander -> bool * float;
  IsValidLanding2D : Terrain -> Lander -> bool;
  CheckCollision3D : Terrain -> Lander -> bool * float;
  IsValidLanding3D : Terrain -> Lander -> bool;
  (** the default value of the third argument of [Entity::SetPosition] *)
  SetPosition_default_z : float;
  (** whether the program is built with [USE_OPENGL] *)
  USE_OPENGL : bool;
  (** [rotation * M_PI / 180.0f], computed in double and stored in a float *)
  radians : float -> float;
  (** [sin(angle) * force] and [cos(angle) * force], stored in a float *)
  sin_times : float -> float -> float;
  cos_times : float -> float -> float
}.

(** ** Physics ([Physics.cpp]) *)

Module Physics.

(** The physics engine does not own the lander and the terrain: [mLander]
    and [mTerrain] are pointers to the single lander and terrain of the
    game.  A pointer is modelled by the flag "is not null"; the object it
    points to is passed to the methods. *)
Record t : Type := mk {
  mGravity : float;
  mAirDensity : float;
  m3DMode : bool;
  mLander : bool;
  mTerrain : bool;
  mTimeScale : float
}.

Section WithExternals.

Variable X : Externals.

(** [Physics::Physics()]. *)
Definition ctor : t :=
  {| mGravity := literal 162 100;
     mAirDensity := zero;
     m3DMode := false;
     mLander := false;
     mTerrain := false;
     mTimeScale := one |}.

Definition RegisterLander (nonnull : bool) (p : t) : t :=
  mk p.(mGravity) p.(mAirDensity) p.(m3DMode) nonnull p.(mTerrain) p.(mTimeScale).

Definition RegisterTerrain (nonnull : bool) (p : t) : t :=
  mk p.(mGravity) p.(mAirDensity) p.(m3DMode) p.(mLander) nonnull p.(mTimeScale).

(** Modelled from the spec: [Physics::SetGravity] is declared in
    [Physics.h], which is not among the sources; difficulty selection maps
    to a gravity scalar, so it stores its argument in [mGravity]. *)
Definition SetGravity (g : float) (p : t) : t :=
  mk g p.(mAirDensity) p.(m3DMode) p.(mLander) p.(mTerrain) p.(mTimeScale).

Definition with_mTimeScale (s : float) (p : t) : t :=
  mk p.(mGravity) p.(mAirDensity) p.(m3DMode) p.(mLander) p.(mTerrain) s.

(** What a pointer field of the engine refers to. *)
Definition deref {A : Type} (nonnull : bool) (object : option A) : option A :=
  if nonnull then object else None.

Definition grounded (l : Lander) : bool := l.(mLanded) || l.(mCrashed).

(** [Physics::ApplyGravity(lander, deltaTime)]; the pointer argument is
    an [option], a method that returns early leaves the object as it is. *)
Definition ApplyGravity (p : t) (lander : option Lander) (deltaTime : float)
  : option Lander :=
  match lander with
  | None => None
  | Some l =>
    if grounded l then Some l
    else
      let v := l.(mVelocity) in
      Some (Lander.with_mVelocity
              (Float3 v.(at0)
                      (v.(at1) + p.(mGravity) * deltaTime * literal 1031 100)%f32
                      v.(at2)) l)
  end.

(** [Physics::ApplyThrust(lander, deltaTime)]. *)
Definition ApplyThrust (p : t) (lander : option Lander) (deltaTime : float)
  : option Lander :=
  match lander with
  | None => None
  | Some l =>
    if grounded l || negb l.(mThrustActive) then Some l
    else
      let thrustForce := (literal 25 10 * p.(mGravity) * l.(mThrustLevel))%f32 in
      let v := l.(mVelocity) in
      let r := l.(mRotation) in
      if negb p.(m3DMode) then
        Some (Lander.with_mVelocity
                (Float3 v.(at0) (v.(at1) - thrustForce * deltaTime)%f32 v.(at2)) l)
      else
        let rotX := X.(radians) r.(at0) in
        let rotZ := X.(radians) r.(at2) in
        let thrustX := X.(sin_times) rotZ thrustForce in
        let thrustY := X.(cos_times) rotZ thrustForce in
        let thrustZ := X.(sin_times) rotX thrustForce in
        Some (Lander.with_mVelocity
                (Float3 (v.(at0) - thrustX * deltaTime)
                        (v.(at1) - thrustY * deltaTime)
                        (v.(at2) - thrustZ * deltaTime))%f32 l)
  end.

(** One turn of the loop of [ApplyDrag] on the velocity component
    [speed]. *)
Definition drag_component (p : t) (l : Lander) (deltaTime speed : float) : float :=
  let dragCoefficient := literal 5 10 in
  let area := (l.(mWidth) * l.(mHeight))%f32 in
  let dragForce :=
    (literal 5 10 * p.(mAirDensity) * speed * abs speed * dragCoefficient * area)%f32 in
  if neqb speed zero
  then (speed - dragForce * deltaTime / l.(mMass))%f32
  else speed.

(** [Physics::ApplyDrag(lander, deltaTime)]: two components in 2D, three
    in 3D. *)
Definition ApplyDrag (p : t) (lander : option Lander) (deltaTime : float)
  : option Lander :=
  match lander with
  | None => None
  | Some l =>
    if grounded l || (p.(mAirDensity) <=? zero)%f32 then Some l
    else
      let v := l.(mVelocity) in
      Some (Lander.with_mVelocity
              (Float3 (drag_component p l deltaTime v.(at0))
                      (drag_component p l deltaTime v.(at1))
                      (if p.(m3DMode)
                       then drag_component p l deltaTime v.(at2)
                       else v.(at2))) l)
  end.

(** The outcome of a collision: the flag, and the velocity stopped. *)
Definition touch_down (valid three_d : bool) (l : Lander) : Lander :=
  let l := if valid then Lander.with_mLanded true l
           else Lander.with_mCrashed true l in
  let v := l.(mVelocity) in
  Lander.with_mVelocity
    (Float3 zero zero (if three_d then zero else v.(at2))) l.

(** [Physics::CheckCollisions2D()]: the returned flag and the lander. *)
Definition CheckCollisions2D (p : t) (lander : option Lander)
    (terrain : option Terrain) : bool * option Lander :=
  match deref p.(mLander) lander, deref p.(mTerrain) terrain with
  | Some l, Some t =>
    if grounded l then (false, lander)
    else
      let (hit, collisionHeight) := X.(CheckCollision2D) t l in
      if hit then
        let pos := l.(mPosition) in
        let l := Lander.SetPosition pos.(at0)
                   (collisionHeight - l.(mHeight) / of_Z 2)%f32
                   X.(SetPosition_default_z) l in
        (true, Some (touch_down (X.(IsValidLanding2D) t l) false l))
      else (false, lander)
  | _, _ => (false, lander)
  end.

(** [Physics::CheckCollisions3D()]. *)
Definition CheckCollisions3D (p : t) (lander : option Lander)
    (terrain : option Terrain) : bool * option Lander :=
  match deref p.(mLander) lander, deref p.(mTerrain) terrain with
  | Some l, Some t =>
    if grounded l then (false, lander)
    else
      let (hit, collisionHeight) := X.(CheckCollision3D) t l in
      if hit then
        let pos := l.(mPosition) in
        let l := Lander.SetPosition pos.(at0)
                   (collisionHeight - l.(mHeight) / of_Z 2)%f32
                   pos.(at2) l in
        (true, Some (touch_down (X.(IsValidLanding3D) t l) true l))
      else (false, lander)
  | _, _ => (false, lander)
  end.

(** [Physics::CheckCollisions()]. *)
Definition CheckCollisions (p : t) (lander : option Lander)
    (terrain : option Terrain) : bool * option Lander :=
  if p.(m3DMode) then CheckCollisions3D p lander terrain
  else CheckCollisions2D p lander terrain.

(** The Euler step of [Update2D] and of [Update3D]. *)
Definition integrate2D (deltaTime : float) (l : Lander) : Lander :=
  if grounded l then l
  else
    let v := l.(mVelocity) in
    let pos := l.(mPosition) in
    let newX := (pos.(at0) + v.(at0) * deltaTime)%f32 in
    let newY := (pos.(at1) + v.(at1) * deltaTime)%f32 in
    Lander.SetPosition newX newY X.(SetPosition_default_z) l.

Definition integrate3D (deltaTime : float) (l : Lander) : Lander :=
  if grounded l then l
  else
    let v := l.(mVelocity) in
    let pos := l.(mPosition) in
    let newX := (pos.(at0) + v.(at0) * deltaTime)%f32 in
    let newY := (pos.(at1) + v.(at1) * deltaTime)%f32 in
    let newZ := (pos.(at2) + v.(at2) * deltaTime)%f32 in
    Lander.SetPosition newX newY newZ l.

(** [Physics::Update2D(deltaTime)]: the lander after the step. *)
Definition Update2D (p : t) (lander : option Lander)
    (terrain : option Terrain) (deltaTime : float) : option Lander :=
  match deref p.(mLander) lander, deref p.(mTerrain) terrain with
  | Some _, Some _ =>
    let scaledDeltaTime := (deltaTime * p.(mTimeScale))%f32 in
    let lander := ApplyGravity p lander scaledDeltaTime in
    let lander := ApplyThrust p lander scaledDeltaTime in
    let lander := ApplyDrag p lander scaledDeltaTime in
    let lander := option_map (integrate2D deltaTime) lander in
    snd (CheckCollisions2D p lander terrain)
  | _, _ => lander
  end.

(** [Physics::Update3D(deltaTime)]. *)
Definition Update3D (p : t) (lander : option Lander)
    (terrain : option Terrain) (deltaTime : float) : option Lander :=
  match deref p.(mLander) lander, deref p.(mTerrain) terrain with
  | Some _, Some _ =>
    let lander := ApplyGravity p lander deltaTime in
    let lander := ApplyThrust p lander deltaTime in
    let lander := ApplyDrag p lander deltaTime in
    let lander := option_map (integrate3D deltaTime) lander in
    snd (CheckCollisions3D p lander terrain)
  | _, _ => lander
  end.

(** [Physics::Update(deltaTime)]. *)
Definition Update (p : t) (lander : option Lander)
    (terrain : option Terrain) (deltaTime : float) : option Lander :=
  if p.(m3DMode) then Update3D p lander terrain deltaTime
  else Update2D p lander terrain deltaTime.

End WithExternals.
End Physics.


(** ** Game ([Game.cpp]) *)

Inductive GameState : Type := READY | FLYING | LANDED | CRASHED.

Inductive Difficulty : Type := EASY | NORMAL | HARD.

(** The key codes that [Game::OnKeyDown] tells apart. *)
Inductive KeyCode : Type :=
  SDLK_r | SDLK_ESCAPE | SDLK_1 | SDLK_2 | SDLK_3 | SDLK_TAB | SDLK_other.

(** What the input handler answers during one [Game::ProcessInput]. *)
Record Input : Type := mkInput {
  IsStartActive : bool;
  IsThrustActive : bool;
  IsRotateLeftActive : bool;
  IsRotateRightActive : bool;
  IsResetActive : bool;
  IsQuitActive : bool
}.

(** Dereferencing a null pointer has no defined result: the methods of the
    game return [None] there. *)
Definition bind {A B : Type} (a : option A) (f : A -> option B) : option B :=
  match a with
  | Some x => f x
  | None => None
  end.

Notation "x <- a ;; b" := (bind a (fun x => b))
  (at level 61, a at next level, right associativity).

Module Game.

(** The members of [Game], and the two function-local statics of
    [Game::Update].  The input handler and the renderer are collaborators
    outside the kernel: only whether their pointer is null is kept. *)
Record t : Type := mk {
  mGameState : GameState;
  mDifficulty : Difficulty;
  m3DMode : bool;
  mScore : float;
  mElapsedTime : float;
  mFuelUsed : float;
  mLastFrameTime : Z;
  mWindowWidth : Z;
  mWindowHeight : Z;
  mIsRunning : bool;
  mLander : option Lander;
  mTerrain : option Terrain;
  mPhysics : option Physics.t;
  mInputHandler : bool;
  mRenderer : bool;
  fallStartTime : float;
  fallTimerStarted : bool
}.

Definition with_mGameState (s : GameState) (g : t) : t :=
  mk s g.(mDifficulty) g.(m3DMode) g.(mScore) g.(mElapsedTime) g.(mFuelUsed)
    g.(mLastFrameTime) g.(mWindowWidth) g.(mWindowHeight) g.(mIsRunning)
    g.(mLander) g.(mTerrain) g.(mPhysics) g.(mInputHandler) g.(mRenderer)
    g.(fallStartTime) g.(fallTimerStarted).

Definition with_mDifficulty (d : Difficulty) (g : t) : t :=
  mk g.(mGameState) d g.(m3DMode) g.(mScore) g.(mElapsedTime) g.(mFuelUsed)
    g.(mLastFrameTime) g.(mWindowWidth) g.(mWindowHeight) g.(mIsRunning)
    g.(mLander) g.(mTerrain) g.(mPhysics) g.(mInputHandler) g.(mRenderer)
    g.(fallStartTime) g.(fallTimerStarted).

Definition with_m3DMode (b : bool) (g : t) : t :=
  mk g.(mGameState) g.(mDifficulty) b g.(mScore) g.(mElapsedTime) g.(mFuelUsed)
    g.(mLastFrameTime) g.(mWindowWidth) g.(mWindowHeight) g.(mIsRunning)
    g.(mLander) g.(mTerrain) g.(mPhysics) g.(mInputHandler) g.(mRenderer)
    g.(fallStartTime) g.(fallTimerStarted).

Definition with_mScore (x : float) (g : t) : t :=
  mk g.(mGameState) g.(mDifficulty) g.(m3DMode) x g.(mElapsedTime) g.(mFuelUsed)
    g.(mLastFrameTime) g.(mWindowWidth) g.(mWindowHeight) g.(mIsRunning)
    g.(mLander) g.(mTerrain) g.(mPhysics) g.(mInputHandler) g.(mRenderer)
    g.(fallStartTime) g.(fallTimerStarted).

Definition with_mElapsedTime (x : float) (g : t) : t :=
  mk g.(mGameState) g.(mDifficulty) g.(m3DMode) g.(mScore) x g.(mFuelUsed)
    g.(mLastFrameTime) g.(mWindowWidth) g.(mWindowHeight) g.(mIsRunning)
    g.(mLander) g.(mTerrain) g.(mPhysics) g.(mInputHandler) g.(mRenderer)
    g.(fallStartTime) g.(fallTimerStarted).

Definition with_mFuelUsed (x : float) (g : t) : t :=
  mk g.(mGameState) g.(mDifficulty) g.(m3DMode) g.(mScore) g.(mElapsedTime) x
    g.(mLastFrameTime) g.(mWindowWidth) g.(mWindowHeight) g.(mIsRunning)
    g.(mLander) g.(mTerrain) g.(mPhysics) g.(mInputHandler) g.(mRenderer)
    g.(fallStartTime) g.(fallTimerStarted).

Definition with_mLastFrameTime (x : Z) (g : t) : t :=
  mk g.(mGameState) g.(mDifficulty) g.(m3DMode) g.(mScore) g.(mElapsedTime)
    g.(mFuelUsed) x g.(mWindowWidth) g.(mWindowHeight) g.(mIsRunning)
    g.(mLander) g.(mTerrain) g.(mPhysics) g.(mInputHandler) g.(mRenderer)
    g.(fallStartTime) g.(fallTimerStarted).

Definition with_window (w h : Z) (g : t) : t :=
  mk g.(mGameState) g.(mDifficulty) g.(m3DMode) g.(mScore) g.(mElapsedTime)
    g.(mFuelUsed) g.(mLastFrameTime) w h g.(mIsRunning)
    g.(mLander) g.(mTerrain) g.(mPhysics) g.(mInputHandler) g.(mRenderer)
    g.(fallStartTime) g.(fallTimerStarted).

Definition with_mIsRunning (b : bool) (g : t) : t :=
  mk g.(mGameState) g.(mDifficulty) g.(m3DMode) g.(mScore) g.(mElapsedTime)
    g.(mFuelUsed) g.(mLastFrameTime) g.(mWindowWidth) g.(mWindowHeight) b
    g.(mLander) g.(mTerrain) g.(mPhysics) g.(mInputHandler) g.(mRenderer)
    g.(fallStartTime) g.(fallTimerStarted).

Definition with_mLander (l : option Lander) (g : t) : t :=
  mk g.(mGameState) g.(mDifficulty) g.(m3DMode) g.(mScore) g.(mElapsedTime)
    g.(mFuelUsed) g.(mLastFrameTime) g.(mWindowWidth) g.(mWindowHeight)
    g.(mIsRunning) l g.(mTerrain) g.(mPhysics) g.(mInputHandler) g.(mRenderer)
    g.(fallStartTime) g.(fallTimerStarted).

Definition with_mTerrain (x : option Terrain) (g : t) : t :=
  mk g.(mGameState) g.(mDifficulty) g.(m3DMode) g.(mScore) g.(mElapsedTime)
    g.(mFuelUsed) g.(mLastFrameTime) g.(mWindowWidth) g.(mWindowHeight)
    g.(mIsRunning) g.(mLander) x g.(mPhysics) g.(mInputHandler) g.(mRenderer)
    g.(fallStartTime) g.(fallTimerStarted).

Definition with_mPhysics (x : option Physics.t) (g : t) : t :=
  mk g.(mGameState) g.(mDifficulty) g.(m3DMode) g.(mScore) g.(mElapsedTime)
    g.(mFuelUsed) g.(mLastFrameTime) g.(mWindowWidth) g.(mWindowHeight)
    g.(mIsRunning) g.(mLander) g.(mTerrain) x g.(mInputHandler) g.(mRenderer)
    g.(fallStartTime) g.(fallTimerStarted).

Definition with_mInputHandler (b : bool) (g : t) : t :=
  mk g.(mGameState) g.(mDifficulty) g.(m3DMode) g.(mScore) g.(mElapsedTime)
    g.(mFuelUsed) g.(mLastFrameTime) g.(mWindowWidth) g.(mWindowHeight)
    g.(mIsRunning) g.(mLander) g.(mTerrain) g.(mPhysics) b g.(mRenderer)
    g.(fallStartTime) g.(fallTimerStarted).

Definition with_mRenderer (b : bool) (g : t) : t :=
  mk g.(mGameState) g.(mDifficulty) g.(m3DMode) g.(mScore) g.(mElapsedTime)
    g.(mFuelUsed) g.(mLastFrameTime) g.(mWindowWidth) g.(mWindowHeight)
    g.(mIsRunning) g.(mLander) g.(mTerrain) g.(mPhysics) g.(mInputHandler) b
    g.(fallStartTime) g.(fallTimerStarted).

Definition with_fallTimer (start : float) (started : bool) (g : t) : t :=
  mk g.(mGameState) g.(mDifficulty) g.(m3DMode) g.(mScore) g.(mElapsedTime)
    g.(mFuelUsed) g.(mLastFrameTime) g.(mWindowWidth) g.(mWindowHeight)
    g.(mIsRunning) g.(mLander) g.(mTerrain) g.(mPhysics) g.(mInputHandler)
    g.(mRenderer) start started.

(** [Game::Game()]. *)
Definition ctor : t :=
  {| mGameState := READY;
     mDifficulty := NORMAL;
     m3DMode := false;
     mScore := zero;
     mElapsedTime := zero;
     mFuelUsed := zero;
     mLastFrameTime := 0;
     mWindowWidth := 800;
     mWindowHeight := 600;
     mIsRunning := false;
     mLander := None;
     mTerrain := None;
     mPhysics := None;
     mInputHandler := false;
     mRenderer := false;
     fallStartTime := zero;
     fallTimerStarted := false |}.

Section WithExternals.

Variable X : Externals.

(** The terrain regenerated for the current mode, in [Initialize] and in
    [Reset]. *)
Definition regenerate (g : t) (terrain : Terrain) : Terrain :=
  if g.(m3DMode)
  then X.(Generate3D) g.(mWindowWidth) g.(mWindowWidth) g.(mWindowHeight) terrain
  else X.(Generate2D) g.(mWindowWidth) g.(mWindowHeight) terrain.

(** The lander part of [Game::Reset]; [/] on [int] truncates. *)
Definition reset_lander (g : t) (l : Lander) : Lander :=
  let l := Lander.Reset l in
  let l := Lander.with_mActive true l in
  if g.(m3DMode) then
    Lander.SetPosition (of_Z (Z.quot g.(mWindowWidth) 2))
                       (of_Z (Z.quot g.(mWindowHeight) 3))
                       (of_Z (Z.quot g.(mWindowWidth) 2)) l
  else
    Lander.SetPosition (of_Z (Z.quot g.(mWindowWidth) 2)) (of_Z 100)
                       X.(SetPosition_default_z) l.

(** [Game::Reset()].  The last statement prints the position of the lander
    without a null check. *)
Definition Reset (g : t) : option t :=
  let g := with_mGameState FLYING g in
  let g := with_mScore zero g in
  let g := with_mElapsedTime zero g in
  let g := with_mFuelUsed zero g in
  let g := with_mLander (option_map (reset_lander g) g.(mLander)) g in
  let g := with_mTerrain (option_map (regenerate g) g.(mTerrain)) g in
  _ <- g.(mLander) ;;
  Some g.

(** [Game::Shutdown()]. *)
Definition Shutdown (g : t) : t :=
  let g := with_mIsRunning false g in
  let g := with_mInputHandler false g in
  let g := with_mRenderer false g in
  let g := with_mPhysics None g in
  let g := with_mTerrain None g in
  with_mLander None g.

(** The first half of [Game::Initialize]: the components are created, a 3D
    game without OpenGL falls back to 2D, and the renderer is created. *)
Definition create_components (g : t) : t :=
  let g := with_window 800 600 g in
  let g := with_mLander (Some Lander.ctor) g in
  let g := with_mTerrain (Some X.(Terrain_ctor)) g in
  let g := with_mPhysics (Some Physics.ctor) g in
  let g := with_mInputHandler true g in
  let g := if g.(m3DMode) && negb X.(USE_OPENGL) then with_m3DMode false g else g in
  with_mRenderer true g.

(** The registration of lander and terrain with the engine, and the first
    terrain. *)
Definition register_entities (g : t) : t :=
  let g := with_mPhysics
             (option_map (fun p => Physics.RegisterTerrain true
                                     (Physics.RegisterLander true p))
                         g.(mPhysics)) g in
  with_mTerrain (option_map (regenerate g) g.(mTerrain)) g.

(** [Game::Initialize()]: the returned flag and the game.  [rendererOk] is
    the answer of [mRenderer->Initialize], [ticks] that of
    [SDL_GetTicks]. *)
Definition Initialize (rendererOk : bool) (ticks : Z) (g : t) : option (bool * t) :=
  let g := create_components g in
  if negb rendererOk then Some (false, g)
  else
    let g := register_entities g in
    g <- Reset g ;;
    let g := with_mIsRunning true g in
    Some (true, with_mLastFrameTime ticks g).

(** [Game::SetDifficulty(difficulty)]. *)
Definition SetDifficulty (difficulty : Difficulty) (g : t) : option t :=
  let g := with_mDifficulty difficulty g in
  p <- g.(mPhysics) ;;
  let gravity := match difficulty with
                 | EASY => of_Z 1
                 | NORMAL => literal 162 100
                 | HARD => of_Z 2
                 end in
  let g := with_mPhysics (Some (Physics.SetGravity gravity p)) g in
  l <- g.(mLander) ;;
  let g := with_mLander (Some (Lander.ApplyThrust zero l)) g in
  Reset g.

(** [Game::SetRenderingMode(use3D)]. *)
Definition SetRenderingMode (use3D rendererOk : bool) (ticks : Z) (g : t) : option t :=
  if negb (Bool.eqb g.(m3DMode) use3D) then
    let g := with_m3DMode use3D g in
    if g.(mIsRunning) then
      r <- Initialize rendererOk ticks (Shutdown g) ;;
      Some (snd r)
    else Some g
  else Some g.

(** The fuel tracking of [Game::ProcessInput], after the thrust command:
    [originalFuel] and [newFuel] are two copies of one reading. *)
Definition track_fuel (l : Lander) (g : t) : t :=
  let originalFuel := l.(mFuel) in
  let newFuel := originalFuel in
  if (originalFuel >? newFuel)%f32
  then with_mFuelUsed (g.(mFuelUsed) + (originalFuel - newFuel))%f32 g
  else g.

(** The thrust command of the FLYING branch of [Game::ProcessInput]. *)
Definition thrust_input (input : Input) (g : t) : option t :=
  if input.(IsThrustActive) then
    l <- g.(mLander) ;;
    let l := Lander.ApplyThrust one l in
    Some (track_fuel l (with_mLander (Some l) g))
  else
    l <- g.(mLander) ;;
    Some (with_mLander (Some (Lander.ApplyThrust zero l)) g).

(** The two rotation commands; [loops] bounds the turns of their
    normalisation loops. *)
Definition rotate_left_input (loops : nat) (input : Input) (g : t) : option t :=
  if input.(IsRotateLeftActive) then
    l <- g.(mLander) ;;
    l <- Lander.RotateLeft loops (of_Z 2) l ;;
    Some (with_mLander (Some l) g)
  else Some g.

Definition rotate_right_input (loops : nat) (input : Input) (g : t) : option t :=
  if input.(IsRotateRightActive) then
    l <- g.(mLander) ;;
    l <- Lander.RotateRight loops (of_Z 2) l ;;
    Some (with_mLander (Some l) g)
  else Some g.

(** [Game::ProcessInput()]. *)
Definition ProcessInput (loops : nat) (input : Input) (g : t) : option t :=
  if g.(mInputHandler) then
    g <- match g.(mGameState) with
         | READY =>
           Some (if input.(IsStartActive) then with_mGameState FLYING g else g)
         | FLYING =>
           g <- thrust_input input g ;;
           g <- rotate_left_input loops input g ;;
           rotate_right_input loops input g
         | LANDED | CRASHED =>
           if input.(IsResetActive) then Reset g else Some g
         end ;;
    Some (if input.(IsQuitActive) then with_mIsRunning false g else g)
  else Some g.

(** The first block of [Game::Update]: physics, lander and outcome while
    flying. *)
Definition update_flying (deltaTime : float) (g : t) : t :=
  match g.(mGameState) with
  | FLYING =>
    let g := match g.(mPhysics) with
             | Some p =>
               with_mLander
                 (Physics.Update X p g.(mLander) g.(mTerrain) deltaTime) g
             | None => g
             end in
    let g := match g.(mLander) with
             | Some l =>
               let l := Lander.Update deltaTime l in
               let g := with_mLander (Some l) g in
               if l.(mLanded) then
                 let g := with_mGameState LANDED g in
                 let fuelRemaining := (l.(mFuel) / l.(mMaxFuel))%f32 in
                 with_mScore (fuelRemaining * of_Z 1000)%f32 g
               else if l.(mCrashed) then
                 let g := with_mGameState CRASHED g in
                 with_mScore zero g
               else g
             | None => g
             end in
    with_mElapsedTime (g.(mElapsedTime) + deltaTime)%f32 g
  | _ => g
  end.

(** The fall-timer block of [Game::Update], which reads the lander without
    a null check while the state is FLYING. *)
Definition update_fall_timer (g : t) : option t :=
  match g.(mGameState) with
  | FLYING =>
    let g := if negb g.(fallTimerStarted)
             then with_fallTimer g.(mElapsedTime) true g else g in
    l <- g.(mLander) ;;
    Some (if l.(mLanded) || l.(mCrashed)
          then with_fallTimer g.(fallStartTime) false g else g)
  | _ => Some (with_fallTimer g.(fallStartTime) false g)
  end.

(** [Game::Update(deltaTime)].  The camera and light settings that end the
    method are written to the renderer only. *)
Definition Update (deltaTime : float) (g : t) : option t :=
  let g := update_flying deltaTime g in
  g <- update_fall_timer g ;;
  Some (with_mTerrain (option_map (X.(Terrain_Update) deltaTime) g.(mTerrain)) g).

(** [Game::OnKeyDown(keyCode)]. *)
Definition OnKeyDown (keyCode : KeyCode) (rendererOk : bool) (ticks : Z) (g : t)
  : option t :=
  match keyCode with
  | SDLK_r => Reset g
  | SDLK_ESCAPE => Some (with_mIsRunning false g)
  | SDLK_1 => SetDifficulty EASY g
  | SDLK_2 => SetDifficulty NORMAL g
  | SDLK_3 => SetDifficulty HARD g
  | SDLK_TAB => SetRenderingMode (negb g.(m3DMode)) rendererOk ticks g
  | SDLK_other => Some g
  end.

(** The step of [Game::Run]: the time since the last frame in seconds,
    from the unsigned tick counters, capped at 0.1. *)
Definition frame_deltaTime (currentTime lastFrameTime : Z) : float :=
  let deltaTime := (of_Z ((currentTime - lastFrameTime) mod 2 ^ 32) / of_Z 1000)%f32 in
  if (deltaTime >? literal 1 10)%f32 then literal 1 10 else deltaTime.

(** One turn of the loop of [Game::Run]; rendering changes nothing in the
    kernel. *)
Definition frame (loops : nat) (input : Input) (currentTime : Z) (g : t) : option t :=
  let deltaTime := frame_deltaTime currentTime g.(mLastFrameTime) in
  let g := with_mLastFrameTime currentTime g in
  g <- ProcessInput loops input g ;;
  Update deltaTime g.

(** The calls that the outside world makes on a game. *)
Inductive call : Type :=
| CallInitialize (rendererOk : bool) (ticks : Z)
| CallShutdown
| CallReset
| CallSetDifficulty (difficulty : Difficulty)
| CallSetRenderingMode (use3D rendererOk : bool) (ticks : Z)
| CallProcessInput (loops : nat) (input : Input)
| CallUpdate (deltaTime : float)
| CallOnKeyDown (keyCode : KeyCode) (rendererOk : bool) (ticks : Z).

Definition exec (c : call) (g : t) : option t :=
  match c with
  | CallInitialize rendererOk ticks =>
    r <- Initialize rendererOk ticks g ;; Some (snd r)
  | CallShutdown => Some (Shutdown g)
  | CallReset => Reset g
  | CallSetDifficulty d => SetDifficulty d g
  | CallSetRenderingMode use3D rendererOk ticks =>
    SetRenderingMode use3D rendererOk ticks g
  | CallProcessInput loops input => ProcessInput loops input g
  | CallUpdate deltaTime => Update deltaTime g
  | CallOnKeyDown keyCode rendererOk ticks => OnKeyDown keyCode rendererOk ticks g
  end.

(** A sequence of calls, one after the other. *)
Fixpoint run (cs : list call) (g : t) : option t :=
  match cs with
  | [] => Some g
  | c :: cs => g <- exec c g ;; run cs g
  end.

(** The states of a game: the constructed one, and those that a sequence
    of calls with a defined result leads to. *)
Inductive reachable : t -> Prop :=
| reachable_ctor : reachable ctor
| reachable_exec : forall c g g',
    reachable g -> exec c g = Some g' -> reachable g'.

End WithExternals.
End Game.


(** * Properties *)

Unset Implicit Arguments.

(** ** The option monad *)

Lemma bind_Some {A B : Type} (a : option A) (f : A -> option B) (y : B) :
  bind a f = Some y -> exists x, a = Some x /\ f x = Some y.
Proof.
  destruct a as [x|]; simpl; intros H; [exists x; auto | discriminate].
Qed.

Lemma Some_inj {A : Type} (x y : A) : Some x = Some y -> x = y.
Proof. intros H; injection H; auto. Qed.

(** ** Comparisons of binary32 numbers *)

Lemma compare_cont_refl (m : positive) : Pos.compare_cont Eq m m = Eq.
Proof. apply Pos.compare_refl. Qed.

Lemma SFcompare_refl (x : float) : SFcompare x x = Some Eq \/ SFcompare x x = None.
Proof.
  destruct x as [s|s| |s m e]; simpl; auto; destruct s; auto;
    rewrite Z.compare_refl, compare_cont_refl; auto.
Qed.

Lemma ltb_irrefl (x : float) : (x <? x)%f32 = false.
Proof.
  unfold ltb, SFltb. destruct (SFcompare_refl x) as [H|H]; rewrite H; reflexivity.
Qed.

Lemma gtb_irrefl (x : float) : (x >? x)%f32 = false.
Proof. apply ltb_irrefl. Qed.

Lemma ltb_leb (a b : float) : (a <? b)%f32 = true -> (a <=? b)%f32 = true.
Proof.
  unfold ltb, leb, SFltb, SFleb.
  destruct (SFcompare a b) as [[ | | ]|]; congruence.
Qed.

(** ** Rounding of binary32 numbers *)

Section Rounding.

Local Open Scope Z_scope.

(** The number of binary digits of a mantissa. *)
Lemma digits2_pos_size (m : positive) : digits2_pos m = Pos.size m.
Proof. induction m; simpl; congruence. Qed.

Lemma digits2_pos_bounds (m : positive) :
  (2 ^ (Zpos (digits2_pos m) - 1) <= Zpos m < 2 ^ Zpos (digits2_pos m)).
Proof.
  rewrite digits2_pos_size.
  pose proof (Pos.size_gt m) as Hgt. pose proof (Pos.size_le m) as Hle.
  split.
  - apply Pos2Z.pos_le_pos in Hle. rewrite Pos2Z.inj_pow in Hle.
    replace (Zpos (Pos.size m)) with (Z.succ (Zpos (Pos.size m) - 1)) in Hle by lia.
    rewrite Z.pow_succ_r in Hle by lia. lia.
  - apply Pos2Z.pos_lt_pos in Hgt. rewrite Pos2Z.inj_pow in Hgt. exact Hgt.
Qed.


Lemma digits2_pos_le (a b : positive) :
  Zpos a <= Zpos b -> Zpos (digits2_pos a) <= Zpos (digits2_pos b).
Proof.
  intros H.
  destruct (digits2_pos_bounds a) as [La _].
  destruct (digits2_pos_bounds b) as [_ Ub].
  destruct (Z_le_gt_dec (Zpos (digits2_pos a)) (Zpos (digits2_pos b))) as [|Hgt];
    [assumption|exfalso].
  assert (2 ^ Zpos (digits2_pos b) <= 2 ^ (Zpos (digits2_pos a) - 1))
    by (apply Z.pow_le_mono_r; lia).
  lia.
Qed.

(** A positive number below [2 ^ k] has at most [k] digits. *)
Lemma digits2_pos_lt_pow (a : positive) (k : Z) :
  0 <= k -> Zpos a < 2 ^ k -> Zpos (digits2_pos a) <= k.
Proof.
  intros Hk H.
  destruct (digits2_pos_bounds a) as [La _].
  destruct (Z_le_gt_dec (Zpos (digits2_pos a)) k) as [|Hgt]; [assumption|exfalso].
  assert (2 ^ k <= 2 ^ (Zpos (digits2_pos a) - 1))
    by (apply Z.pow_le_mono_r; lia).
  lia.
Qed.

Lemma iter_xO_value (m d : positive) :
  Zpos (Pos.iter xO m d) = Zpos m * 2 ^ Zpos d.
Proof.
  induction d as [|d IH] using Pos.peano_ind.
  - simpl. lia.
  - rewrite Pos.iter_succ, Pos2Z.inj_xO, IH, Pos2Z.inj_succ, Z.pow_succ_r by lia.
    ring.
Qed.

Lemma iter_xO_digits (m d : positive) :
  Zpos (digits2_pos (Pos.iter xO m d)) = Zpos (digits2_pos m) + Zpos d.
Proof.
  induction d as [|d IH] using Pos.peano_ind.
  - simpl. lia.
  - rewrite Pos.iter_succ. simpl digits2_pos. rewrite Pos2Z.inj_succ, IH. lia.
Qed.

(** [shl_align] towards a smaller exponent multiplies the mantissa. *)
Lemma shl_align_spec (m : positive) (e e' : Z) :
  let '(m', e'') := shl_align m e e' in
  e'' = Z.min e e' /\
  Zpos m' = Zpos m * 2 ^ (e - e'') /\
  Zpos (digits2_pos m') + e'' = Zpos (digits2_pos m) + e.
Proof.
  unfold shl_align.
  destruct (e' - e) as [|d|d] eqn:E.
  - replace (e - e) with 0 by lia. rewrite Z.min_l by lia. simpl. lia.
  - replace (e - e) with 0 by lia. rewrite Z.min_l by lia. simpl. lia.
  - rewrite Z.min_r by lia. rewrite iter_xO_value, iter_xO_digits.
    replace (e - e') with (Zpos d) by lia. lia.
Qed.

(** Shifting a record to the right divides its mantissa. *)
Lemma shr_1_spec (mrs : shr_record) :
  0 <= shr_m mrs -> shr_m (shr_1 mrs) = shr_m mrs / 2.
Proof.
  destruct mrs as [m r s]. simpl. intros Hm.
  destruct m as [|p|p]; [reflexivity| |lia].
  destruct p as [p|p|]; simpl shr_m.
  - rewrite Pos2Z.inj_xI. apply Z.div_unique with 1; lia.
  - rewrite Pos2Z.inj_xO. apply Z.div_unique with 0; lia.
  - reflexivity.
Qed.

Lemma iter_pos_shr_1_spec (n : positive) (mrs : shr_record) :
  0 <= shr_m mrs ->
  shr_m (iter_pos shr_1 n mrs) = shr_m mrs / 2 ^ Zpos n.
Proof.
  revert mrs. induction n as [n IH|n IH|]; intros mrs Hm; simpl iter_pos.
  - assert (H1 : 0 <= shr_m (shr_1 mrs))
      by (rewrite shr_1_spec by assumption; apply Z.div_pos; lia).
    assert (H2 : 0 <= shr_m (iter_pos shr_1 n (shr_1 mrs)))
      by (rewrite IH by assumption; apply Z.div_pos; lia).
    rewrite IH, IH, shr_1_spec by assumption.
    assert (E : 2 ^ Zpos n~1 = 2 * (2 ^ Zpos n * 2 ^ Zpos n)).
    { replace (Zpos n~1) with (1 + (Zpos n + Zpos n)) by lia.
      rewrite !Z.pow_add_r by lia. reflexivity. }
    rewrite E, !Z.div_div by lia. reflexivity.
  - assert (H2 : 0 <= shr_m (iter_pos shr_1 n mrs))
      by (rewrite IH by assumption; apply Z.div_pos; lia).
    rewrite IH, IH by assumption.
    assert (E : 2 ^ Zpos n~0 = 2 ^ Zpos n * 2 ^ Zpos n).
    { replace (Zpos n~0) with (Zpos n + Zpos n) by lia.
      rewrite !Z.pow_add_r by lia. reflexivity. }
    rewrite E, !Z.div_div by lia. reflexivity.
  - rewrite shr_1_spec by assumption. reflexivity.
Qed.

Lemma shr_spec (mrs : shr_record) (e n : Z) :
  0 <= shr_m mrs ->
  shr_m (fst (shr mrs e n)) = shr_m mrs / 2 ^ Z.max 0 n /\
  snd (shr mrs e n) = e + Z.max 0 n /\
  (n <= 0 -> fst (shr mrs e n) = mrs).
Proof.
  intros Hm. unfold shr. destruct n as [|p|p]; simpl fst; simpl snd.
  - rewrite Z.div_1_r. repeat split; lia.
  - rewrite iter_pos_shr_1_spec by assumption.
    rewrite Z.max_r by lia. repeat split; lia.
  - rewrite Z.max_l by lia. rewrite Z.div_1_r. repeat split; lia.
Qed.

Lemma round_nearest_even_bounds (m : Z) (l : location) :
  m <= round_nearest_even m l <= m + 1.
Proof.
  destruct l as [|[ | | ]]; simpl; try lia.
  destruct (Z.even m); lia.
Qed.

Lemma fexp_eq (e : Z) : fexp prec emax e = Z.max (e - 24) (-149).
Proof. reflexivity. Qed.

(** Two positive finite numbers compare by exponent, then by mantissa. *)
Lemma SFltb_finite_false (mx m : positive) (ex e : Z) :
  e <= ex -> (e = ex -> Zpos m <= Zpos mx) ->
  SFltb (S754_finite false mx ex) (S754_finite false m e) = false.
Proof.
  intros He Hm. unfold SFltb, SFcompare.
  destruct (Z.compare_spec ex e) as [E|E|E]; [|lia|reflexivity].
  change (Pos.compare_cont Eq mx m) with (Pos.compare mx m).
  destruct (Pos.compare_spec mx m) as [C|C|C]; try reflexivity.
  assert (Zpos m <= Zpos mx) by (apply Hm; lia). lia.
Qed.

(** The sign of a rounded number is the sign asked for. *)
Definition has_sign (s : bool) (x : spec_float) : Prop :=
  match x with
  | S754_zero s' | S754_infinity s' | S754_finite s' _ _ => s' = s
  | S754_nan => True
  end.

Lemma binary_round_aux_sign (s : bool) (m e : Z) (l : location) :
  has_sign s (binary_round_aux prec emax s m e l).
Proof.
  unfold binary_round_aux.
  destruct (shr_fexp prec emax m e l) as [mrs' e'].
  destruct (shr_fexp prec emax _ e' loc_Exact) as [mrs'' e''].
  destruct (shr_m mrs''); [reflexivity| |exact I].
  destruct (e'' <=? emax - prec); reflexivity.
Qed.




Lemma has_sign_false_not_negative (x : float) :
  has_sign false x -> ltb x zero = false.
Proof. destruct x as [s|s| |s m e]; simpl; intros H; try rewrite H; reflexivity. Qed.



(** The product of two numbers that are not negative is not negative (it
    may be NaN). *)
Lemma mul_not_negative (a b : float) :
  ltb a zero = false -> ltb b zero = false -> ltb (mul a b) zero = false.
Proof.
  destruct a as [sa|sa| |sa ma ea], b as [sb|sb| |sb mb eb];
    try destruct sa; try destruct sb; try reflexivity; try discriminate.
  intros _ _. apply has_sign_false_not_negative.
  unfold mul, SFmul. apply binary_round_aux_sign.
Qed.



(** The digits of a quotient by a power of two. *)
Lemma digits2_pos_div_pow (m q : positive) (n : Z) :
  0 <= n -> Zpos m / 2 ^ n = Zpos q ->
  Zpos (digits2_pos q) = Zpos (digits2_pos m) - n.
Proof.
  intros Hn Hq.
  assert (Hp : 0 < 2 ^ n) by (apply Z.pow_pos_nonneg; lia).
  pose proof (Z.mul_div_le (Zpos m) (2 ^ n) Hp) as Hlo.
  pose proof (Z.mul_succ_div_gt (Zpos m) (2 ^ n) Hp) as Hhi.
  rewrite Hq in Hlo, Hhi.
  destruct (digits2_pos_bounds m) as [Lm Um].
  destruct (digits2_pos_bounds q) as [Lq Uq].
  assert (H1 : Zpos (digits2_pos m) <= Zpos (digits2_pos q) + n).
  { apply digits2_pos_lt_pow; [lia|]. rewrite Z.pow_add_r by lia. nia. }
  assert (H2 : Zpos (digits2_pos q) + n <= Zpos (digits2_pos m)).
  { destruct (Z_le_gt_dec (Zpos (digits2_pos q) + n) (Zpos (digits2_pos m)))
      as [|Hgt]; [assumption|exfalso].
    assert (2 ^ Zpos (digits2_pos m) <= 2 ^ (Zpos (digits2_pos q) - 1 + n))
      by (apply Z.pow_le_mono_r; lia).
    rewrite Z.pow_add_r in H by lia. nia. }
  lia.
Qed.

(** A rounded number is a valid binary32 number. *)
Lemma binary_round_aux_valid (s : bool) (mz : positive) (e1 : Z) :
  e1 <= fexp prec emax (Zpos (digits2_pos mz) + e1) ->
  valid_binary prec emax (binary_round_aux prec emax s (Zpos mz) e1 loc_Exact) = true.
Proof.
  intros He1.
  unfold binary_round_aux, shr_fexp.
  change (Zdigits2 (Zpos mz)) with (Zpos (digits2_pos mz)).
  set (f := fexp prec emax (Zpos (digits2_pos mz) + e1)) in *.
  assert (Hf : f = Z.max (Zpos (digits2_pos mz) + e1 - 24) (-149)) by reflexivity.
  set (rec0 := shr_record_of_loc (Zpos mz) loc_Exact).
  assert (H0 : 0 <= shr_m rec0) by (simpl; lia).
  destruct (shr_spec rec0 e1 (f - e1) H0) as [S1 [S2 S3]].
  destruct (shr rec0 e1 (f - e1)) as [mrs' e'] eqn:E1.
  simpl fst in S1, S3. simpl snd in S2. simpl shr_m in S1.
  rewrite Z.max_r in S1, S2 by lia.
  assert (He' : e' = f) by lia. clear S2. subst e'.
  assert (Hp : 0 < 2 ^ (f - e1)) by (apply Z.pow_pos_nonneg; lia).
  assert (Hm1 : 0 <= shr_m mrs') by (rewrite S1; apply Z.div_pos; lia).
  pose proof (round_nearest_even_bounds (shr_m mrs') (loc_of_shr_record mrs')) as B.
  set (m2 := round_nearest_even (shr_m mrs') (loc_of_shr_record mrs')) in *.
  (* the exponent of the first shift fits the rounded mantissa or is too small *)
  assert (Hfit : f <= fexp prec emax (Zdigits2 m2 + f)).
  { rewrite fexp_eq.
    destruct (shr_m mrs') as [|q1|q1] eqn:Eq1; [|destruct m2 as [|q2|q2]; try lia|lia].
    - assert (Zpos mz < 2 ^ (f - e1)).
      { destruct (Z_lt_le_dec (Zpos mz) (2 ^ (f - e1))) as [|Hge]; [assumption|exfalso].
        assert (1 <= Zpos mz / 2 ^ (f - e1))
          by (apply Z.div_le_lower_bound; lia).
        lia. }
      assert (Zpos (digits2_pos mz) <= f - e1) by (apply digits2_pos_lt_pow; lia).
      lia.
    - symmetry in S1. apply digits2_pos_div_pow in S1; [|lia].
      assert (Zpos (digits2_pos q1) <= Zpos (digits2_pos q2))
        by (apply digits2_pos_le; lia).
      simpl Zdigits2. lia. }
  clearbody m2.
  set (rec1 := shr_record_of_loc m2 loc_Exact).
  assert (H1 : 0 <= shr_m rec1) by (simpl; lia).
  set (n2 := fexp prec emax (Zdigits2 m2 + f) - f) in *.
  destruct (shr_spec rec1 f n2 H1) as [T1 [T2 T3]].
  destruct (shr rec1 f n2) as [mrs'' e''] eqn:E2.
  simpl fst in T1, T3. simpl snd in T2. simpl shr_m in T1.
  rewrite Z.max_r in T1, T2 by (unfold n2; lia).
  destruct (shr_m mrs'') as [|m3|m3] eqn:E3; try reflexivity.
  destruct (e'' <=? emax - prec) eqn:Hle; [|reflexivity].
  simpl. unfold bounded. rewrite Hle, andb_true_r.
  unfold canonical_mantissa. apply Z.eqb_eq.
  assert (Hq : 0 < m2).
  { destruct (Z.eq_dec m2 0) as [Hz|Hz]; [|lia].
    rewrite Hz in T1. rewrite Z.div_0_l in T1; [lia|].
    apply Z.pow_nonzero; unfold n2; lia. }
  destruct m2 as [|q|q]; try lia.
  symmetry in T1. apply digits2_pos_div_pow in T1; [|unfold n2; lia].
  rewrite T1, T2. unfold n2 in *. simpl Zdigits2 in *. rewrite !fexp_eq in *. lia.
Qed.

Lemma binary_round_valid (s : bool) (m : positive) (e : Z) :
  valid_binary prec emax (binary_round prec emax s m e) = true.
Proof.
  unfold binary_round.
  pose proof (shl_align_spec m e (fexp prec emax (Zpos (digits2_pos m) + e))) as S.
  destruct (shl_align m e _) as [mz e1].
  destruct S as [Se [_ Sd]].
  apply binary_round_aux_valid. rewrite Sd. lia.
Qed.

Lemma binary_normalize_valid (m e : Z) (s : bool) :
  valid_binary prec emax (binary_normalize prec emax m e s) = true.
Proof.
  destruct m; simpl; [reflexivity| |]; apply binary_round_valid.
Qed.

(** The clamped difference of [Lander::Update] is a valid number when the
    fuel is one and is positive. *)
Lemma sub_clamped_valid (x c : float) :
  valid_binary prec emax x = true -> ltb zero x = true ->
  valid_binary prec emax (max zero (sub x c)) = true.
Proof.
  intros Hv Hx. unfold max.
  destruct (ltb zero (sub x c)); [|reflexivity].
  destruct x as [sx|sx| |sx mx ex]; try discriminate Hx;
    destruct c as [sc|sc| |sc mc ec]; try destruct sx; try destruct sc;
    try reflexivity; try exact Hv; try discriminate Hx;
    apply binary_normalize_valid.
Qed.

End Rounding.

(** A test terrain for the examples.  Gravity adds to the second velocity
    component, so the lander falls towards larger [y]; the ground is flat at
    [y = 120] and is all landing pad, and touching down is valid at a
    vertical speed of at most 2.  The third coordinate defaults to 0 and
    the build has no OpenGL. *)
Definition flat_ground : Externals :=
  {| Terrain_ctor := mkTerrain [] [] [] 0 0 0;
     Generate2D := fun w h _ =>
       mkTerrain [mkSegment zero (of_Z 120) (of_Z w) (of_Z 120) true] [] [] w h 0;
     Generate3D := fun w len h _ => mkTerrain [] [] [] w h len;
     Terrain_Update := fun _ t => t;
     CheckCollision2D := fun _ l =>
       ((of_Z 120 <=? l.(mPosition).(at1) + l.(mHeight) / of_Z 2)%f32, of_Z 120);
     IsValidLanding2D := fun _ l => (abs l.(mVelocity).(at1) <=? of_Z 2)%f32;
     CheckCollision3D := fun _ l =>
       ((of_Z 120 <=? l.(mPosition).(at1) + l.(mHeight) / of_Z 2)%f32, of_Z 120);
     IsValidLanding3D := fun _ l => (abs l.(mVelocity).(at1) <=? of_Z 2)%f32;
     SetPosition_default_z := zero;
     USE_OPENGL := false;
     radians := fun a => a;
     sin_times := fun _ _ => zero;
     cos_times := fun _ f => f |}.

(** A lander in flight over the test terrain at [y = 100], and one whose
    feet, half its height of 30 below [y = 110], are in the ground. *)
Definition lander_aloft : Lander :=
  Lander.SetPosition (of_Z 400) (of_Z 100) zero Lander.ctor.

Definition lander_low : Lander :=
  Lander.SetPosition (of_Z 400) (of_Z 110) zero Lander.ctor.

Definition physics_ready : Physics.t :=
  Physics.RegisterTerrain true (Physics.RegisterLander true Physics.ctor).

Definition physics_ready_3D : Physics.t :=
  Physics.mk (literal 162 100) zero true true true one.

Definition terrain_flat : Terrain :=
  mkTerrain [mkSegment zero (of_Z 120) (of_Z 800) (of_Z 120) true] [] [] 800 600 0.

(** ** The landing-outcome state machine *)

Section Outcome.

Variable X : Externals.

(** What the terrain reports for the mode of the engine, the lander moved
    onto the reported height, and the verdict on that lander. *)
Definition reported (p : Physics.t) (t : Terrain) (l : Lander) : bool * float :=
  if p.(Physics.m3DMode) then X.(CheckCollision3D) t l else X.(CheckCollision2D) t l.

Definition snapped (p : Physics.t) (t : Terrain) (l : Lander) : Lander :=
  let pos := l.(mPosition) in
  Lander.SetPosition pos.(at0)
    (snd (reported p t l) - l.(mHeight) / of_Z 2)%f32
    (if p.(Physics.m3DMode) then pos.(at2) else X.(SetPosition_default_z)) l.

Definition verdict (p : Physics.t) (t : Terrain) (l : Lander) : bool :=
  if p.(Physics.m3DMode) then X.(IsValidLanding3D) t (snapped p t l)
  else X.(IsValidLanding2D) t (snapped p t l).

Lemma CheckCollisions_flying (p : Physics.t) (t : Terrain) (l : Lander) :
  Physics.grounded l = false ->
  p.(Physics.mLander) = true -> p.(Physics.mTerrain) = true ->
  Physics.CheckCollisions X p (Some l) (Some t) =
  if fst (reported p t l)
  then (true, Some (Physics.touch_down (verdict p t l) p.(Physics.m3DMode)
                      (snapped p t l)))
  else (false, Some l).
Proof.
  intros Hg HL HT.
  unfold Physics.CheckCollisions, Physics.CheckCollisions2D,
    Physics.CheckCollisions3D, reported, verdict, snapped, reported.
  rewrite HL, HT; simpl. rewrite Hg.
  destruct (Physics.m3DMode p).
  - destruct (CheckCollision3D X t l) as [[|] h]; reflexivity.
  - destruct (CheckCollision2D X t l) as [[|] h]; reflexivity.
Qed.

Lemma CheckCollisions_grounded (p : Physics.t) (t : option Terrain) (l : Lander) :
  Physics.grounded l = true ->
  Physics.CheckCollisions X p (Some l) t = (false, Some l).
Proof.
  intros Hg.
  unfold Physics.CheckCollisions, Physics.CheckCollisions2D,
    Physics.CheckCollisions3D, Physics.deref.
  destruct (Physics.m3DMode p), (Physics.mLander p), (Physics.mTerrain p), t;
    try reflexivity; rewrite Hg; reflexivity.
Qed.

Lemma touch_down_flags (valid three_d : bool) (l : Lander) :
  Physics.grounded l = false ->
  (Physics.touch_down valid three_d l).(mLanded) = valid /\
  (Physics.touch_down valid three_d l).(mCrashed) = negb valid.
Proof.
  unfold Physics.grounded. intros Hg.
  apply orb_false_iff in Hg. destruct Hg as [Hl Hc].
  destruct valid; simpl; rewrite ?Hl, ?Hc; auto.
Qed.

(** No call of [Physics::CheckCollisions], whatever the engine, the flags
    of the lander and the terrain, sets both flags. *)
Lemma CheckCollisions_exclusive (p : Physics.t) (l : Lander) (t : option Terrain) :
  l.(mLanded) && l.(mCrashed) = false ->
  exists l',
    snd (Physics.CheckCollisions X p (Some l) t) = Some l' /\
    l'.(mLanded) && l'.(mCrashed) = false.
Proof.
  intros Hx.
  destruct (Physics.grounded l) eqn:Hg.
  - rewrite (CheckCollisions_grounded p t l Hg). exists l. auto.
  - destruct (Physics.mLander p) eqn:HL, (Physics.mTerrain p) eqn:HT, t as [t|];
      try (exists l; split; [|exact Hx];
           unfold Physics.CheckCollisions, Physics.CheckCollisions2D,
             Physics.CheckCollisions3D, Physics.deref;
           rewrite HL, ?HT; destruct (Physics.m3DMode p); reflexivity).
    rewrite (CheckCollisions_flying p t l Hg HL HT).
    destruct (fst (reported p t l)); [|exists l; auto].
    eexists; split; [reflexivity|].
    assert (Hs : Physics.grounded (snapped p t l) = false) by exact Hg.
    destruct (touch_down_flags (verdict p t l) (Physics.m3DMode p) _ Hs) as [E1 E2].
    rewrite E1, E2. apply andb_negb_r.
Qed.

(** C1.  For a lander that is neither landed nor crashed, and an engine
    with its lander and terrain registered, one call of
    [Physics::CheckCollisions] (2D or 3D) returns the collision flag of the
    terrain; the landed flag is set iff a collision is reported and the
    landing is valid, the crashed flag iff a collision is reported and the
    landing is not valid; without a collision the lander is unchanged.  And
    no call at all, from whatever lander, sets both flags. *)
Theorem CheckCollisions_outcome (p : Physics.t) (t : Terrain) (l : Lander) :
  l.(mLanded) = false -> l.(mCrashed) = false ->
  p.(Physics.mLander) = true -> p.(Physics.mTerrain) = true ->
  (exists l',
     Physics.CheckCollisions X p (Some l) (Some t) = (fst (reported p t l), Some l') /\
     (l'.(mLanded) = true <-> fst (reported p t l) = true /\ verdict p t l = true) /\
     (l'.(mCrashed) = true <-> fst (reported p t l) = true /\ verdict p t l = false) /\
     (fst (reported p t l) = false -> l' = l)) /\
  (forall (q : Physics.t) (l0 : Lander) (t0 : option Terrain),
     l0.(mLanded) && l0.(mCrashed) = false ->
     exists l1,
       snd (Physics.CheckCollisions X q (Some l0) t0) = Some l1 /\
       l1.(mLanded) && l1.(mCrashed) = false).
Proof.
  intros Hl Hc HL HT. split; [|apply CheckCollisions_exclusive].
  assert (Hg : Physics.grounded l = false)
    by (unfold Physics.grounded; rewrite Hl, Hc; reflexivity).
  rewrite (CheckCollisions_flying p t l Hg HL HT).
  destruct (fst (reported p t l)) eqn:Hhit.
  - eexists; split; [reflexivity|].
    assert (Hs : Physics.grounded (snapped p t l) = false) by exact Hg.
    destruct (touch_down_flags (verdict p t l) (Physics.m3DMode p) _ Hs) as [E1 E2].
    rewrite E1, E2.
    destruct (verdict p t l); simpl; repeat split; intros; intuition congruence.
  - exists l; split; [reflexivity|].
    rewrite Hl, Hc; repeat split; intros; intuition congruence.
Qed.

End Outcome.

Lemma CheckCollisions_outcome_witness :
  (exists l',
     Physics.CheckCollisions flat_ground physics_ready (Some lander_low)
       (Some terrain_flat)
     = (fst (reported flat_ground physics_ready terrain_flat lander_low), Some l') /\
     (l'.(mLanded) = true <->
      fst (reported flat_ground physics_ready terrain_flat lander_low) = true /\
      verdict flat_ground physics_ready terrain_flat lander_low = true) /\
     (l'.(mCrashed) = true <->
      fst (reported flat_ground physics_ready terrain_flat lander_low) = true /\
      verdict flat_ground physics_ready terrain_flat lander_low = false) /\
     (fst (reported flat_ground physics_ready terrain_flat lander_low) = false ->
      l' = lander_low)) /\
  (forall (q : Physics.t) (l0 : Lander) (t0 : option Terrain),
     l0.(mLanded) && l0.(mCrashed) = false ->
     exists l1,
       snd (Physics.CheckCollisions flat_ground q (Some l0) t0) = Some l1 /\
       l1.(mLanded) && l1.(mCrashed) = false).
Proof.
  apply (CheckCollisions_outcome flat_ground physics_ready terrain_flat lander_low);
    reflexivity.
Defined.

(** On the test terrain the lander that stands in the ground at rest
    lands. *)
Example touching_at_rest_lands :
  match snd (Physics.CheckCollisions flat_ground physics_ready (Some lander_low)
               (Some terrain_flat)) with
  | Some l => l.(mLanded) = true /\ l.(mCrashed) = false
  | None => False
  end.
Proof. vm_compute. split; reflexivity. Qed.

(** ** Collision resolution *)

Section Snap.

Variable X : Externals.

Lemma touch_down_mPosition (valid three_d : bool) (l : Lander) :
  (Physics.touch_down valid three_d l).(mPosition) = l.(mPosition).
Proof. destruct valid; reflexivity. Qed.

(** C8.  When the terrain reports a collision for a lander in flight, the
    lander leaves [Physics::CheckCollisions] with its vertical position at
    the reported collision height minus half its height; its horizontal
    position [x] is unchanged, and so is [z] in 3D.  In 2D, where the
    position is set from two coordinates, the third takes the default of
    [SetPosition]. *)
Theorem collision_snaps_to_height (p : Physics.t) (t : Terrain) (l : Lander) :
  l.(mLanded) = false -> l.(mCrashed) = false ->
  p.(Physics.mLander) = true -> p.(Physics.mTerrain) = true ->
  fst (reported X p t l) = true ->
  exists l',
    Physics.CheckCollisions X p (Some l) (Some t) = (true, Some l') /\
    l'.(mPosition).(at1) = (snd (reported X p t l) - l.(mHeight) / of_Z 2)%f32 /\
    l'.(mPosition).(at0) = l.(mPosition).(at0) /\
    (p.(Physics.m3DMode) = true -> l'.(mPosition).(at2) = l.(mPosition).(at2)) /\
    (p.(Physics.m3DMode) = false ->
     l'.(mPosition).(at2) = X.(SetPosition_default_z)).
Proof.
  intros Hl Hc HL HT Hhit.
  assert (Hg : Physics.grounded l = false)
    by (unfold Physics.grounded; rewrite Hl, Hc; reflexivity).
  rewrite (CheckCollisions_flying X p t l Hg HL HT), Hhit.
  eexists; split; [reflexivity|].
  rewrite touch_down_mPosition. unfold snapped; simpl.
  repeat split; intros H3; rewrite H3; reflexivity.
Qed.

End Snap.

Lemma collision_snaps_to_height_witness :
  exists l',
    Physics.CheckCollisions flat_ground physics_ready_3D (Some lander_low)
      (Some terrain_flat) = (true, Some l') /\
    l'.(mPosition).(at1)
    = (snd (reported flat_ground physics_ready_3D terrain_flat lander_low)
       - lander_low.(mHeight) / of_Z 2)%f32 /\
    l'.(mPosition).(at0) = lander_low.(mPosition).(at0) /\
    (physics_ready_3D.(Physics.m3DMode) = true ->
     l'.(mPosition).(at2) = lander_low.(mPosition).(at2)) /\
    (physics_ready_3D.(Physics.m3DMode) = false ->
     l'.(mPosition).(at2) = flat_ground.(SetPosition_default_z)).
Proof.
  apply (collision_snaps_to_height flat_ground physics_ready_3D terrain_flat
           lander_low); reflexivity.
Defined.

(** ** Time scaling *)

Section TimeScale.

Variable X : Externals.

(** The three force applications of an update, all at the same time
    step. *)
Definition forces (p : Physics.t) (lander : option Lander) (step : float)
  : option Lander :=
  Physics.ApplyDrag p (Physics.ApplyThrust X p (Physics.ApplyGravity p lander step) step) step.

Lemma forces_with_mTimeScale (s : float) (p : Physics.t) (lander : option Lander)
    (step : float) :
  forces (Physics.with_mTimeScale s p) lander step = forces p lander step.
Proof. reflexivity. Qed.

(** C7.  With lander and terrain registered and the lander in flight,
    [Physics::Update2D] gives the collision check the lander whose velocity
    is the old one after gravity, thrust and drag, each computed with the
    time step [deltaTime * mTimeScale], and whose position is the old one
    plus that velocity times the unscaled [deltaTime] (the third coordinate
    takes the default of the two-argument [SetPosition]).
    [Physics::Update3D] computes the three forces and the position with
    the unscaled [deltaTime], and its result is the same for every value
    of [mTimeScale].  The velocity after the forces is written out:
    gravity adds [g * step * 10.31] to the second component; active thrust
    takes [2.5 * g * level * step] from it in 2D, and the three components
    along the rotation in 3D; with air, drag takes
    [0.5 * rho * speed * |speed| * 0.5 * width * height * step / mass] from
    every component that is not 0, two of them in 2D and three in 3D. *)
Theorem time_scale_forces_2D_only (p : Physics.t) (l : Lander) (t : Terrain)
    (deltaTime : float) :
  p.(Physics.mLander) = true -> p.(Physics.mTerrain) = true ->
  l.(mLanded) = false -> l.(mCrashed) = false ->
  let g := p.(Physics.mGravity) in
  let rho := p.(Physics.mAirDensity) in
  let v := l.(mVelocity) in
  let pos := l.(mPosition) in
  let rot := l.(mRotation) in
  let after_forces := fun step : float =>
    let vy := (v.(at1) + g * step * literal 1031 100)%f32 in
    let thrustForce := (literal 25 10 * g * l.(mThrustLevel))%f32 in
    let vt :=
      if l.(mThrustActive) then
        if p.(Physics.m3DMode) then
          Float3
            (v.(at0) - X.(sin_times) (X.(radians) rot.(at2)) thrustForce * step)%f32
            (vy - X.(cos_times) (X.(radians) rot.(at2)) thrustForce * step)%f32
            (v.(at2) - X.(sin_times) (X.(radians) rot.(at0)) thrustForce * step)%f32
        else Float3 v.(at0) (vy - thrustForce * step)%f32 v.(at2)
      else Float3 v.(at0) vy v.(at2) in
    let drag := fun speed : float =>
      if neqb speed zero then
        (speed
         - literal 5 10 * rho * speed * abs speed * literal 5 10
           * (l.(mWidth) * l.(mHeight)) * step / l.(mMass))%f32
      else speed in
    if (rho <=? zero)%f32 then vt
    else Float3 (drag vt.(at0)) (drag vt.(at1))
                (if p.(Physics.m3DMode) then drag vt.(at2) else vt.(at2)) in
  let v2 := after_forces (deltaTime * p.(Physics.mTimeScale))%f32 in
  let v3 := after_forces deltaTime in
  Physics.Update2D X p (Some l) (Some t) deltaTime
  = snd (Physics.CheckCollisions2D X p
           (Some (Lander.SetPosition
                    (pos.(at0) + v2.(at0) * deltaTime)%f32
                    (pos.(at1) + v2.(at1) * deltaTime)%f32
                    X.(SetPosition_default_z)
                    (Lander.with_mVelocity v2 l)))
           (Some t)) /\
  Physics.Update3D X p (Some l) (Some t) deltaTime
  = snd (Physics.CheckCollisions3D X p
           (Some (Lander.SetPosition
                    (pos.(at0) + v3.(at0) * deltaTime)%f32
                    (pos.(at1) + v3.(at1) * deltaTime)%f32
                    (pos.(at2) + v3.(at2) * deltaTime)%f32
                    (Lander.with_mVelocity v3 l)))
           (Some t)) /\
  forall s : float,
    Physics.Update3D X (Physics.with_mTimeScale s p) (Some l) (Some t) deltaTime
    = Physics.Update3D X p (Some l) (Some t) deltaTime.
Proof.
  intros HL HT Hl Hc.
  destruct l as [a [p0 p1 p2] [r0 r1 r2] sc [v0 v1 v2] acc w h d m tl ta mt f mf fr la cr].
  cbn [mLanded mCrashed] in Hl, Hc. subst la cr.
  cbv zeta.
  cbn [mVelocity mPosition mRotation mThrustLevel mThrustActive mWidth mHeight mMass
       at0 at1 at2].
  split; [|split; [|reflexivity]].
  - unfold Physics.Update2D, Physics.deref. rewrite HL, HT.
    unfold Physics.ApplyGravity, Physics.ApplyThrust, Physics.ApplyDrag,
      Physics.grounded, Physics.drag_component.
    cbn [mLanded mCrashed mVelocity mPosition mRotation mThrustLevel mThrustActive
         mWidth mHeight mMass at0 at1 at2 orb negb Lander.with_mVelocity].
    destruct ta, (Physics.m3DMode p), (Physics.mAirDensity p <=? zero)%f32;
      cbn [mLanded mCrashed mVelocity mPosition mRotation mThrustLevel mThrustActive
           mWidth mHeight mMass at0 at1 at2 orb negb Lander.with_mVelocity option_map];
      reflexivity.
  - unfold Physics.Update3D, Physics.deref. rewrite HL, HT.
    unfold Physics.ApplyGravity, Physics.ApplyThrust, Physics.ApplyDrag,
      Physics.grounded, Physics.drag_component.
    cbn [mLanded mCrashed mVelocity mPosition mRotation mThrustLevel mThrustActive
         mWidth mHeight mMass at0 at1 at2 orb negb Lander.with_mVelocity].
    destruct ta, (Physics.m3DMode p), (Physics.mAirDensity p <=? zero)%f32;
      cbn [mLanded mCrashed mVelocity mPosition mRotation mThrustLevel mThrustActive
           mWidth mHeight mMass at0 at1 at2 orb negb Lander.with_mVelocity option_map];
      reflexivity.
Qed.

End TimeScale.

(** A lander in free fall at time scale 3: after one 2D update of 0.1 s the
    vertical velocity has grown by [g * (0.1 * 3) * 10.31], while the
    height has moved by that velocity times the unscaled 0.1. *)
Definition physics_fast : Physics.t := Physics.with_mTimeScale (of_Z 3) physics_ready.

(** An engine with air at time scale 3, and a lander that moves and
    burns. *)
Definition physics_windy : Physics.t :=
  Physics.mk (literal 162 100) (literal 1 1000) false true true (of_Z 3).

Definition lander_burning : Lander :=
  Lander.with_mVelocity (Float3 one (of_Z 2) zero)
    (Lander.ApplyThrust one lander_aloft).

Lemma time_scale_forces_2D_only_witness :
  let step := (literal 1 10 * of_Z 3)%f32 in
  let drag := fun speed : float =>
    (speed
     - literal 5 10 * literal 1 1000 * speed * abs speed * literal 5 10
       * (of_Z 20 * of_Z 30) * step / of_Z 10000)%f32 in
  let vx := drag one in
  let vy := drag (of_Z 2 + literal 162 100 * step * literal 1031 100
                  - literal 25 10 * literal 162 100 * one * step)%f32 in
  exists m,
    Physics.Update2D flat_ground physics_windy (Some lander_burning)
      (Some terrain_flat) (literal 1 10)
    = snd (Physics.CheckCollisions2D flat_ground physics_windy (Some m)
             (Some terrain_flat)) /\
    m.(mVelocity) = Float3 vx vy zero /\
    m.(mPosition)
    = Float3 (of_Z 400 + vx * literal 1 10)%f32 (of_Z 100 + vy * literal 1 10)%f32 zero.
Proof.
  destruct (time_scale_forces_2D_only flat_ground physics_windy lander_burning
              terrain_flat (literal 1 10) eq_refl eq_refl eq_refl eq_refl)
    as [H2 _].
  eexists. split; [exact H2|]. split; vm_compute; reflexivity.
Defined.

(** The same step read off the code itself: the moving, burning lander in
    air at time scale 3 leaves [Update2D] with the velocity that the forces
    give at the step 0.1 * 3, and 0.1 of that velocity further on. *)
Example burn_in_air_at_time_scale_3 :
  let step := (literal 1 10 * of_Z 3)%f32 in
  let drag := fun speed : float =>
    (speed
     - literal 5 10 * literal 1 1000 * speed * abs speed * literal 5 10
       * (of_Z 20 * of_Z 30) * step / of_Z 10000)%f32 in
  let vx := drag one in
  let vy := drag (of_Z 2 + literal 162 100 * step * literal 1031 100
                  - literal 25 10 * literal 162 100 * one * step)%f32 in
  match Physics.Update2D flat_ground physics_windy (Some lander_burning)
          (Some terrain_flat) (literal 1 10) with
  | Some l =>
    l.(mVelocity) = Float3 vx vy zero /\
    l.(mPosition)
    = Float3 (of_Z 400 + vx * literal 1 10)%f32 (of_Z 100 + vy * literal 1 10)%f32 zero
  | None => False
  end.
Proof. vm_compute. split; reflexivity. Qed.

Example free_fall_at_time_scale_3 :
  match Physics.Update2D flat_ground physics_fast (Some lander_aloft)
          (Some terrain_flat) (literal 1 10) with
  | Some l =>
    l.(mVelocity).(at1)
    = (zero + literal 162 100 * (literal 1 10 * of_Z 3) * literal 1031 100)%f32 /\
    l.(mPosition).(at1) = (of_Z 100 + l.(mVelocity).(at1) * literal 1 10)%f32
  | None => False
  end.
Proof. vm_compute. split; reflexivity. Qed.

(** ** Thrust level *)

Lemma zero_leb_one : (zero <=? one)%f32 = true.
Proof. reflexivity. Qed.

Lemma leb_zero_zero : (zero <=? zero)%f32 = true.
Proof. reflexivity. Qed.

Lemma leb_one_one : (one <=? one)%f32 = true.
Proof. reflexivity. Qed.

(** The clamp of [Lander::ApplyThrust]. *)
Definition clamp01 (amount : float) : float := max zero (min one amount).

Lemma clamp01_cases (amount : float) :
  ((amount <? one)%f32 = false /\ clamp01 amount = one) \/
  ((amount <? one)%f32 = true /\ (zero <? amount)%f32 = true /\ clamp01 amount = amount) \/
  ((amount <? one)%f32 = true /\ (zero <? amount)%f32 = false /\ clamp01 amount = zero).
Proof.
  unfold clamp01, max, min.
  destruct (amount <? one)%f32 eqn:H1.
  - destruct (zero <? amount)%f32 eqn:H0; auto.
  - left. split; [reflexivity|]. reflexivity.
Qed.

Lemma clamp01_range (amount : float) :
  (zero <=? clamp01 amount)%f32 = true /\ (clamp01 amount <=? one)%f32 = true.
Proof.
  destruct (clamp01_cases amount) as [[_ E]|[[H1 [H0 E]]|[_ [_ E]]]]; rewrite E.
  - split; reflexivity.
  - split; apply ltb_leb; assumption.
  - split; reflexivity.
Qed.

(** For a number that is not NaN, [x <= 0] is false exactly when
    [0 < x]. *)
Lemma leb_zero_false_iff (x : float) :
  is_nan x = false -> ((x <=? zero)%f32 = false <-> (x >? zero)%f32 = true).
Proof.
  destruct x as [s|s| |s m e]; simpl; intros H; try discriminate;
    destruct s; unfold leb, gtb, SFleb, SFltb; simpl; split; congruence.
Qed.

(** C9.  [Lander::ApplyThrust] is total: for every amount, NaN and the
    infinities included, the stored thrust level lies in [0, 1]; with fuel
    left it is the amount clamped (1 from 1 upwards, the amount itself
    strictly between 0 and 1, 0 otherwise).  The thrust-active flag is
    true iff the stored level is greater than 0, that is iff the fuel is not
    [<= 0] and the clamped amount is greater than 0; for a fuel that is a
    number this reads: fuel positive and clamped amount positive. *)
Theorem ApplyThrust_clamps (amount : float) (l : Lander) :
  let l' := Lander.ApplyThrust amount l in
  (zero <=? l'.(mThrustLevel))%f32 = true /\
  (l'.(mThrustLevel) <=? one)%f32 = true /\
  ((l.(mFuel) <=? zero)%f32 = false -> l'.(mThrustLevel) = clamp01 amount) /\
  ((amount <? one)%f32 = false -> clamp01 amount = one) /\
  ((zero <? amount)%f32 = true -> (amount <? one)%f32 = true ->
   clamp01 amount = amount) /\
  ((zero <? amount)%f32 = false -> (amount <? one)%f32 = true ->
   clamp01 amount = zero) /\
  l'.(mThrustActive) = (l'.(mThrustLevel) >? zero)%f32 /\
  (l'.(mThrustActive) = true <->
   (l.(mFuel) <=? zero)%f32 = false /\ (clamp01 amount >? zero)%f32 = true) /\
  (is_nan l.(mFuel) = false ->
   (l'.(mThrustActive) = true <->
    (l.(mFuel) >? zero)%f32 = true /\ (clamp01 amount >? zero)%f32 = true)).
Proof.
  intros l'. subst l'. unfold Lander.ApplyThrust. fold (clamp01 amount).
  destruct (clamp01_cases amount) as [[A1 E]|[[A1 [A0 E]]|[A1 [A0 E]]]];
    destruct (clamp01_range amount) as [R0 R1];
    destruct (mFuel l <=? zero)%f32 eqn:Hf; simpl;
    repeat match goal with
           | |- _ /\ _ => split
           | |- _ <-> _ => split
           end;
    try reflexivity; try assumption; try congruence;
    try (intros; intuition congruence);
    intros Hn; destruct (leb_zero_false_iff _ Hn) as [K1 K2];
    split; intros; intuition congruence.
Qed.

(** ** Forces and integration *)

Section Forces.

Variable X : Externals.

Lemma with_mVelocity_same (l : Lander) : Lander.with_mVelocity l.(mVelocity) l = l.
Proof. destruct l; reflexivity. Qed.

Lemma with_mVelocity_twice (v w : float3) (l : Lander) :
  Lander.with_mVelocity v (Lander.with_mVelocity w l) = Lander.with_mVelocity v l.
Proof. reflexivity. Qed.

(** A method that writes the velocity only, leaves it alone on a lander
    that has landed or crashed, and in 2D leaves its third component
    alone. *)
Definition velocity_only (p : Physics.t) (f : option Lander -> option Lander) : Prop :=
  forall l : Lander,
  exists v,
    f (Some l) = Some (Lander.with_mVelocity v l) /\
    (Physics.grounded l = true -> v = l.(mVelocity)) /\
    (p.(Physics.m3DMode) = false -> v.(at2) = l.(mVelocity).(at2)).

Lemma velocity_only_compose (p : Physics.t) (f g : option Lander -> option Lander) :
  velocity_only p f -> velocity_only p g ->
  velocity_only p (fun lander => g (f lander)).
Proof.
  intros Hf Hg l.
  destruct (Hf l) as [v [Ev [Gv Zv]]].
  destruct (Hg (Lander.with_mVelocity v l)) as [w [Ew [Gw Zw]]].
  exists w. rewrite Ev, Ew. split; [reflexivity|]. split.
  - intros H. rewrite (Gw H). apply (Gv H).
  - intros H. rewrite (Zw H). apply (Zv H).
Qed.

Lemma ApplyGravity_velocity_only (p : Physics.t) (step : float) :
  velocity_only p (fun lander => Physics.ApplyGravity p lander step).
Proof.
  intros l. unfold Physics.ApplyGravity.
  destruct (Physics.grounded l) eqn:Hg.
  - exists (mVelocity l). rewrite with_mVelocity_same. auto.
  - eexists; split; [reflexivity|]. split; [discriminate|reflexivity].
Qed.

Lemma ApplyThrust_velocity_only (p : Physics.t) (step : float) :
  velocity_only p (fun lander => Physics.ApplyThrust X p lander step).
Proof.
  intros l. unfold Physics.ApplyThrust.
  destruct (Physics.grounded l) eqn:Hg; simpl orb.
  - exists (mVelocity l). rewrite with_mVelocity_same. auto.
  - destruct (negb (mThrustActive l)).
    + exists (mVelocity l). rewrite with_mVelocity_same. auto.
    + destruct (Physics.m3DMode p); simpl negb; cbv iota;
        (eexists; split; [reflexivity|]; split; [discriminate|]);
        [discriminate | reflexivity].
Qed.

Lemma ApplyDrag_velocity_only (p : Physics.t) (step : float) :
  velocity_only p (fun lander => Physics.ApplyDrag p lander step).
Proof.
  intros l. unfold Physics.ApplyDrag.
  destruct (Physics.grounded l) eqn:Hg; simpl orb.
  - exists (mVelocity l). rewrite with_mVelocity_same. auto.
  - destruct (Physics.mAirDensity p <=? zero)%f32.
    + exists (mVelocity l). rewrite with_mVelocity_same. auto.
    + eexists; split; [reflexivity|]; split; [discriminate|].
      intros H3; rewrite H3; reflexivity.
Qed.

Lemma forces_velocity (p : Physics.t) (l : Lander) (step : float) :
  exists v,
    forces X p (Some l) step = Some (Lander.with_mVelocity v l) /\
    (Physics.grounded l = true -> v = l.(mVelocity)) /\
    (p.(Physics.m3DMode) = false -> v.(at2) = l.(mVelocity).(at2)).
Proof.
  apply (velocity_only_compose p
           (fun lander => Physics.ApplyThrust X p (Physics.ApplyGravity p lander step) step)
           (fun lander => Physics.ApplyDrag p lander step)).
  - apply (velocity_only_compose p
             (fun lander => Physics.ApplyGravity p lander step)
             (fun lander => Physics.ApplyThrust X p lander step)).
    + apply ApplyGravity_velocity_only.
    + apply ApplyThrust_velocity_only.
  - apply ApplyDrag_velocity_only.
Qed.

(** The lander after the forces and the Euler step of one update, before
    the collision check. *)
Definition forced (p : Physics.t) (l : Lander) (deltaTime : float) : Lander :=
  let step := if p.(Physics.m3DMode) then deltaTime
              else (deltaTime * p.(Physics.mTimeScale))%f32 in
  match forces X p (Some l) step with
  | Some l1 => l1
  | None => l
  end.

Definition moved (p : Physics.t) (l : Lander) (deltaTime : float) : Lander :=
  if p.(Physics.m3DMode)
  then Physics.integrate3D deltaTime (forced p l deltaTime)
  else Physics.integrate2D X deltaTime (forced p l deltaTime).

Lemma forced_velocity (p : Physics.t) (l : Lander) (deltaTime : float) :
  exists v,
    forced p l deltaTime = Lander.with_mVelocity v l /\
    (Physics.grounded l = true -> v = l.(mVelocity)) /\
    (p.(Physics.m3DMode) = false -> v.(at2) = l.(mVelocity).(at2)).
Proof.
  unfold forced.
  destruct (forces_velocity p l
              (if Physics.m3DMode p then deltaTime
               else (deltaTime * Physics.mTimeScale p)%f32)) as [v [E H]].
  rewrite E. exists v. auto.
Qed.

Lemma Update_as_moved (p : Physics.t) (l : Lander) (t : Terrain) (deltaTime : float) :
  p.(Physics.mLander) = true -> p.(Physics.mTerrain) = true ->
  Physics.Update X p (Some l) (Some t) deltaTime
  = snd (Physics.CheckCollisions X p (Some (moved p l deltaTime)) (Some t)).
Proof.
  intros HL HT.
  unfold Physics.Update, Physics.CheckCollisions, moved, forced.
  destruct (Physics.m3DMode p) eqn:H3.
  - unfold Physics.Update3D, Physics.deref. rewrite HL, HT.
    fold (forces X p (Some l) deltaTime).
    destruct (forces_velocity p l deltaTime) as [v [Ev _]]. rewrite Ev. reflexivity.
  - unfold Physics.Update2D, Physics.deref. rewrite HL, HT.
    fold (forces X p (Some l) (deltaTime * Physics.mTimeScale p)%f32).
    destruct (forces_velocity p l (deltaTime * Physics.mTimeScale p)%f32) as [v [Ev _]].
    rewrite Ev. reflexivity.
Qed.

(** A lander that has landed or crashed goes through [Physics::Update]
    unchanged, whatever the engine and the terrain. *)
Lemma Update_grounded (p : Physics.t) (l : Lander) (t : option Terrain)
    (deltaTime : float) :
  Physics.grounded l = true ->
  Physics.Update X p (Some l) t deltaTime = Some l.
Proof.
  intros Hg.
  unfold Physics.Update, Physics.Update2D, Physics.Update3D, Physics.deref.
  destruct (Physics.m3DMode p) eqn:H3, (Physics.mLander p) eqn:HL,
    (Physics.mTerrain p) eqn:HT, t; try reflexivity.
  - fold (forces X p (Some l) deltaTime).
    destruct (forces_velocity p l deltaTime) as [v [E [Hv _]]].
    rewrite E, (Hv Hg), with_mVelocity_same. simpl.
    unfold Physics.integrate3D. rewrite Hg.
    unfold Physics.CheckCollisions3D, Physics.deref. rewrite HL, HT, Hg. reflexivity.
  - fold (forces X p (Some l) (deltaTime * Physics.mTimeScale p)%f32).
    destruct (forces_velocity p l (deltaTime * Physics.mTimeScale p)%f32)
      as [v [E [Hv _]]].
    rewrite E, (Hv Hg), with_mVelocity_same. simpl.
    unfold Physics.integrate2D. rewrite Hg.
    unfold Physics.CheckCollisions2D, Physics.deref. rewrite HL, HT, Hg. reflexivity.
Qed.

End Forces.

(** ** The game *)

Section GameFacts.

Variable X : Externals.

Lemma Physics_Update_some (p : Physics.t) (l : Lander) (t : option Terrain)
    (deltaTime : float) :
  exists l', Physics.Update X p (Some l) t deltaTime = Some l'.
Proof.
  destruct (Physics.grounded l) eqn:Hg.
  - exists l. apply Update_grounded. exact Hg.
  - destruct (Physics.mLander p) eqn:HL, (Physics.mTerrain p) eqn:HT, t as [t|];
      try (exists l; unfold Physics.Update, Physics.Update2D, Physics.Update3D,
             Physics.deref; rewrite HL, ?HT; destruct (Physics.m3DMode p); reflexivity).
    rewrite (Update_as_moved X p l t deltaTime HL HT).
    destruct (Physics.grounded (moved X p l deltaTime)) eqn:Hm.
    + rewrite (CheckCollisions_grounded X p (Some t) _ Hm). eexists; reflexivity.
    + rewrite (CheckCollisions_flying X p t _ Hm HL HT).
      destruct (fst (reported X p t (moved X p l deltaTime))); eexists; reflexivity.
Qed.

(** The lander that [Game::Update] inspects while flying: after the engine
    (when there is one) and after [Lander::Update]. *)
Definition inspected (g : Game.t) (l : Lander) (deltaTime : float) : Lander :=
  let l1 := match g.(Game.mPhysics) with
            | Some p =>
              match Physics.Update X p (Some l) g.(Game.mTerrain) deltaTime with
              | Some l1 => l1
              | None => l
              end
            | None => l
            end in
  Lander.Update deltaTime l1.

Lemma update_flying_lander (g : Game.t) (l : Lander) (deltaTime : float) :
  g.(Game.mGameState) = FLYING -> g.(Game.mLander) = Some l ->
  let l' := inspected g l deltaTime in
  let g' := Game.update_flying X deltaTime g in
  g'.(Game.mLander) = Some l' /\
  g'.(Game.mElapsedTime) = (g.(Game.mElapsedTime) + deltaTime)%f32 /\
  g'.(Game.mFuelUsed) = g.(Game.mFuelUsed) /\
  g'.(Game.mPhysics) = g.(Game.mPhysics) /\
  g'.(Game.mTerrain) = g.(Game.mTerrain) /\
  (l'.(mLanded) = true ->
   g'.(Game.mGameState) = LANDED /\
   g'.(Game.mScore) = (l'.(mFuel) / l'.(mMaxFuel) * of_Z 1000)%f32) /\
  (l'.(mLanded) = false -> l'.(mCrashed) = true ->
   g'.(Game.mGameState) = CRASHED /\ g'.(Game.mScore) = zero) /\
  (l'.(mLanded) = false -> l'.(mCrashed) = false ->
   g'.(Game.mGameState) = FLYING /\ g'.(Game.mScore) = g.(Game.mScore)).
Proof.
  intros Hs Hl l' g'. subst l' g'.
  unfold Game.update_flying, inspected. rewrite Hs.
  destruct (Game.mPhysics g) as [p|] eqn:Hp.
  - simpl. rewrite Hl.
    destruct (Physics_Update_some p l (Game.mTerrain g) deltaTime) as [l1 E].
    rewrite E.
    destruct (mLanded (Lander.Update deltaTime l1)) eqn:HL;
      [|destruct (mCrashed (Lander.Update deltaTime l1)) eqn:HC];
      simpl; rewrite ?Hp, ?Hs; repeat split; intros; congruence.
  - rewrite Hl.
    destruct (mLanded (Lander.Update deltaTime l)) eqn:HL;
      [|destruct (mCrashed (Lander.Update deltaTime l)) eqn:HC];
      simpl; rewrite ?Hp, ?Hs; repeat split; intros; congruence.
Qed.

Lemma update_flying_not_flying (g : Game.t) (deltaTime : float) :
  g.(Game.mGameState) <> FLYING -> Game.update_flying X deltaTime g = g.
Proof.
  unfold Game.update_flying. destruct (Game.mGameState g); congruence.
Qed.

(** The rest of [Game::Update] keeps the state, the score and the lander. *)
Lemma Update_after_flying (g : Game.t) (deltaTime : float) :
  (Game.update_flying X deltaTime g).(Game.mGameState) <> FLYING \/
  (Game.update_flying X deltaTime g).(Game.mLander) <> None ->
  exists g',
    Game.Update X deltaTime g = Some g' /\
    g'.(Game.mGameState) = (Game.update_flying X deltaTime g).(Game.mGameState) /\
    g'.(Game.mScore) = (Game.update_flying X deltaTime g).(Game.mScore) /\
    g'.(Game.mLander) = (Game.update_flying X deltaTime g).(Game.mLander) /\
    g'.(Game.mFuelUsed) = (Game.update_flying X deltaTime g).(Game.mFuelUsed) /\
    g'.(Game.mPhysics) = (Game.update_flying X deltaTime g).(Game.mPhysics) /\
    g'.(Game.mElapsedTime) = (Game.update_flying X deltaTime g).(Game.mElapsedTime).
Proof.
  unfold Game.Update, Game.update_fall_timer.
  generalize (Game.update_flying X deltaTime g). intros h H.
  destruct (Game.mGameState h) eqn:Hs;
    try (simpl; eexists; split; [reflexivity|]; simpl; rewrite ?Hs; auto 10).
  destruct (Game.mLander h) as [l|] eqn:Hl.
  - destruct (Game.fallTimerStarted h); simpl; rewrite Hl; simpl;
      destruct (mLanded l || mCrashed l); simpl;
      (eexists; split; [reflexivity|]); simpl; rewrite ?Hs, ?Hl; auto 10.
  - destruct H; congruence.
Qed.

(** C5.  While the state is FLYING and there is a lander, [Game::Update]
    returns, and for the lander it has inspected: if the landed flag is set
    the state becomes LANDED and the score is fuel / max fuel * 1000; if
    instead the crashed flag is set the state becomes CRASHED and the score
    is 0. *)
Theorem Update_scores_outcome (g : Game.t) (l : Lander) (deltaTime : float) :
  g.(Game.mGameState) = FLYING -> g.(Game.mLander) = Some l ->
  exists g' l',
    Game.Update X deltaTime g = Some g' /\
    l' = inspected g l deltaTime /\
    g'.(Game.mLander) = Some l' /\
    (l'.(mLanded) = true ->
     g'.(Game.mScore) = (l'.(mFuel) / l'.(mMaxFuel) * of_Z 1000)%f32 /\
     g'.(Game.mGameState) = LANDED) /\
    (l'.(mLanded) = false -> l'.(mCrashed) = true ->
     g'.(Game.mScore) = zero /\ g'.(Game.mGameState) = CRASHED).
Proof.
  intros Hs Hl.
  destruct (update_flying_lander g l deltaTime Hs Hl)
    as [El [_ [_ [_ [_ [HL [HC _]]]]]]].
  destruct (Update_after_flying g deltaTime) as [g' [E [Es [Esc [Ela _]]]]].
  { right. rewrite El. discriminate. }
  exists g', (inspected g l deltaTime).
  rewrite Es, Esc, Ela. repeat split; try assumption.
  - apply HL; assumption.
  - apply HL; assumption.
  - apply HC; assumption.
  - apply HC; assumption.
Qed.

End GameFacts.

(** ** Reset *)

Section ResetFacts.

Variable X : Externals.

(** Where [Game::Reset] puts the lander: the middle of the window, at
    height 100 in 2D and at a third of the window height in 3D. *)
Definition initial_position (g : Game.t) : float3 :=
  if g.(Game.m3DMode) then
    Float3 (of_Z (Z.quot g.(Game.mWindowWidth) 2))
           (of_Z (Z.quot g.(Game.mWindowHeight) 3))
           (of_Z (Z.quot g.(Game.mWindowWidth) 2))
  else
    Float3 (of_Z (Z.quot g.(Game.mWindowWidth) 2)) (of_Z 100)
           X.(SetPosition_default_z).

Lemma Reset_result (g : Game.t) (l : Lander) :
  g.(Game.mLander) = Some l ->
  exists g',
    Game.Reset X g = Some g' /\
    g'.(Game.mGameState) = FLYING /\
    g'.(Game.mScore) = zero /\
    g'.(Game.mElapsedTime) = zero /\
    g'.(Game.mFuelUsed) = zero /\
    g'.(Game.mLander) = Some (Game.reset_lander X g l) /\
    g'.(Game.m3DMode) = g.(Game.m3DMode) /\
    g'.(Game.mWindowWidth) = g.(Game.mWindowWidth) /\
    g'.(Game.mWindowHeight) = g.(Game.mWindowHeight) /\
    g'.(Game.mPhysics) = g.(Game.mPhysics).
Proof.
  intros Hl. unfold Game.Reset. simpl. rewrite Hl. simpl.
  eexists; split; [reflexivity|]. simpl. auto 12.
Qed.

Lemma reset_lander_values (g : Game.t) (l : Lander) :
  let l' := Game.reset_lander X g l in
  l'.(mPosition) = initial_position g /\
  l'.(mRotation) = zero3 /\
  l'.(mVelocity) = zero3 /\
  l'.(mAcceleration) = zero3 /\
  l'.(mFuel) = l.(mMaxFuel) /\
  l'.(mMaxFuel) = l.(mMaxFuel) /\
  l'.(mThrustLevel) = zero /\
  l'.(mThrustActive) = false /\
  l'.(mLanded) = false /\
  l'.(mCrashed) = false /\
  l'.(mActive) = true.
Proof.
  unfold Game.reset_lander, initial_position.
  destruct (Game.m3DMode g); simpl; auto 12.
Qed.

Lemma reset_lander_idempotent (g h : Game.t) (l : Lander) :
  h.(Game.m3DMode) = g.(Game.m3DMode) ->
  h.(Game.mWindowWidth) = g.(Game.mWindowWidth) ->
  h.(Game.mWindowHeight) = g.(Game.mWindowHeight) ->
  Game.reset_lander X h (Game.reset_lander X g l) = Game.reset_lander X g l.
Proof.
  intros H3 Hw Hh. unfold Game.reset_lander. rewrite H3, Hw, Hh.
  destruct (Game.m3DMode g);
    [generalize (of_Z (Z.quot (Game.mWindowWidth g) 2)),
                (of_Z (Z.quot (Game.mWindowHeight g) 3))
    |generalize (of_Z (Z.quot (Game.mWindowWidth g) 2)), (of_Z 100)];
    intros a b; destruct l;
    cbv [Lander.Reset Lander.SetPosition Lander.SetRotation Lander.with_mPosition
         Lander.with_mRotation Lander.with_mVelocity Lander.with_mAcceleration
         Lander.with_thrust Lander.with_mFuel Lander.with_mLanded
         Lander.with_mCrashed Lander.with_mActive
         mActive mPosition mRotation mScale mVelocity mAcceleration mWidth mHeight
         mDepth mMass mThrustLevel mThrustActive mMaxThrustForce mFuel mMaxFuel
         mFuelConsumptionRate mLanded mCrashed];
    reflexivity.
Qed.

(** C6.  From every state with a lander, [Game::Reset] returns with the
    state FLYING (not READY), score, elapsed time and fuel used 0, and the
    lander at the initial position of the mode, with rotation, velocity and
    acceleration 0, full fuel, no thrust, and neither landed nor crashed;
    none of this depends on the flight before.  Resetting again yields the
    same values and the same lander. *)
Theorem Reset_initial_values (g : Game.t) (l : Lander) :
  g.(Game.mLander) = Some l ->
  exists g' l',
    Game.Reset X g = Some g' /\
    g'.(Game.mGameState) = FLYING /\
    g'.(Game.mScore) = zero /\
    g'.(Game.mElapsedTime) = zero /\
    g'.(Game.mFuelUsed) = zero /\
    g'.(Game.mLander) = Some l' /\
    l'.(mPosition) = initial_position g /\
    l'.(mRotation) = zero3 /\
    l'.(mVelocity) = zero3 /\
    l'.(mFuel) = l.(mMaxFuel) /\
    l'.(mThrustLevel) = zero /\
    l'.(mThrustActive) = false /\
    l'.(mLanded) = false /\
    l'.(mCrashed) = false /\
    exists g'',
      Game.Reset X g' = Some g'' /\
      g''.(Game.mGameState) = FLYING /\
      g''.(Game.mScore) = zero /\
      g''.(Game.mElapsedTime) = zero /\
      g''.(Game.mFuelUsed) = zero /\
      g''.(Game.mLander) = Some l'.
Proof.
  intros Hl.
  destruct (Reset_result g l Hl)
    as [g' [E [Hs [Hsc [He [Hf [Hl' [H3 [Hw [Hh _]]]]]]]]]].
  destruct (reset_lander_values g l)
    as [Vp [Vr [Vv [_ [Vf [_ [Vt [Va [Vl [Vc _]]]]]]]]]].
  exists g', (Game.reset_lander X g l).
  repeat (split; [assumption|]).
  destruct (Reset_result g' _ Hl')
    as [g'' [E' [Hs' [Hsc' [He' [Hf' [Hl'' _]]]]]]].
  exists g''. repeat (split; [assumption|]).
  rewrite Hl''. f_equal. apply reset_lander_idempotent; assumption.
Qed.

End ResetFacts.

(** ** Fuel used *)

Section FuelUsed.

Variable X : Externals.

Ltac break_option H :=
  repeat match type of H with
         | match ?a with _ => _ end = Some _ =>
           destruct a eqn:?; try discriminate H
         end.

Lemma Reset_mFuelUsed (g g' : Game.t) :
  Game.Reset X g = Some g' -> g'.(Game.mFuelUsed) = zero.
Proof.
  unfold Game.Reset, bind. intros H. break_option H.
  injection H as <-. reflexivity.
Qed.

Lemma Initialize_cases (rendererOk : bool) (ticks : Z) (g : Game.t)
    (r : bool * Game.t) :
  Game.Initialize X rendererOk ticks g = Some r ->
  r = (false, Game.create_components X g) \/
  exists h,
    Game.Reset X (Game.register_entities X (Game.create_components X g)) = Some h /\
    r = (true, Game.with_mLastFrameTime ticks (Game.with_mIsRunning true h)).
Proof.
  unfold Game.Initialize. intros H.
  destruct rendererOk.
  - right.
    destruct (Game.Reset X (Game.register_entities X (Game.create_components X g)))
      as [h|] eqn:E.
    + exists h. split; [reflexivity|]. symmetry.
      exact (f_equal (fun o => match o with Some x => x | None => r end) H).
    + discriminate H.
  - left. symmetry. exact (f_equal (fun o => match o with Some x => x | None => r end) H).
Qed.

Lemma create_components_mFuelUsed (g : Game.t) :
  (Game.create_components X g).(Game.mFuelUsed) = g.(Game.mFuelUsed).
Proof.
  unfold Game.create_components.
  match goal with |- context [if ?b then _ else _] => destruct b end; reflexivity.
Qed.

Lemma Initialize_mFuelUsed (rendererOk : bool) (ticks : Z) (g : Game.t)
    (r : bool * Game.t) :
  Game.Initialize X rendererOk ticks g = Some r ->
  g.(Game.mFuelUsed) = zero -> (snd r).(Game.mFuelUsed) = zero.
Proof.
  intros H H0.
  destruct (Initialize_cases _ _ _ _ H) as [->|[h [E ->]]].
  - cbn [snd]. rewrite create_components_mFuelUsed. exact H0.
  - exact (Reset_mFuelUsed _ _ E).
Qed.

Lemma SetDifficulty_mFuelUsed (d : Difficulty) (g g' : Game.t) :
  Game.SetDifficulty X d g = Some g' -> g'.(Game.mFuelUsed) = zero.
Proof.
  unfold Game.SetDifficulty, bind. intros H.
  match type of H with
  | match ?a with _ => _ end = _ => destruct a; [|discriminate]
  end.
  match type of H with
  | match ?a with _ => _ end = _ => destruct a; [|discriminate]
  end.
  apply Reset_mFuelUsed in H. exact H.
Qed.

Lemma SetRenderingMode_mFuelUsed (use3D rendererOk : bool) (ticks : Z)
    (g g' : Game.t) :
  Game.SetRenderingMode X use3D rendererOk ticks g = Some g' ->
  g.(Game.mFuelUsed) = zero -> g'.(Game.mFuelUsed) = zero.
Proof.
  unfold Game.SetRenderingMode. intros H H0.
  destruct (negb (Bool.eqb (Game.m3DMode g) use3D)).
  - match type of H with
    | (if ?b then _ else _) = _ => destruct b
    end.
    + unfold bind in H.
      match type of H with
      | match ?a with _ => _ end = _ => destruct a as [r|] eqn:E; [|discriminate]
      end.
      injection H as <-. apply (Initialize_mFuelUsed _ _ _ _ E). exact H0.
    + injection H as <-. exact H0.
  - injection H as <-. exact H0.
Qed.

Lemma track_fuel_same (l : Lander) (g : Game.t) : Game.track_fuel l g = g.
Proof. unfold Game.track_fuel. rewrite gtb_irrefl. reflexivity. Qed.

(** The thrust command and the two rotations write the lander only. *)
Definition lander_only (g h : Game.t) : Prop :=
  exists l, h = Game.with_mLander l g.

Lemma lander_only_refl (g : Game.t) : lander_only g g.
Proof. exists (Game.mLander g). destruct g; reflexivity. Qed.

Lemma lander_only_trans (g h k : Game.t) :
  lander_only g h -> lander_only h k -> lander_only g k.
Proof. intros [l ->] [m ->]. exists m. reflexivity. Qed.

Lemma thrust_input_lander_only (input : Input) (g h : Game.t) :
  Game.thrust_input input g = Some h -> lander_only g h.
Proof.
  unfold Game.thrust_input. intros H.
  destruct (IsThrustActive input);
    apply bind_Some in H; destruct H as [l [_ H]]; apply Some_inj in H; subst h.
  - rewrite track_fuel_same. eexists; reflexivity.
  - eexists; reflexivity.
Qed.

Lemma rotate_left_input_lander_only (loops : nat) (input : Input) (g h : Game.t) :
  Game.rotate_left_input loops input g = Some h -> lander_only g h.
Proof.
  unfold Game.rotate_left_input. intros H.
  destruct (IsRotateLeftActive input).
  - apply bind_Some in H; destruct H as [l [_ H]].
    apply bind_Some in H; destruct H as [l' [_ H]].
    apply Some_inj in H; subst h. eexists; reflexivity.
  - apply Some_inj in H; subst h. apply lander_only_refl.
Qed.

Lemma rotate_right_input_lander_only (loops : nat) (input : Input) (g h : Game.t) :
  Game.rotate_right_input loops input g = Some h -> lander_only g h.
Proof.
  unfold Game.rotate_right_input. intros H.
  destruct (IsRotateRightActive input).
  - apply bind_Some in H; destruct H as [l [_ H]].
    apply bind_Some in H; destruct H as [l' [_ H]].
    apply Some_inj in H; subst h. eexists; reflexivity.
  - apply Some_inj in H; subst h. apply lander_only_refl.
Qed.

(** What [Game::ProcessInput] does, by the state of the game. *)
Lemma ProcessInput_cases (loops : nat) (input : Input) (g g' : Game.t) :
  Game.ProcessInput X loops input g = Some g' ->
  g' = g \/
  exists h,
    (g' = h \/ g' = Game.with_mIsRunning false h) /\
    (h = g \/ h = Game.with_mGameState FLYING g \/
     (g.(Game.mGameState) = FLYING /\
      exists g1 g2,
        Game.thrust_input input g = Some g1 /\
        Game.rotate_left_input loops input g1 = Some g2 /\
        Game.rotate_right_input loops input g2 = Some h) \/
     Game.Reset X g = Some h).
Proof.
  unfold Game.ProcessInput. intros H.
  destruct (Game.mInputHandler g); [|left; symmetry; exact (Some_inj _ _ H)].
  right. apply bind_Some in H. destruct H as [h [E H]].
  exists h. split.
  - apply Some_inj in H. destruct (IsQuitActive input); auto.
  - destruct (Game.mGameState g).
    + apply Some_inj in E. destruct (IsStartActive input); auto.
    + right; right; left. split; [reflexivity|].
      apply bind_Some in E. destruct E as [g1 [E1 E]].
      apply bind_Some in E. destruct E as [g2 [E2 E]].
      exists g1, g2. auto.
    + destruct (IsResetActive input); [auto|].
      apply Some_inj in E. auto.
    + destruct (IsResetActive input); [auto|].
      apply Some_inj in E. auto.
Qed.

(** The fuel tracking of [Game::ProcessInput] compares a reading with
    itself. *)
Lemma ProcessInput_mFuelUsed (loops : nat) (input : Input) (g g' : Game.t) :
  Game.ProcessInput X loops input g = Some g' ->
  g.(Game.mFuelUsed) = zero -> g'.(Game.mFuelUsed) = zero.
Proof.
  intros H H0.
  destruct (ProcessInput_cases _ _ _ _ H) as [->|[h [Hq Hh]]]; [exact H0|].
  assert (Game.mFuelUsed h = zero) as Hz.
  { destruct Hh as [->|[->|[[_ [g1 [g2 [E1 [E2 E3]]]]]|E]]].
    - exact H0.
    - exact H0.
    - apply thrust_input_lander_only in E1.
      apply rotate_left_input_lander_only in E2.
      apply rotate_right_input_lander_only in E3.
      destruct (lander_only_trans _ _ _ (lander_only_trans _ _ _ E1 E2) E3) as [l ->].
      exact H0.
    - exact (Reset_mFuelUsed _ _ E). }
  destruct Hq as [->| ->]; exact Hz.
Qed.

Lemma update_flying_mFuelUsed (deltaTime : float) (g : Game.t) :
  (Game.update_flying X deltaTime g).(Game.mFuelUsed) = g.(Game.mFuelUsed).
Proof.
  unfold Game.update_flying.
  destruct (Game.mGameState g); try reflexivity.
  destruct (Game.mPhysics g) as [p|]; cbn [Game.mLander Game.with_mLander].
  - destruct (Physics.Update X p (Game.mLander g) (Game.mTerrain g) deltaTime) as [l|];
      [|reflexivity].
    destruct (mLanded (Lander.Update deltaTime l)); [reflexivity|].
    destruct (mCrashed (Lander.Update deltaTime l)); reflexivity.
  - destruct (Game.mLander g) as [l|]; [|reflexivity].
    destruct (mLanded (Lander.Update deltaTime l)); [reflexivity|].
    destruct (mCrashed (Lander.Update deltaTime l)); reflexivity.
Qed.

Lemma Update_mFuelUsed (deltaTime : float) (g g' : Game.t) :
  Game.Update X deltaTime g = Some g' ->
  g'.(Game.mFuelUsed) = g.(Game.mFuelUsed).
Proof.
  unfold Game.Update, Game.update_fall_timer, bind. intros H.
  rewrite <- (update_flying_mFuelUsed deltaTime g).
  generalize dependent (Game.update_flying X deltaTime g). intros h H.
  destruct (Game.mGameState h).
  - injection H as <-. reflexivity.
  - destruct (negb (Game.fallTimerStarted h));
      cbn [Game.mLander Game.with_fallTimer] in H;
      (destruct (Game.mLander h) as [l|]; [|discriminate]);
      destruct (mLanded l || mCrashed l); injection H as <-; reflexivity.
  - injection H as <-. reflexivity.
  - injection H as <-. reflexivity.
Qed.

Lemma exec_mFuelUsed (c : Game.call) (g g' : Game.t) :
  Game.exec X c g = Some g' ->
  g.(Game.mFuelUsed) = zero -> g'.(Game.mFuelUsed) = zero.
Proof.
  destruct c; cbn [Game.exec]; intros H H0.
  - unfold bind in H.
    destruct (Game.Initialize X rendererOk ticks g) as [r|] eqn:E; [|discriminate].
    injection H as <-. apply (Initialize_mFuelUsed _ _ _ _ E H0).
  - injection H as <-. exact H0.
  - apply (Reset_mFuelUsed _ _ H).
  - apply (SetDifficulty_mFuelUsed _ _ _ H).
  - apply (SetRenderingMode_mFuelUsed _ _ _ _ _ H H0).
  - apply (ProcessInput_mFuelUsed _ _ _ _ H H0).
  - rewrite (Update_mFuelUsed _ _ _ H). exact H0.
  - destruct keyCode; cbn [Game.OnKeyDown] in H.
    + apply (Reset_mFuelUsed _ _ H).
    + injection H as <-. exact H0.
    + apply (SetDifficulty_mFuelUsed _ _ _ H).
    + apply (SetDifficulty_mFuelUsed _ _ _ H).
    + apply (SetDifficulty_mFuelUsed _ _ _ H).
    + apply (SetRenderingMode_mFuelUsed _ _ _ _ _ H H0).
    + injection H as <-. exact H0.
Qed.

(** C10.  The fuel-used counter is 0 in every reachable state of the game:
    it is 0 at construction, [Reset] writes 0, the tracking code of
    [ProcessInput] never adds to it since it compares the fuel reading with
    itself, and no other method writes it. *)
Theorem mFuelUsed_always_zero (g : Game.t) :
  Game.reachable X g -> g.(Game.mFuelUsed) = zero.
Proof.
  induction 1 as [|c g g' _ IH E].
  - reflexivity.
  - apply (exec_mFuelUsed c g g' E IH).
Qed.

End FuelUsed.

(** ** One frame in flight *)

Section Frame.

Variable X : Externals.

Lemma burn_keeps (deltaTime : float) (l : Lander) :
  (Lander.burn deltaTime l).(mPosition) = l.(mPosition) /\
  (Lander.burn deltaTime l).(mVelocity) = l.(mVelocity) /\
  (Lander.burn deltaTime l).(mLanded) = l.(mLanded) /\
  (Lander.burn deltaTime l).(mCrashed) = l.(mCrashed).
Proof.
  unfold Lander.burn.
  destruct (mThrustActive l && (mFuel l >? zero)%f32); [|auto].
  match goal with |- context [if ?b then _ else _] => destruct b end; auto.
Qed.

Lemma Lander_Update_keeps (deltaTime : float) (l : Lander) :
  (Lander.Update deltaTime l).(mVelocity) = l.(mVelocity) /\
  (Lander.Update deltaTime l).(mLanded) = l.(mLanded) /\
  (Lander.Update deltaTime l).(mCrashed) = l.(mCrashed).
Proof.
  unfold Lander.Update.
  destruct (burn_keeps deltaTime (Lander.advance deltaTime l)) as [_ [Hv [Hl Hc]]].
  rewrite Hv, Hl, Hc. auto.
Qed.





End Frame.

(** ** Invariants of the lander of a game *)

Section LanderInvariant.

Variable X : Externals.

(** A property of landers that holds of a new lander and that every method
    of the lander, the reset of the game and the 2D engine keep. *)
Variable P : Lander -> Prop.

Hypothesis P_ctor : P Lander.ctor.
Hypothesis P_reset : forall g l, P l -> P (Game.reset_lander X g l).
Hypothesis P_ApplyThrust : forall amount l, P l -> P (Lander.ApplyThrust amount l).
Hypothesis P_RotateLeft : forall loops amount l l',
  Lander.RotateLeft loops amount l = Some l' -> P l -> P l'.
Hypothesis P_RotateRight : forall loops amount l l',
  Lander.RotateRight loops amount l = Some l' -> P l -> P l'.
Hypothesis P_Update : forall deltaTime l, P l -> P (Lander.Update deltaTime l).
Hypothesis P_Physics : forall p l l' t deltaTime,
  p.(Physics.m3DMode) = false ->
  Physics.Update X p (Some l) t deltaTime = Some l' -> P l -> P l'.

(** The invariant of the game: its engine, which [Game::Initialize]
    constructs and nobody switches to 3D, works in 2D, and its lander has
    the property. *)
Definition steady (g : Game.t) : Prop :=
  (forall p, g.(Game.mPhysics) = Some p -> p.(Physics.m3DMode) = false) /\
  (forall l, g.(Game.mLander) = Some l -> P l).

Lemma steady_with_mLander (g : Game.t) (l : option Lander) :
  (forall x, l = Some x -> P x) -> steady g -> steady (Game.with_mLander l g).
Proof. intros Hl [Hp _]. split; [exact Hp | exact Hl]. Qed.

Lemma steady_same (g h : Game.t) :
  h.(Game.mPhysics) = g.(Game.mPhysics) -> h.(Game.mLander) = g.(Game.mLander) ->
  steady g -> steady h.
Proof. unfold steady. intros Hp Hl. rewrite Hp, Hl. auto. Qed.

Lemma steady_Reset (g g' : Game.t) :
  Game.Reset X g = Some g' -> steady g -> steady g'.
Proof.
  intros E [Hp HP].
  destruct (Game.mLander g) as [l|] eqn:Hl.
  - destruct (Reset_result X g l Hl) as [h [E' [_ [_ [_ [_ [Hl' [_ [_ [_ Hp']]]]]]]]]].
    rewrite E in E'. apply Some_inj in E'. subst h.
    split.
    + rewrite Hp'. exact Hp.
    + rewrite Hl'. intros x Hx. apply Some_inj in Hx. subst x.
      apply P_reset, (HP l). reflexivity.
  - unfold Game.Reset in E. apply bind_Some in E. destruct E as [x [E _]].
    cbn [Game.mLander Game.with_mLander Game.with_mTerrain Game.with_mFuelUsed
         Game.with_mElapsedTime Game.with_mScore Game.with_mGameState] in E.
    rewrite Hl in E. discriminate E.
Qed.

Lemma steady_create_components (g : Game.t) : steady (Game.create_components X g).
Proof.
  unfold Game.create_components, steady.
  match goal with |- context [if ?b then _ else _] => destruct b end;
    cbn [Game.mPhysics Game.mLander Game.with_mRenderer Game.with_m3DMode
         Game.with_mInputHandler Game.with_mPhysics];
    (split; [intros p Hp; apply Some_inj in Hp; subst p; reflexivity
            |intros l Hl; apply Some_inj in Hl; subst l; apply P_ctor]).
Qed.

Lemma steady_register_entities (g : Game.t) :
  steady g -> steady (Game.register_entities X g).
Proof.
  intros [Hp Hl]. unfold Game.register_entities, steady.
  cbn [Game.mPhysics Game.mLander Game.with_mTerrain Game.with_mPhysics].
  split; [|exact Hl].
  intros p E. destruct (Game.mPhysics g) as [q|]; [|discriminate].
  apply Some_inj in E. subst p. apply (Hp q). reflexivity.
Qed.

Lemma steady_Initialize (rendererOk : bool) (ticks : Z) (g : Game.t)
    (r : bool * Game.t) :
  Game.Initialize X rendererOk ticks g = Some r -> steady (snd r).
Proof.
  intros H.
  destruct (Initialize_cases X _ _ _ _ H) as [->|[h [E ->]]]; cbn [snd].
  - apply steady_create_components.
  - apply (steady_same h); try reflexivity.
    apply (steady_Reset _ _ E).
    apply steady_register_entities, steady_create_components.
Qed.

Lemma steady_SetDifficulty (d : Difficulty) (g g' : Game.t) :
  Game.SetDifficulty X d g = Some g' -> steady g -> steady g'.
Proof.
  unfold Game.SetDifficulty. intros H [Hp Hl].
  apply bind_Some in H. destruct H as [p [Ep H]].
  apply bind_Some in H. destruct H as [l [El H]].
  apply (steady_Reset _ _ H).
  cbn [Game.mLander Game.with_mPhysics Game.with_mDifficulty] in El.
  cbn [Game.mPhysics Game.with_mDifficulty] in Ep.
  split; cbn [Game.mPhysics Game.mLander Game.with_mLander Game.with_mPhysics].
  - intros q Eq. apply Some_inj in Eq. subst q. apply (Hp p Ep).
  - intros x Ex. apply Some_inj in Ex. subst x.
    apply P_ApplyThrust, (Hl l El).
Qed.

Lemma steady_SetRenderingMode (use3D rendererOk : bool) (ticks : Z)
    (g g' : Game.t) :
  Game.SetRenderingMode X use3D rendererOk ticks g = Some g' ->
  steady g -> steady g'.
Proof.
  unfold Game.SetRenderingMode. intros H Hg.
  destruct (negb (Bool.eqb (Game.m3DMode g) use3D)).
  - match type of H with
    | (if ?b then _ else _) = _ => destruct b
    end.
    + apply bind_Some in H. destruct H as [r [E H]].
      apply Some_inj in H. subst g'. apply (steady_Initialize _ _ _ _ E).
    + apply Some_inj in H. subst g'. apply (steady_same g); auto.
  - apply Some_inj in H. subst g'. exact Hg.
Qed.

Lemma steady_thrust_input (input : Input) (g h : Game.t) :
  Game.thrust_input input g = Some h -> steady g -> steady h.
Proof.
  unfold Game.thrust_input. intros H Hg.
  destruct (IsThrustActive input);
    apply bind_Some in H; destruct H as [l [El H]]; apply Some_inj in H; subst h;
    rewrite ?track_fuel_same; apply steady_with_mLander; try exact Hg;
    intros x Ex; apply Some_inj in Ex; subst x;
    apply P_ApplyThrust, (proj2 Hg l El).
Qed.

Lemma steady_rotate_left_input (loops : nat) (input : Input) (g h : Game.t) :
  Game.rotate_left_input loops input g = Some h -> steady g -> steady h.
Proof.
  unfold Game.rotate_left_input. intros H Hg.
  destruct (IsRotateLeftActive input).
  - apply bind_Some in H; destruct H as [l [El H]].
    apply bind_Some in H; destruct H as [l' [Er H]].
    apply Some_inj in H; subst h. apply steady_with_mLander; [|exact Hg].
    intros x Ex; apply Some_inj in Ex; subst x.
    apply (P_RotateLeft _ _ _ _ Er), (proj2 Hg l El).
  - apply Some_inj in H; subst h. exact Hg.
Qed.

Lemma steady_rotate_right_input (loops : nat) (input : Input) (g h : Game.t) :
  Game.rotate_right_input loops input g = Some h -> steady g -> steady h.
Proof.
  unfold Game.rotate_right_input. intros H Hg.
  destruct (IsRotateRightActive input).
  - apply bind_Some in H; destruct H as [l [El H]].
    apply bind_Some in H; destruct H as [l' [Er H]].
    apply Some_inj in H; subst h. apply steady_with_mLander; [|exact Hg].
    intros x Ex; apply Some_inj in Ex; subst x.
    apply (P_RotateRight _ _ _ _ Er), (proj2 Hg l El).
  - apply Some_inj in H; subst h. exact Hg.
Qed.

Lemma steady_ProcessInput (loops : nat) (input : Input) (g g' : Game.t) :
  Game.ProcessInput X loops input g = Some g' -> steady g -> steady g'.
Proof.
  intros H Hg.
  destruct (ProcessInput_cases X _ _ _ _ H) as [->|[h [Hq Hh]]]; [exact Hg|].
  assert (steady h) as Hs.
  { destruct Hh as [->|[->|[[_ [g1 [g2 [E1 [E2 E3]]]]]|E]]].
    - exact Hg.
    - apply (steady_same g); auto.
    - apply (steady_rotate_right_input _ _ _ _ E3).
      apply (steady_rotate_left_input _ _ _ _ E2).
      apply (steady_thrust_input _ _ _ E1 Hg).
    - apply (steady_Reset _ _ E Hg). }
  destruct Hq as [->| ->]; [exact Hs|]. apply (steady_same h); auto.
Qed.

Lemma steady_update_flying (deltaTime : float) (g : Game.t) :
  steady g -> steady (Game.update_flying X deltaTime g).
Proof.
  intros Hg.
  destruct (Game.mGameState g) eqn:Hs;
    try (rewrite update_flying_not_flying; [exact Hg | rewrite Hs; discriminate]).
  destruct (Game.mLander g) as [l|] eqn:Hl.
  - destruct (update_flying_lander X g l deltaTime Hs Hl) as [El [_ [_ [Ep _]]]].
    split.
    + rewrite Ep. apply Hg.
    + rewrite El. intros x Ex. apply Some_inj in Ex. subst x.
      unfold inspected. apply P_Update.
      destruct (Game.mPhysics g) as [p|] eqn:Hp; [|apply (proj2 Hg l Hl)].
      destruct (Physics_Update_some X p l (Game.mTerrain g) deltaTime) as [l1 E].
      rewrite E.
      apply (P_Physics p l l1 _ deltaTime (proj1 Hg p Hp) E).
      apply (proj2 Hg l Hl).
  - unfold Game.update_flying. rewrite Hs.
    destruct (Game.mPhysics g) as [p|] eqn:Hp.
    + assert (E : Physics.Update X p (Game.mLander g) (Game.mTerrain g) deltaTime = None).
      { rewrite Hl. unfold Physics.Update, Physics.Update2D, Physics.Update3D,
          Physics.deref.
        destruct (Physics.m3DMode p), (Physics.mLander p); reflexivity. }
      rewrite E. cbn [Game.mLander Game.with_mLander].
      split; cbn [Game.mPhysics Game.mLander Game.with_mLander Game.with_mElapsedTime].
      * apply (proj1 Hg).
      * discriminate.
    + rewrite Hl. split; cbn [Game.mPhysics Game.mLander Game.with_mElapsedTime].
      * rewrite Hp. discriminate.
      * rewrite Hl. discriminate.
Qed.

Lemma Update_keeps_after_flying (deltaTime : float) (g g' : Game.t) :
  Game.Update X deltaTime g = Some g' ->
  g'.(Game.mPhysics) = (Game.update_flying X deltaTime g).(Game.mPhysics) /\
  g'.(Game.mLander) = (Game.update_flying X deltaTime g).(Game.mLander).
Proof.
  unfold Game.Update. generalize (Game.update_flying X deltaTime g). intros h H.
  apply bind_Some in H. destruct H as [k [E H]].
  apply Some_inj in H. subst g'.
  cbn [Game.mPhysics Game.mLander Game.with_mTerrain].
  unfold Game.update_fall_timer in E.
  destruct (Game.mGameState h).
  - apply Some_inj in E. subst k. auto.
  - apply bind_Some in E. destruct E as [l [_ E]].
    apply Some_inj in E. subst k.
    destruct (mLanded l || mCrashed l), (negb (Game.fallTimerStarted h)); auto.
  - apply Some_inj in E. subst k. auto.
  - apply Some_inj in E. subst k. auto.
Qed.

Lemma steady_Update (deltaTime : float) (g g' : Game.t) :
  Game.Update X deltaTime g = Some g' -> steady g -> steady g'.
Proof.
  intros H Hg. destruct (Update_keeps_after_flying _ _ _ H) as [Hp Hl].
  apply (steady_same (Game.update_flying X deltaTime g)); try assumption.
  apply steady_update_flying, Hg.
Qed.

Lemma steady_exec (c : Game.call) (g g' : Game.t) :
  Game.exec X c g = Some g' -> steady g -> steady g'.
Proof.
  destruct c; cbn [Game.exec]; intros H Hg.
  - apply bind_Some in H. destruct H as [r [E H]].
    apply Some_inj in H. subst g'. apply (steady_Initialize _ _ _ _ E).
  - apply Some_inj in H. subst g'. split; discriminate.
  - apply (steady_Reset _ _ H Hg).
  - apply (steady_SetDifficulty _ _ _ H Hg).
  - apply (steady_SetRenderingMode _ _ _ _ _ H Hg).
  - apply (steady_ProcessInput _ _ _ _ H Hg).
  - apply (steady_Update _ _ _ H Hg).
  - destruct keyCode; cbn [Game.OnKeyDown] in H.
    + apply (steady_Reset _ _ H Hg).
    + apply Some_inj in H. subst g'. apply (steady_same g); auto.
    + apply (steady_SetDifficulty _ _ _ H Hg).
    + apply (steady_SetDifficulty _ _ _ H Hg).
    + apply (steady_SetDifficulty _ _ _ H Hg).
    + apply (steady_SetRenderingMode _ _ _ _ _ H Hg).
    + apply Some_inj in H. subst g'. exact Hg.
Qed.

Lemma steady_reachable (g : Game.t) : Game.reachable X g -> steady g.
Proof.
  induction 1 as [|c g g' _ IH E].
  - split; discriminate.
  - apply (steady_exec c g g' E IH).
Qed.

End LanderInvariant.

(** ** Sequences of calls *)

Lemma reachable_run (X : Externals) (cs : list Game.call) (g g' : Game.t) :
  Game.reachable X g -> Game.run X cs g = Some g' -> Game.reachable X g'.
Proof.
  revert g. induction cs as [|c cs IH]; intros g Hg H.
  - apply Some_inj in H. subst g'. exact Hg.
  - cbn [Game.run] in H. apply bind_Some in H. destruct H as [h [E H]].
    apply (IH h); [|exact H]. apply (@Game.reachable_exec X c g h Hg E).
Qed.

(** ** Velocity after the outcome *)

Section Grounded.

Variable X : Externals.

(** A lander is calm when its third velocity component is 0 and, once it
    has landed or crashed, its whole velocity is 0. *)
Definition calm (l : Lander) : Prop :=
  l.(mVelocity).(at2) = zero /\
  (Physics.grounded l = true -> l.(mVelocity) = zero3).

Lemma calm_same_motion (l l' : Lander) :
  l'.(mVelocity) = l.(mVelocity) -> l'.(mLanded) = l.(mLanded) ->
  l'.(mCrashed) = l.(mCrashed) -> calm l -> calm l'.
Proof.
  unfold calm, Physics.grounded. intros Hv Hl Hc. rewrite Hv, Hl, Hc. auto.
Qed.

Lemma calm_reset_lander (g : Game.t) (l : Lander) :
  calm l -> calm (Game.reset_lander X g l).
Proof.
  intros _.
  destruct (reset_lander_values X g l) as [_ [_ [Hv _]]].
  unfold calm. rewrite Hv. split; reflexivity.
Qed.

Lemma calm_ctor : calm Lander.ctor.
Proof. split; reflexivity. Qed.

Lemma calm_ApplyThrust (amount : float) (l : Lander) :
  calm l -> calm (Lander.ApplyThrust amount l).
Proof.
  apply calm_same_motion; unfold Lander.ApplyThrust;
    destruct (mFuel l <=? zero)%f32; reflexivity.
Qed.

Lemma calm_RotateLeft (loops : nat) (amount : float) (l l' : Lander) :
  Lander.RotateLeft loops amount l = Some l' -> calm l -> calm l'.
Proof.
  unfold Lander.RotateLeft. intros H.
  destruct (Lander.wrap_down loops _); [|discriminate].
  apply Some_inj in H. subst l'. apply calm_same_motion; reflexivity.
Qed.

Lemma calm_RotateRight (loops : nat) (amount : float) (l l' : Lander) :
  Lander.RotateRight loops amount l = Some l' -> calm l -> calm l'.
Proof.
  unfold Lander.RotateRight. intros H.
  destruct (Lander.wrap_up loops _); [|discriminate].
  apply Some_inj in H. subst l'. apply calm_same_motion; reflexivity.
Qed.

Lemma calm_Lander_Update (deltaTime : float) (l : Lander) :
  calm l -> calm (Lander.Update deltaTime l).
Proof.
  destruct (Lander_Update_keeps deltaTime l) as [Hv [Hl Hc]].
  apply calm_same_motion; assumption.
Qed.

(** The 2D engine keeps a calm lander calm: the forces leave the third
    velocity component alone, and a collision stops the other two. *)
Lemma calm_Physics_Update (p : Physics.t) (l l' : Lander) (t : option Terrain)
    (deltaTime : float) :
  p.(Physics.m3DMode) = false ->
  Physics.Update X p (Some l) t deltaTime = Some l' ->
  calm l -> calm l'.
Proof.
  intros H3 E Hc.
  destruct (Physics.grounded l) eqn:Hg.
  - rewrite (Update_grounded X p l t deltaTime Hg) in E.
    apply Some_inj in E. subst l'. exact Hc.
  - destruct (Physics.mLander p) eqn:HL, (Physics.mTerrain p) eqn:HT, t as [t|];
      try (unfold Physics.Update, Physics.Update2D, Physics.deref in E;
           rewrite H3, HL, ?HT in E; apply Some_inj in E; subst l';
           exact Hc).
    destruct Hc as [Hz _].
    rewrite (Update_as_moved X p l t deltaTime HL HT) in E.
    destruct (forced_velocity X p l deltaTime) as [v [Ev [_ Hv2]]].
    assert (Em : moved X p l deltaTime
                 = Physics.integrate2D X deltaTime (Lander.with_mVelocity v l))
      by (unfold moved; rewrite H3, Ev; reflexivity).
    assert (Hm : Physics.grounded (moved X p l deltaTime) = false).
    { rewrite Em. unfold Physics.integrate2D.
      change (Physics.grounded (Lander.with_mVelocity v l)) with (Physics.grounded l).
      rewrite Hg. exact Hg. }
    assert (Hmv : (moved X p l deltaTime).(mVelocity) = v).
    { rewrite Em. unfold Physics.integrate2D.
      change (Physics.grounded (Lander.with_mVelocity v l)) with (Physics.grounded l).
      rewrite Hg. reflexivity. }
    rewrite (CheckCollisions_flying X p t _ Hm HL HT) in E.
    destruct (fst (reported X p t (moved X p l deltaTime))).
    + apply Some_inj in E. subst l'. rewrite H3.
      assert (Hs : (snapped X p t (moved X p l deltaTime)).(mVelocity) = v)
        by exact Hmv.
      unfold calm, Physics.touch_down.
      destruct (verdict X p t (moved X p l deltaTime)); cbn [mVelocity
        Lander.with_mVelocity Lander.with_mLanded Lander.with_mCrashed at2];
        rewrite Hs, (Hv2 H3), Hz; split; reflexivity.
    + apply Some_inj in E. subst l'. split.
      * rewrite Hmv, (Hv2 H3). exact Hz.
      * rewrite Hm. discriminate.
Qed.

Lemma calm_reachable (g : Game.t) : Game.reachable X g -> steady calm g.
Proof.
  apply (steady_reachable X calm calm_ctor calm_reset_lander calm_ApplyThrust
           calm_RotateLeft calm_RotateRight calm_Lander_Update calm_Physics_Update).
Qed.

(** C2.  In every reachable state of the game, a lander whose landed or
    crashed flag is set has all three velocity components exactly 0, and
    [Physics::Update], for any engine, terrain and time step, returns it
    unchanged: no gravity, thrust or drag is applied and no position is
    integrated, so the velocity stays 0 and the flags stay set until
    [Reset] clears them. *)
Theorem grounded_velocity_zero (g : Game.t) (l : Lander) :
  Game.reachable X g -> g.(Game.mLander) = Some l ->
  l.(mLanded) = true \/ l.(mCrashed) = true ->
  l.(mVelocity) = zero3 /\
  forall (p : Physics.t) (t : option Terrain) (deltaTime : float),
    Physics.Update X p (Some l) t deltaTime = Some l.
Proof.
  intros Hr Hl Hflag.
  assert (Hg : Physics.grounded l = true).
  { unfold Physics.grounded. destruct Hflag as [H|H]; rewrite H.
    - reflexivity.
    - apply orb_true_r. }
  split.
  - apply (proj2 (calm_reachable g Hr) l Hl). exact Hg.
  - intros p t deltaTime. apply Update_grounded. exact Hg.
Qed.

End Grounded.

(** ** A flight over the test terrain *)

(** The game after [Initialize], after one frame with the thrust key held,
    and after six frames of free fall of 0.1 s each, which end in the
    ground. *)
Definition thrust_held : Input := mkInput false true false false false false.

Definition flight_started : list Game.call := [Game.CallInitialize true 0].

Definition flight_thrust : list Game.call :=
  [Game.CallInitialize true 0;
   Game.CallProcessInput 1 thrust_held;
   Game.CallUpdate (literal 1 10)].

Definition flight_fall : list Game.call :=
  Game.CallInitialize true 0 :: repeat (Game.CallUpdate (literal 1 10)) 6.

Definition state_after (cs : list Game.call) : Game.t :=
  match Game.run flat_ground cs Game.ctor with
  | Some g => g
  | None => Game.ctor
  end.

Definition lander_of (g : Game.t) : Lander :=
  match g.(Game.mLander) with
  | Some l => l
  | None => Lander.ctor
  end.

Definition game_started : Game.t := state_after flight_started.
Definition game_thrust : Game.t := state_after flight_thrust.
Definition game_crashed : Game.t := state_after flight_fall.

Lemma reachable_state_after (cs : list Game.call) :
  Game.run flat_ground cs Game.ctor <> None ->
  Game.reachable flat_ground (state_after cs).
Proof.
  intros H. unfold state_after.
  destruct (Game.run flat_ground cs Game.ctor) as [g|] eqn:E; [|congruence].
  apply (reachable_run flat_ground cs Game.ctor g (Game.reachable_ctor _) E).
Qed.

Example free_fall_crashes :
  game_crashed.(Game.mGameState) = CRASHED /\
  game_crashed.(Game.mScore) = zero /\
  (lander_of game_crashed).(mCrashed) = true /\
  (lander_of game_crashed).(mPosition).(at1) = of_Z 105.
Proof. vm_compute. repeat split; reflexivity. Qed.

Lemma grounded_velocity_zero_witness :
  (lander_of game_crashed).(mVelocity) = zero3 /\
  forall (p : Physics.t) (t : option Terrain) (deltaTime : float),
    Physics.Update flat_ground p (Some (lander_of game_crashed)) t deltaTime
    = Some (lander_of game_crashed).
Proof.
  apply (grounded_velocity_zero flat_ground game_crashed (lander_of game_crashed)).
  - apply reachable_state_after. vm_compute. discriminate.
  - vm_compute. reflexivity.
  - right. vm_compute. reflexivity.
Defined.

Lemma mFuelUsed_always_zero_witness : game_thrust.(Game.mFuelUsed) = zero.
Proof.
  apply (mFuelUsed_always_zero flat_ground game_thrust).
  apply reachable_state_after. vm_compute. discriminate.
Defined.

(** A terrain like the test terrain with the ground at [height]. *)
Definition ground_at (height : Z) : Externals :=
  {| Terrain_ctor := mkTerrain [] [] [] 0 0 0;
     Generate2D := fun w h _ =>
       mkTerrain [mkSegment zero (of_Z height) (of_Z w) (of_Z height) true] [] [] w h 0;
     Generate3D := fun w len h _ => mkTerrain [] [] [] w h len;
     Terrain_Update := fun _ t => t;
     CheckCollision2D := fun _ l =>
       ((of_Z height <=? l.(mPosition).(at1) + l.(mHeight) / of_Z 2)%f32,
        of_Z height);
     IsValidLanding2D := fun _ l => (abs l.(mVelocity).(at1) <=? of_Z 2)%f32;
     CheckCollision3D := fun _ l =>
       ((of_Z height <=? l.(mPosition).(at1) + l.(mHeight) / of_Z 2)%f32,
        of_Z height);
     IsValidLanding3D := fun _ l => (abs l.(mVelocity).(at1) <=? of_Z 2)%f32;
     SetPosition_default_z := zero;
     USE_OPENGL := false;
     radians := fun a => a;
     sin_times := fun _ _ => zero;
     cos_times := fun _ f => f |}.

(** A game that has just started right over the ground at [y = 115]: the
    feet of the lander reach it in the first frame, at a speed below 2.
    And the game over the test terrain five frames into its fall: the
    sixth frame ends in the ground, too fast. *)
Definition game_over_pad : Game.t :=
  match Game.run (ground_at 115) flight_started Game.ctor with
  | Some g => g
  | None => Game.ctor
  end.

Definition game_falling : Game.t :=
  state_after (Game.CallInitialize true 0 :: repeat (Game.CallUpdate (literal 1 10)) 5).

Lemma Update_scores_outcome_witness :
  (exists g',
     Game.Update (ground_at 115) (literal 1 10) game_over_pad = Some g' /\
     (inspected (ground_at 115) game_over_pad (lander_of game_over_pad)
        (literal 1 10)).(mLanded) = true /\
     g'.(Game.mGameState) = LANDED /\
     g'.(Game.mScore) = of_Z 1000) /\
  (exists g',
     Game.Update flat_ground (literal 1 10) game_falling = Some g' /\
     (inspected flat_ground game_falling (lander_of game_falling)
        (literal 1 10)).(mCrashed) = true /\
     g'.(Game.mGameState) = CRASHED /\
     g'.(Game.mScore) = zero).
Proof.
  split.
  - destruct (Update_scores_outcome (ground_at 115) game_over_pad
                (lander_of game_over_pad) (literal 1 10))
      as [g' [l' [E [El [_ [HL _]]]]]];
      [vm_compute; reflexivity | vm_compute; reflexivity |].
    assert (L : mLanded l' = true) by (rewrite El; vm_compute; reflexivity).
    destruct (HL L) as [Hs Hst].
    exists g'. split; [exact E|]. split; [rewrite <- El; exact L|].
    split; [exact Hst|]. rewrite Hs, El. vm_compute. reflexivity.
  - destruct (Update_scores_outcome flat_ground game_falling
                (lander_of game_falling) (literal 1 10))
      as [g' [l' [E [El [_ [_ HC]]]]]];
      [vm_compute; reflexivity | vm_compute; reflexivity |].
    assert (L : mLanded l' = false) by (rewrite El; vm_compute; reflexivity).
    assert (C : mCrashed l' = true) by (rewrite El; vm_compute; reflexivity).
    destruct (HC L C) as [Hs Hst].
    exists g'. split; [exact E|]. split; [rewrite <- El; exact C|].
    split; [exact Hst | exact Hs].
Defined.

Lemma Reset_initial_values_witness :
  exists g' l',
    Game.Reset flat_ground game_crashed = Some g' /\
    g'.(Game.mGameState) = FLYING /\
    g'.(Game.mScore) = zero /\
    g'.(Game.mElapsedTime) = zero /\
    g'.(Game.mFuelUsed) = zero /\
    g'.(Game.mLander) = Some l' /\
    l'.(mPosition) = initial_position flat_ground game_crashed /\
    l'.(mRotation) = zero3 /\
    l'.(mVelocity) = zero3 /\
    l'.(mFuel) = (lander_of game_crashed).(mMaxFuel) /\
    l'.(mThrustLevel) = zero /\
    l'.(mThrustActive) = false /\
    l'.(mLanded) = false /\
    l'.(mCrashed) = false /\
    exists g'',
      Game.Reset flat_ground g' = Some g'' /\
      g''.(Game.mGameState) = FLYING /\
      g''.(Game.mScore) = zero /\
      g''.(Game.mElapsedTime) = zero /\
      g''.(Game.mFuelUsed) = zero /\
      g''.(Game.mLander) = Some l'.
Proof.
  apply (Reset_initial_values flat_ground game_crashed (lander_of game_crashed)).
  vm_compute. reflexivity.
Defined.

(** In the window of 800 by 600 of [Initialize] the 2D lander restarts at
    (400, 100, 0) with the 1000 units of fuel of its constructor. *)
Example Reset_in_2D_window :
  initial_position flat_ground game_crashed = Float3 (of_Z 400) (of_Z 100) zero /\
  (lander_of game_crashed).(mMaxFuel) = of_Z 1000.
Proof. vm_compute. split; reflexivity. Qed.


(** ** Fuel *)

(** The fuel that [Lander::Update] takes away during [deltaTime]. *)
Definition spent (deltaTime : float) (l : Lander) : float :=
  (l.(mFuelConsumptionRate) * l.(mThrustLevel) * deltaTime)%f32.

Lemma burn_idle (deltaTime : float) (l : Lander) :
  l.(mThrustActive) && (l.(mFuel) >? zero)%f32 = false ->
  Lander.burn deltaTime l = l.
Proof. unfold Lander.burn. intros H. rewrite H. reflexivity. Qed.

Lemma burn_active (deltaTime : float) (l : Lander) :
  l.(mThrustActive) && (l.(mFuel) >? zero)%f32 = true ->
  (Lander.burn deltaTime l).(mFuel) = max zero (l.(mFuel) - spent deltaTime l)%f32 /\
  (Lander.burn deltaTime l).(mThrustLevel) = l.(mThrustLevel) /\
  (Lander.burn deltaTime l).(mThrustActive)
  = negb (max zero (l.(mFuel) - spent deltaTime l) <=? zero)%f32.
Proof.
  unfold Lander.burn, spent. intros H. rewrite H.
  cbn [mFuel mThrustLevel Lander.with_mFuel].
  destruct (max zero _ <=? zero)%f32; cbn; rewrite ?(proj1 (andb_prop _ _ H)); auto.
Qed.





(** The tank of a lander is in order when its fuel and its capacity are
    binary32 numbers that are not negative, neither its thrust level nor
    its consumption rate is negative, and its thrust is active on positive
    fuel only. *)
Definition fuelled (l : Lander) : Prop :=
  valid_binary prec emax l.(mFuel) = true /\
  valid_binary prec emax l.(mMaxFuel) = true /\
  (zero <=? l.(mFuel))%f32 = true /\
  (zero <=? l.(mMaxFuel))%f32 = true /\
  (zero <=? l.(mThrustLevel))%f32 = true /\
  (zero <=? l.(mFuelConsumptionRate))%f32 = true /\
  (l.(mThrustActive) = true -> (l.(mFuel) >? zero)%f32 = true).

Lemma leb_zero_not_nan (x : float) : (zero <=? x)%f32 = true -> is_nan x = false.
Proof. destruct x; [reflexivity|reflexivity|discriminate|reflexivity]. Qed.

Lemma max_zero_leb (x : float) : (zero <=? max zero x)%f32 = true.
Proof.
  unfold max. destruct (zero <? x)%f32 eqn:H.
  - apply ltb_leb. exact H.
  - reflexivity.
Qed.

(** A number that is at least 0 and not at most 0 is positive. *)
Lemma positive_when_not_leb (x : float) :
  (zero <=? x)%f32 = true -> (x <=? zero)%f32 = false -> (x >? zero)%f32 = true.
Proof.
  intros H0 H1. apply leb_zero_false_iff; [|exact H1].
  apply leb_zero_not_nan. exact H0.
Qed.

Section Tank.

Variable X : Externals.

Lemma fuelled_ctor : fuelled Lander.ctor.
Proof. unfold fuelled. repeat (split; [reflexivity|]). discriminate. Qed.

Lemma fuelled_reset_lander (g : Game.t) (l : Lander) :
  fuelled l -> fuelled (Game.reset_lander X g l).
Proof.
  intros [_ [Hm [_ [Hm0 [_ [Hr _]]]]]].
  destruct (reset_lander_values X g l)
    as [_ [_ [_ [_ [Ef [Em [El [Ea _]]]]]]]].
  unfold fuelled. rewrite Ef, Em, El, Ea.
  assert (Er : mFuelConsumptionRate (Game.reset_lander X g l) = mFuelConsumptionRate l)
    by (unfold Game.reset_lander; destruct (Game.m3DMode g); reflexivity).
  rewrite Er. repeat split; try assumption. discriminate.
Qed.

Lemma fuelled_ApplyThrust (amount : float) (l : Lander) :
  fuelled l -> fuelled (Lander.ApplyThrust amount l).
Proof.
  intros [Hf [Hm [Hf0 [Hm0 [_ [Hr _]]]]]]. unfold Lander.ApplyThrust.
  fold (clamp01 amount).
  destruct (mFuel l <=? zero)%f32 eqn:Hle; repeat split; try assumption.
  - discriminate.
  - apply clamp01_range.
  - intros _. apply positive_when_not_leb; assumption.
Qed.

Lemma fuelled_RotateLeft (loops : nat) (amount : float) (l l' : Lander) :
  Lander.RotateLeft loops amount l = Some l' -> fuelled l -> fuelled l'.
Proof.
  unfold Lander.RotateLeft. intros H.
  destruct (Lander.wrap_down loops _); [|discriminate].
  apply Some_inj in H. subst l'. auto.
Qed.

Lemma fuelled_RotateRight (loops : nat) (amount : float) (l l' : Lander) :
  Lander.RotateRight loops amount l = Some l' -> fuelled l -> fuelled l'.
Proof.
  unfold Lander.RotateRight. intros H.
  destruct (Lander.wrap_up loops _); [|discriminate].
  apply Some_inj in H. subst l'. auto.
Qed.

Lemma burn_keeps_tank (deltaTime : float) (l : Lander) :
  (Lander.burn deltaTime l).(mMaxFuel) = l.(mMaxFuel) /\
  (Lander.burn deltaTime l).(mThrustLevel) = l.(mThrustLevel) /\
  (Lander.burn deltaTime l).(mFuelConsumptionRate) = l.(mFuelConsumptionRate).
Proof.
  unfold Lander.burn.
  destruct (mThrustActive l && (mFuel l >? zero)%f32); [|auto].
  match goal with |- context [if ?b then _ else _] => destruct b end; auto.
Qed.

Lemma fuelled_Lander_Update (deltaTime : float) (l : Lander) :
  fuelled l -> fuelled (Lander.Update deltaTime l).
Proof.
  intros [Hf [Hm [Hf0 [Hm0 [Hl [Hr Ha]]]]]]. unfold Lander.Update.
  set (a := Lander.advance deltaTime l).
  destruct (burn_keeps_tank deltaTime a) as [Em [El Er]].
  unfold fuelled. rewrite Em, El, Er.
  destruct (mThrustActive a && (mFuel a >? zero)%f32) eqn:Hb.
  - destruct (burn_active deltaTime a Hb) as [Bf [_ Ba]]. rewrite Bf, Ba.
    apply andb_prop in Hb. destruct Hb as [_ Hpos].
    repeat split; try assumption.
    + apply sub_clamped_valid; assumption.
    + apply max_zero_leb.
    + intros H. apply negb_true_iff in H.
      apply positive_when_not_leb; [apply max_zero_leb | exact H].
  - rewrite (burn_idle deltaTime a Hb). repeat split; assumption.
Qed.

(** The engine leaves the tank alone. *)
Lemma Physics_Update_keeps_tank (p : Physics.t) (l l' : Lander)
    (t : option Terrain) (deltaTime : float) :
  Physics.Update X p (Some l) t deltaTime = Some l' ->
  l'.(mFuel) = l.(mFuel) /\ l'.(mMaxFuel) = l.(mMaxFuel) /\
  l'.(mThrustLevel) = l.(mThrustLevel) /\
  l'.(mFuelConsumptionRate) = l.(mFuelConsumptionRate) /\
  l'.(mThrustActive) = l.(mThrustActive).
Proof.
  intros E.
  destruct (Physics.grounded l) eqn:Hg.
  - rewrite (Update_grounded X p l t deltaTime Hg) in E.
    apply Some_inj in E. subst l'. auto.
  - destruct (Physics.mLander p) eqn:HL, (Physics.mTerrain p) eqn:HT, t as [t|];
      try (unfold Physics.Update, Physics.Update2D, Physics.Update3D,
             Physics.deref in E;
           rewrite HL, ?HT in E; destruct (Physics.m3DMode p);
           apply Some_inj in E; subst l'; auto).
    rewrite (Update_as_moved X p l t deltaTime HL HT) in E.
    destruct (forced_velocity X p l deltaTime) as [v [Ev _]].
    assert (Hm : Physics.grounded (moved X p l deltaTime) = false).
    { unfold moved. rewrite Ev. unfold Physics.integrate2D, Physics.integrate3D.
      change (Physics.grounded (Lander.with_mVelocity v l)) with (Physics.grounded l).
      rewrite Hg. destruct (Physics.m3DMode p); exact Hg. }
    rewrite (CheckCollisions_flying X p t _ Hm HL HT) in E.
    assert (Hk : (moved X p l deltaTime).(mFuel) = l.(mFuel) /\
                 (moved X p l deltaTime).(mMaxFuel) = l.(mMaxFuel) /\
                 (moved X p l deltaTime).(mThrustLevel) = l.(mThrustLevel) /\
                 (moved X p l deltaTime).(mFuelConsumptionRate)
                 = l.(mFuelConsumptionRate) /\
                 (moved X p l deltaTime).(mThrustActive) = l.(mThrustActive)).
    { unfold moved. rewrite Ev. unfold Physics.integrate2D, Physics.integrate3D.
      change (Physics.grounded (Lander.with_mVelocity v l)) with (Physics.grounded l).
      rewrite Hg. destruct (Physics.m3DMode p); auto 6. }
    destruct (fst (reported X p t (moved X p l deltaTime)));
      apply Some_inj in E; subst l'; [|exact Hk].
    unfold Physics.touch_down.
    destruct (verdict X p t (moved X p l deltaTime)); exact Hk.
Qed.

Lemma fuelled_Physics_Update (p : Physics.t) (l l' : Lander) (t : option Terrain)
    (deltaTime : float) :
  p.(Physics.m3DMode) = false ->
  Physics.Update X p (Some l) t deltaTime = Some l' ->
  fuelled l -> fuelled l'.
Proof.
  intros _ E H.
  destruct (Physics_Update_keeps_tank p l l' t deltaTime E)
    as [Ef [Em [El [Er Ea]]]].
  unfold fuelled. rewrite Ef, Em, El, Er, Ea. exact H.
Qed.

Lemma fuelled_reachable (g : Game.t) : Game.reachable X g -> steady fuelled g.
Proof.
  apply (steady_reachable X fuelled fuelled_ctor fuelled_reset_lander
           fuelled_ApplyThrust fuelled_RotateLeft fuelled_RotateRight
           fuelled_Lander_Update fuelled_Physics_Update).
Qed.


End Tank.


Example thrust_frame_leaves_999 :
  (lander_of game_thrust).(mFuel) = of_Z 999 /\
  (lander_of game_thrust).(mThrustActive) = true /\
  (Lander.Update (literal 1 10) (lander_of game_thrust)).(mFuel) = of_Z 998.
Proof. vm_compute. repeat split; reflexivity. Qed.

Definition lander_thrusting : Lander := Lander.ApplyThrust one lander_aloft.

Example full_thrust_burns_one_unit :
  (Lander.Update (literal 1 10) lander_thrusting).(mFuel)
  = (of_Z 1000 - of_Z 10 * one * literal 1 10)%f32 /\
  (Lander.Update (literal 1 10) lander_thrusting).(mFuel) = of_Z 999.
Proof. vm_compute. split; reflexivity. Qed.

(** With a tenth of a unit left, the same step takes the fuel to exactly 0
    and switches the thrust off. *)
Example last_fuel_switches_thrust_off :
  let l := Lander.with_mFuel (literal 1 10) lander_thrusting in
  (Lander.Update (literal 1 10) l).(mFuel) = zero /\
  (Lander.Update (literal 1 10) l).(mThrustActive) = false.
Proof. vm_compute. split; reflexivity. Qed.


(** * Further properties of the kernel *)

(** ** Update and the flight state *)

Section UpdateFacts.

Variable X : Externals.

Lemma update_flying_no_lander (g : Game.t) (deltaTime : float) :
  g.(Game.mGameState) = FLYING -> g.(Game.mLander) = None ->
  (Game.update_flying X deltaTime g).(Game.mGameState) = FLYING /\
  (Game.update_flying X deltaTime g).(Game.mLander) = None.
Proof.
  intros Hs Hl. unfold Game.update_flying. rewrite Hs.
  destruct (Game.mPhysics g) as [p|].
  - assert (E : Physics.Update X p (Game.mLander g) (Game.mTerrain g) deltaTime = None).
    { rewrite Hl. unfold Physics.Update, Physics.Update2D, Physics.Update3D,
        Physics.deref.
      destruct (Physics.m3DMode p), (Physics.mLander p); reflexivity. }
    rewrite E. cbn [Game.mLander Game.with_mLander].
    cbn [Game.mGameState Game.mLander Game.with_mElapsedTime Game.with_mLander].
    auto.
  - rewrite Hl. cbn [Game.mGameState Game.mLander Game.with_mElapsedTime]. auto.
Qed.

Lemma update_flying_mElapsedTime (g : Game.t) (deltaTime : float) :
  (Game.update_flying X deltaTime g).(Game.mElapsedTime)
  = match g.(Game.mGameState) with
    | FLYING => (g.(Game.mElapsedTime) + deltaTime)%f32
    | _ => g.(Game.mElapsedTime)
    end.
Proof.
  destruct (Game.mGameState g) eqn:Hs;
    try (rewrite update_flying_not_flying; [reflexivity | rewrite Hs; discriminate]).
  destruct (Game.mLander g) as [l|] eqn:Hl.
  - destruct (update_flying_lander X g l deltaTime Hs Hl) as [_ [E _]]. exact E.
  - unfold Game.update_flying. rewrite Hs.
    destruct (Game.mPhysics g) as [p|].
    + destruct (Physics.Update X p (Game.mLander g) (Game.mTerrain g) deltaTime) as [l|];
        cbn [Game.mLander Game.with_mLander]; [|reflexivity].
      destruct (mLanded (Lander.Update deltaTime l)); [reflexivity|].
      destruct (mCrashed (Lander.Update deltaTime l)); reflexivity.
    + rewrite Hl. reflexivity.
Qed.

(** What the blocks of [Game::Update] after the first one keep, when the
    method returns. *)
Lemma Update_returns (deltaTime : float) (g g' : Game.t) :
  Game.Update X deltaTime g = Some g' ->
  let h := Game.update_flying X deltaTime g in
  g'.(Game.mGameState) = h.(Game.mGameState) /\
  g'.(Game.mScore) = h.(Game.mScore) /\
  g'.(Game.mLander) = h.(Game.mLander) /\
  g'.(Game.mPhysics) = h.(Game.mPhysics) /\
  g'.(Game.mElapsedTime) = h.(Game.mElapsedTime) /\
  g'.(Game.mDifficulty) = h.(Game.mDifficulty) /\
  g'.(Game.mIsRunning) = h.(Game.mIsRunning) /\
  g'.(Game.m3DMode) = h.(Game.m3DMode) /\
  g'.(Game.mTerrain) = option_map (X.(Terrain_Update) deltaTime) h.(Game.mTerrain) /\
  (h.(Game.mGameState) = FLYING -> h.(Game.mLander) <> None).
Proof.
  unfold Game.Update. generalize (Game.update_flying X deltaTime g). intros h H.
  apply bind_Some in H. destruct H as [k [E H]].
  apply Some_inj in H. subst g'.
  cbn [Game.mPhysics Game.mLander Game.mGameState Game.mScore Game.mElapsedTime
       Game.mDifficulty Game.mIsRunning Game.m3DMode Game.mTerrain
       Game.with_mTerrain].
  unfold Game.update_fall_timer in E.
  destruct (Game.mGameState h) eqn:Hs.
  - apply Some_inj in E. subst k. repeat split; solve [exact Hs | discriminate].
  - apply bind_Some in E. destruct E as [l [El E]].
    apply Some_inj in E. subst k.
    assert (Game.mLander h <> None).
    { destruct (negb (Game.fallTimerStarted h)); cbn in El; congruence. }
    destruct (mLanded l || mCrashed l), (negb (Game.fallTimerStarted h));
      repeat split; solve [exact Hs | auto].
  - apply Some_inj in E. subst k. repeat split; solve [exact Hs | discriminate].
  - apply Some_inj in E. subst k. repeat split; solve [exact Hs | discriminate].
Qed.

(** X1.  [Game::Update] adds [deltaTime] to the elapsed time exactly when
    the state is FLYING on entry (also in the frame that ends the flight),
    and leaves the elapsed time alone in every other state. *)
Theorem Update_elapsed_time (deltaTime : float) (g g' : Game.t) :
  Game.Update X deltaTime g = Some g' ->
  g'.(Game.mElapsedTime)
  = match g.(Game.mGameState) with
    | FLYING => (g.(Game.mElapsedTime) + deltaTime)%f32
    | _ => g.(Game.mElapsedTime)
    end.
Proof.
  intros H. destruct (Update_returns deltaTime g g' H) as [_ [_ [_ [_ [E _]]]]].
  rewrite E. apply update_flying_mElapsedTime.
Qed.

(** X2.  Outside the FLYING state [Game::Update] always returns and touches
    neither the state, the score, the elapsed time nor the lander and the
    engine: a landed or crashed game stays as it is, whatever time
    passes.  Only the terrain is updated. *)
Theorem Update_outside_flight (deltaTime : float) (g : Game.t) :
  g.(Game.mGameState) <> FLYING ->
  exists g',
    Game.Update X deltaTime g = Some g' /\
    g'.(Game.mGameState) = g.(Game.mGameState) /\
    g'.(Game.mScore) = g.(Game.mScore) /\
    g'.(Game.mElapsedTime) = g.(Game.mElapsedTime) /\
    g'.(Game.mLander) = g.(Game.mLander) /\
    g'.(Game.mPhysics) = g.(Game.mPhysics) /\
    g'.(Game.mTerrain) = option_map (X.(Terrain_Update) deltaTime) g.(Game.mTerrain).
Proof.
  intros Hs.
  destruct (Update_after_flying X g deltaTime) as [g' [E _]].
  { left. rewrite (update_flying_not_flying X g deltaTime Hs). exact Hs. }
  exists g'. split; [exact E|].
  destruct (Update_returns deltaTime g g' E)
    as [E1 [E2 [E3 [E4 [E5 [_ [_ [_ [E6 _]]]]]]]]].
  rewrite (update_flying_not_flying X g deltaTime Hs) in E1, E2, E3, E4, E5, E6.
  auto 10.
Qed.

Lemma Reset_None_iff (g : Game.t) :
  Game.Reset X g = None <-> g.(Game.mLander) = None.
Proof.
  split.
  - intros H. destruct (Game.mLander g) as [l|] eqn:Hl; [|reflexivity].
    destruct (Reset_result X g l Hl) as [g' [E _]]. congruence.
  - intros Hl. destruct (Game.Reset X g) as [g'|] eqn:E; [|reflexivity].
    unfold Game.Reset in E. apply bind_Some in E. destruct E as [x [E _]].
    cbn [Game.mLander Game.with_mLander Game.with_mTerrain Game.with_mFuelUsed
         Game.with_mElapsedTime Game.with_mScore Game.with_mGameState] in E.
    rewrite Hl in E. discriminate E.
Qed.

Lemma Update_None_iff (deltaTime : float) (g : Game.t) :
  Game.Update X deltaTime g = None <->
  g.(Game.mGameState) = FLYING /\ g.(Game.mLander) = None.
Proof.
  split.
  - intros H.
    destruct (Game.mGameState g) eqn:Hs;
      try (destruct (Update_after_flying X g deltaTime) as [g' [E _]];
           [left; rewrite update_flying_not_flying; rewrite Hs; discriminate
           |congruence]).
    split; [reflexivity|].
    destruct (Game.mLander g) as [l|] eqn:Hl; [|reflexivity].
    destruct (update_flying_lander X g l deltaTime Hs Hl) as [El _].
    destruct (Update_after_flying X g deltaTime) as [g' [E _]];
      [right; rewrite El; discriminate | congruence].
  - intros [Hs Hl].
    destruct (Game.Update X deltaTime g) as [g'|] eqn:E; [|reflexivity].
    destruct (Update_returns deltaTime g g' E) as [_ [_ [_ [_ [_ [_ [_ [_ [_ H]]]]]]]]].
    destruct (update_flying_no_lander g deltaTime Hs Hl) as [Fs Fl].
    elim (H Fs). exact Fl.
Qed.

(** X3.  [Game::Reset] and [Game::Update] read the lander without a null
    check: [Reset] has a defined result exactly when the game has a lander,
    and [Update] exactly when it has one or the state is not FLYING. *)
Theorem Reset_and_Update_need_lander (deltaTime : float) (g : Game.t) :
  (Game.Reset X g = None <-> g.(Game.mLander) = None) /\
  (Game.Update X deltaTime g = None <->
   g.(Game.mGameState) = FLYING /\ g.(Game.mLander) = None).
Proof. split; [apply Reset_None_iff | apply Update_None_iff]. Qed.

End UpdateFacts.

(** ** What a call does to a game *)

Section Effects.

Variable X : Externals.

Definition gravity_of (d : Difficulty) : float :=
  match d with
  | EASY => of_Z 1
  | NORMAL => literal 162 100
  | HARD => of_Z 2
  end.

(** The engine after [Game::Initialize]: constructed, then given the lander
    and the terrain. *)
Definition engine_registered : Physics.t :=
  Physics.RegisterTerrain true (Physics.RegisterLander true Physics.ctor).

(** The lander after the commands of one [ProcessInput] in flight: a thrust
    command, then the rotations whose keys are held. *)
Definition commanded (loops : nat) (l l' : Lander) : Prop :=
  exists amount l2,
    (amount = one \/ amount = zero) /\
    (l2 = Lander.ApplyThrust amount l \/
     Lander.RotateLeft loops (of_Z 2) (Lander.ApplyThrust amount l) = Some l2) /\
    (l' = l2 \/ Lander.RotateRight loops (of_Z 2) l2 = Some l').

(** The members that the methods of the game read to decide what to do. *)
Definition kept (g h : Game.t) : Prop :=
  h.(Game.mGameState) = g.(Game.mGameState) /\
  h.(Game.mScore) = g.(Game.mScore) /\
  h.(Game.mElapsedTime) = g.(Game.mElapsedTime) /\
  h.(Game.mDifficulty) = g.(Game.mDifficulty).

Definition kept_all (g h : Game.t) : Prop :=
  kept g h /\
  h.(Game.mLander) = g.(Game.mLander) /\
  h.(Game.mPhysics) = g.(Game.mPhysics).

Definition restarted (g h : Game.t) : Prop :=
  h.(Game.mGameState) = FLYING /\
  h.(Game.mScore) = zero /\
  h.(Game.mElapsedTime) = zero.

(** The effects of the calls, on the state, the score, the clock, the
    difficulty, the lander and the engine. *)
Inductive effect (g h : Game.t) : Prop :=
| effect_kept :
    kept_all g h -> effect g h
| effect_shutdown :
    kept g h -> h.(Game.mLander) = None -> h.(Game.mPhysics) = None ->
    effect g h
| effect_created :
    kept g h -> h.(Game.mLander) = Some Lander.ctor ->
    h.(Game.mPhysics) = Some Physics.ctor ->
    effect g h
| effect_initialized (k : Game.t) :
    restarted g h -> h.(Game.mDifficulty) = g.(Game.mDifficulty) ->
    h.(Game.mLander) = Some (Game.reset_lander X k Lander.ctor) ->
    h.(Game.mPhysics) = Some engine_registered ->
    effect g h
| effect_reset (l : Lander) :
    restarted g h -> h.(Game.mDifficulty) = g.(Game.mDifficulty) ->
    g.(Game.mLander) = Some l ->
    h.(Game.mLander) = Some (Game.reset_lander X g l) ->
    h.(Game.mPhysics) = g.(Game.mPhysics) ->
    effect g h
| effect_difficulty (d : Difficulty) (p : Physics.t) (l : Lander) (k : Game.t) :
    restarted g h -> h.(Game.mDifficulty) = d ->
    g.(Game.mLander) = Some l -> g.(Game.mPhysics) = Some p ->
    h.(Game.mLander) = Some (Game.reset_lander X k (Lander.ApplyThrust zero l)) ->
    h.(Game.mPhysics) = Some (Physics.SetGravity (gravity_of d) p) ->
    effect g h
| effect_started :
    g.(Game.mGameState) = READY -> h.(Game.mGameState) = FLYING ->
    h.(Game.mScore) = g.(Game.mScore) ->
    h.(Game.mElapsedTime) = g.(Game.mElapsedTime) ->
    h.(Game.mDifficulty) = g.(Game.mDifficulty) ->
    h.(Game.mLander) = g.(Game.mLander) ->
    h.(Game.mPhysics) = g.(Game.mPhysics) ->
    effect g h
| effect_commanded (loops : nat) (l l' : Lander) :
    g.(Game.mGameState) = FLYING -> kept g h ->
    g.(Game.mLander) = Some l -> h.(Game.mLander) = Some l' ->
    commanded loops l l' ->
    h.(Game.mPhysics) = g.(Game.mPhysics) ->
    effect g h
| effect_flown (deltaTime : float) (l : Lander) :
    g.(Game.mGameState) = FLYING ->
    g.(Game.mLander) = Some l ->
    h.(Game.mLander) = Some (inspected X g l deltaTime) ->
    h.(Game.mPhysics) = g.(Game.mPhysics) ->
    h.(Game.mDifficulty) = g.(Game.mDifficulty) ->
    h.(Game.mElapsedTime) = (g.(Game.mElapsedTime) + deltaTime)%f32 ->
    (let l' := inspected X g l deltaTime in
     if l'.(mLanded) then
       h.(Game.mGameState) = LANDED /\
       h.(Game.mScore) = (l'.(mFuel) / l'.(mMaxFuel) * of_Z 1000)%f32
     else if l'.(mCrashed) then
       h.(Game.mGameState) = CRASHED /\ h.(Game.mScore) = zero
     else
       h.(Game.mGameState) = FLYING /\ h.(Game.mScore) = g.(Game.mScore)) ->
    effect g h.

Lemma kept_refl (g : Game.t) : kept g g.
Proof. unfold kept. auto. Qed.

Lemma kept_all_refl (g : Game.t) : kept_all g g.
Proof. unfold kept_all, kept. auto 7. Qed.

(** An effect is a statement about six members: a game that agrees with
    [h] on them has the effect too. *)
Lemma effect_same (g h h' : Game.t) :
  h'.(Game.mGameState) = h.(Game.mGameState) ->
  h'.(Game.mScore) = h.(Game.mScore) ->
  h'.(Game.mElapsedTime) = h.(Game.mElapsedTime) ->
  h'.(Game.mDifficulty) = h.(Game.mDifficulty) ->
  h'.(Game.mLander) = h.(Game.mLander) ->
  h'.(Game.mPhysics) = h.(Game.mPhysics) ->
  effect g h -> effect g h'.
Proof.
  intros E1 E2 E3 E4 E5 E6 H.
  destruct H;
    [ apply effect_kept
    | apply effect_shutdown
    | apply effect_created
    | apply (effect_initialized g h' k)
    | apply (effect_reset g h' l)
    | apply (effect_difficulty g h' d p l k)
    | apply effect_started
    | apply (effect_commanded g h' loops l l')
    | apply (effect_flown g h' deltaTime l) ];
    unfold kept_all, kept, restarted in *;
    rewrite ?E1, ?E2, ?E3, ?E4, ?E5, ?E6; assumption.
Qed.

Lemma Reset_fields (g g' : Game.t) :
  Game.Reset X g = Some g' ->
  exists l,
    g.(Game.mLander) = Some l /\
    restarted g g' /\
    g'.(Game.mDifficulty) = g.(Game.mDifficulty) /\
    g'.(Game.mLander) = Some (Game.reset_lander X g l) /\
    g'.(Game.mPhysics) = g.(Game.mPhysics) /\
    g'.(Game.m3DMode) = g.(Game.m3DMode) /\
    g'.(Game.mIsRunning) = g.(Game.mIsRunning) /\
    g'.(Game.mInputHandler) = g.(Game.mInputHandler) /\
    g'.(Game.mRenderer) = g.(Game.mRenderer).
Proof.
  intros H.
  destruct (Game.mLander g) as [l|] eqn:Hl.
  - exists l. split; [reflexivity|].
    assert (E : Game.Reset X g
                = Some (Game.with_mTerrain
                          (option_map
                             (Game.regenerate X
                                (Game.with_mLander (Some (Game.reset_lander X g l))
                                   (Game.with_mFuelUsed zero
                                      (Game.with_mElapsedTime zero
                                         (Game.with_mScore zero
                                            (Game.with_mGameState FLYING g))))))
                             (Game.mTerrain g))
                          (Game.with_mLander (Some (Game.reset_lander X g l))
                             (Game.with_mFuelUsed zero
                                (Game.with_mElapsedTime zero
                                   (Game.with_mScore zero
                                      (Game.with_mGameState FLYING g))))))).
    { unfold Game.Reset. simpl. rewrite Hl. reflexivity. }
    rewrite E in H. apply Some_inj in H. subst g'.
    unfold restarted. repeat split.
  - apply (proj2 (Reset_None_iff X g)) in Hl. congruence.
Qed.

Lemma effect_Reset (g g' : Game.t) : Game.Reset X g = Some g' -> effect g g'.
Proof.
  intros H. destruct (Reset_fields g g' H) as [l [Hl [Hr [Hd [El [Ep _]]]]]].
  apply (effect_reset g g' l); assumption.
Qed.

Lemma create_components_fields (g : Game.t) :
  let h := Game.create_components X g in
  kept g h /\
  h.(Game.mLander) = Some Lander.ctor /\
  h.(Game.mPhysics) = Some Physics.ctor /\
  h.(Game.mIsRunning) = g.(Game.mIsRunning) /\
  h.(Game.mInputHandler) = true /\
  h.(Game.mRenderer) = true /\
  h.(Game.m3DMode) = g.(Game.m3DMode) && X.(USE_OPENGL) /\
  h.(Game.mWindowWidth) = 800%Z /\
  h.(Game.mWindowHeight) = 600%Z.
Proof.
  unfold Game.create_components, kept.
  cbn [Game.m3DMode Game.with_mInputHandler Game.with_mPhysics Game.with_mTerrain
       Game.with_mLander Game.with_window].
  destruct (Game.m3DMode g) eqn:H3, (USE_OPENGL X); cbn; rewrite ?H3; repeat split.
Qed.

Lemma register_entities_fields (g : Game.t) :
  let h := Game.register_entities X g in
  kept g h /\
  h.(Game.mLander) = g.(Game.mLander) /\
  h.(Game.mPhysics)
  = option_map (fun p => Physics.RegisterTerrain true (Physics.RegisterLander true p))
               g.(Game.mPhysics) /\
  h.(Game.mIsRunning) = g.(Game.mIsRunning) /\
  h.(Game.mInputHandler) = g.(Game.mInputHandler) /\
  h.(Game.mRenderer) = g.(Game.mRenderer) /\
  h.(Game.m3DMode) = g.(Game.m3DMode) /\
  h.(Game.mWindowWidth) = g.(Game.mWindowWidth) /\
  h.(Game.mWindowHeight) = g.(Game.mWindowHeight).
Proof. unfold Game.register_entities, kept. cbn. repeat split. Qed.

(** [Game::Initialize] in full: the flag it returns is the answer of the
    renderer. *)
Lemma Initialize_fields (rendererOk : bool) (ticks : Z) (g : Game.t) :
  exists h,
    Game.Initialize X rendererOk ticks g = Some (rendererOk, h) /\
    h.(Game.mInputHandler) = true /\
    h.(Game.mRenderer) = true /\
    h.(Game.m3DMode) = g.(Game.m3DMode) && X.(USE_OPENGL) /\
    h.(Game.mWindowWidth) = 800%Z /\
    h.(Game.mWindowHeight) = 600%Z /\
    h.(Game.mDifficulty) = g.(Game.mDifficulty) /\
    if rendererOk then
      restarted g h /\
      h.(Game.mIsRunning) = true /\
      h.(Game.mLastFrameTime) = ticks /\
      h.(Game.mLander)
      = Some (Game.reset_lander X
                (Game.register_entities X (Game.create_components X g)) Lander.ctor) /\
      h.(Game.mPhysics) = Some engine_registered
    else
      kept g h /\
      h.(Game.mIsRunning) = g.(Game.mIsRunning) /\
      h.(Game.mLander) = Some Lander.ctor /\
      h.(Game.mPhysics) = Some Physics.ctor.
Proof.
  destruct (create_components_fields g)
    as [Hk [Hl [Hp [Hr [Hi [Hn [H3 [Hw Hh]]]]]]]].
  destruct (register_entities_fields (Game.create_components X g))
    as [Rk [Rl [Rp [Rr [Ri [Rn [R3 [Rw Rh]]]]]]]].
  unfold Game.Initialize. destruct rendererOk; cbn [negb].
  - destruct (Game.Reset X (Game.register_entities X (Game.create_components X g)))
      as [k|] eqn:E.
    + destruct (Reset_fields _ _ E) as [l [El [Er [Ed [Ek [Ep [E3 [Eu [Ei En]]]]]]]]].
      rewrite Rl, Hl in El. apply Some_inj in El. subst l.
      eexists. split; [reflexivity|].
      cbn [Game.mInputHandler Game.mRenderer Game.m3DMode Game.mWindowWidth
           Game.mWindowHeight Game.mDifficulty Game.mIsRunning Game.mLastFrameTime
           Game.mLander Game.mPhysics Game.with_mLastFrameTime Game.with_mIsRunning].
      rewrite Ei, En, E3, Ed, Ek, Ep, Ri, Rn, R3, Rp, Hi, Hn, H3, Hp.
      destruct Rk as [_ [_ [_ Rd]]]. destruct Hk as [_ [_ [_ Hd]]].
      rewrite Rd, Hd.
      destruct (Reset_result X _ _ (eq_trans Rl Hl))
        as [k' [E' [_ [_ [_ [_ [_ [_ [Ew [Eh _]]]]]]]]]].
      rewrite E in E'. apply Some_inj in E'. subst k'.
      rewrite Ew, Eh, Rw, Rh, Hw, Hh.
      unfold restarted in *.
      cbn [Game.mGameState Game.mScore Game.mElapsedTime Game.with_mLastFrameTime
           Game.with_mIsRunning].
      repeat split; try reflexivity; apply Er.
    + apply Reset_None_iff in E. rewrite Rl, Hl in E. discriminate E.
  - eexists. split; [reflexivity|].
    destruct Hk as [Hs [Hsc [He Hd]]]. unfold kept. auto 15.
Qed.

Lemma effect_Initialize (rendererOk : bool) (ticks : Z) (g : Game.t)
    (r : bool * Game.t) :
  Game.Initialize X rendererOk ticks g = Some r -> effect g (snd r).
Proof.
  intros H.
  destruct (Initialize_fields rendererOk ticks g) as [h [E [_ [_ [_ [_ [_ [Hd F]]]]]]]].
  rewrite E in H. apply Some_inj in H. subst r. cbn [snd].
  destruct rendererOk.
  - destruct F as [Hr [_ [_ [Hl Hp]]]].
    apply (effect_initialized g h _ Hr Hd Hl Hp).
  - destruct F as [Hk [_ [Hl Hp]]]. apply (effect_created g h Hk Hl Hp).
Qed.

Lemma Shutdown_fields (g : Game.t) :
  let h := Game.Shutdown g in
  kept g h /\
  h.(Game.mLander) = None /\ h.(Game.mPhysics) = None /\
  h.(Game.mTerrain) = None /\
  h.(Game.mIsRunning) = false /\
  h.(Game.mInputHandler) = false /\ h.(Game.mRenderer) = false /\
  h.(Game.m3DMode) = g.(Game.m3DMode).
Proof. unfold Game.Shutdown, kept. cbn. repeat split. Qed.

(** [Game::SetDifficulty] in full. *)
Lemma SetDifficulty_fields (d : Difficulty) (g g' : Game.t) :
  Game.SetDifficulty X d g = Some g' ->
  exists p l,
    g.(Game.mPhysics) = Some p /\ g.(Game.mLander) = Some l /\
    restarted g g' /\
    g'.(Game.mDifficulty) = d /\
    g'.(Game.mPhysics) = Some (Physics.SetGravity (gravity_of d) p) /\
    g'.(Game.mLander)
    = Some (Game.reset_lander X g (Lander.ApplyThrust zero l)) /\
    g'.(Game.m3DMode) = g.(Game.m3DMode) /\
    g'.(Game.mIsRunning) = g.(Game.mIsRunning).
Proof.
  unfold Game.SetDifficulty. intros H.
  apply bind_Some in H. destruct H as [p [Ep H]].
  apply bind_Some in H. destruct H as [l [El H]].
  cbn [Game.mLander Game.with_mPhysics Game.with_mDifficulty] in El.
  cbn [Game.mPhysics Game.with_mDifficulty] in Ep.
  exists p, l. split; [exact Ep|]. split; [exact El|].
  destruct (Reset_fields _ _ H) as [l' [El' [Hr [Hd [Hl [Hp [H3 [Hu _]]]]]]]].
  cbn [Game.mLander Game.with_mLander] in El'. apply Some_inj in El'. subst l'.
  cbn [Game.mDifficulty Game.mPhysics Game.m3DMode Game.mIsRunning
       Game.with_mLander Game.with_mPhysics Game.with_mDifficulty] in Hd, Hp, H3, Hu.
  split; [exact Hr|]. split; [exact Hd|]. split; [exact Hp|].
  split; [|split; assumption].
  rewrite Hl. reflexivity.
Qed.

Lemma effect_SetDifficulty (d : Difficulty) (g g' : Game.t) :
  Game.SetDifficulty X d g = Some g' -> effect g g'.
Proof.
  intros H.
  destruct (SetDifficulty_fields d g g' H) as [p [l [Ep [El [Hr [Hd [Hp [Hl _]]]]]]]].
  apply (effect_difficulty g g' d p l g); assumption.
Qed.

(** [Game::SetRenderingMode] in full: nothing for the mode the game is
    in, a flag for a game that is not running, and otherwise a shutdown
    and a new [Initialize]. *)
Lemma SetRenderingMode_cases (use3D rendererOk : bool) (ticks : Z) (g g' : Game.t) :
  Game.SetRenderingMode X use3D rendererOk ticks g = Some g' ->
  (g.(Game.m3DMode) = use3D /\ g' = g) \/
  (g.(Game.m3DMode) = negb use3D /\ g.(Game.mIsRunning) = false /\
   g' = Game.with_m3DMode use3D g) \/
  (g.(Game.m3DMode) = negb use3D /\ g.(Game.mIsRunning) = true /\
   Game.Initialize X rendererOk ticks (Game.Shutdown (Game.with_m3DMode use3D g))
   = Some (rendererOk, g')).
Proof.
  unfold Game.SetRenderingMode. intros H.
  destruct (Bool.eqb (Game.m3DMode g) use3D) eqn:Eb; cbn [negb] in H.
  - left. apply Bool.eqb_prop in Eb. apply Some_inj in H. auto.
  - right.
    assert (E3 : Game.m3DMode g = negb use3D).
    { destruct (Game.m3DMode g), use3D; try reflexivity; discriminate Eb. }
    cbn [Game.mIsRunning Game.with_m3DMode] in H.
    destruct (Game.mIsRunning g) eqn:Er.
    + right. apply bind_Some in H. destruct H as [r [E H]].
      apply Some_inj in H. subst g'.
      destruct (Initialize_fields rendererOk ticks
                  (Game.Shutdown (Game.with_m3DMode use3D g))) as [h [E' _]].
      rewrite E in E'. apply Some_inj in E'. subst r. cbn [snd]. auto.
    + left. apply Some_inj in H. auto.
Qed.

Lemma effect_SetRenderingMode (use3D rendererOk : bool) (ticks : Z) (g g' : Game.t) :
  Game.SetRenderingMode X use3D rendererOk ticks g = Some g' -> effect g g'.
Proof.
  intros H.
  destruct (SetRenderingMode_cases _ _ _ _ _ H) as [[_ ->]|[[_ [_ ->]]|[_ [_ E]]]].
  - apply effect_kept, kept_all_refl.
  - apply (effect_same g g); try reflexivity. apply effect_kept, kept_all_refl.
  - destruct (Initialize_fields rendererOk ticks
                (Game.Shutdown (Game.with_m3DMode use3D g)))
      as [h [E' [_ [_ [_ [_ [_ [Hd F]]]]]]]].
    rewrite E in E'. apply Some_inj in E'. injection E' as <-.
    destruct rendererOk.
    + destruct F as [Hr [_ [_ [Hl Hp]]]].
      apply (effect_initialized g g' _ Hr Hd Hl Hp).
    + destruct F as [Hk [_ [Hl Hp]]]. apply (effect_created g g' Hk Hl Hp).
Qed.

(** The commands of [Game::ProcessInput] in flight. *)
Lemma thrust_input_fields (input : Input) (g h : Game.t) :
  Game.thrust_input input g = Some h ->
  exists l,
    g.(Game.mLander) = Some l /\
    h = Game.with_mLander
          (Some (Lander.ApplyThrust
                   (if input.(IsThrustActive) then one else zero) l)) g.
Proof.
  unfold Game.thrust_input. intros H.
  destruct (IsThrustActive input);
    apply bind_Some in H; destruct H as [l [El H]]; apply Some_inj in H;
    exists l; rewrite ?track_fuel_same in H; auto.
Qed.

Lemma rotate_left_input_fields (loops : nat) (input : Input) (g h : Game.t) :
  Game.rotate_left_input loops input g = Some h ->
  (input.(IsRotateLeftActive) = false /\ h = g) \/
  exists l l',
    input.(IsRotateLeftActive) = true /\
    g.(Game.mLander) = Some l /\
    Lander.RotateLeft loops (of_Z 2) l = Some l' /\
    h = Game.with_mLander (Some l') g.
Proof.
  unfold Game.rotate_left_input. intros H.
  destruct (IsRotateLeftActive input).
  - right. apply bind_Some in H; destruct H as [l [El H]].
    apply bind_Some in H; destruct H as [l' [Er H]].
    apply Some_inj in H. exists l, l'. auto.
  - left. apply Some_inj in H. auto.
Qed.

Lemma rotate_right_input_fields (loops : nat) (input : Input) (g h : Game.t) :
  Game.rotate_right_input loops input g = Some h ->
  (input.(IsRotateRightActive) = false /\ h = g) \/
  exists l l',
    input.(IsRotateRightActive) = true /\
    g.(Game.mLander) = Some l /\
    Lander.RotateRight loops (of_Z 2) l = Some l' /\
    h = Game.with_mLander (Some l') g.
Proof.
  unfold Game.rotate_right_input. intros H.
  destruct (IsRotateRightActive input).
  - right. apply bind_Some in H; destruct H as [l [El H]].
    apply bind_Some in H; destruct H as [l' [Er H]].
    apply Some_inj in H. exists l, l'. auto.
  - left. apply Some_inj in H. auto.
Qed.

Lemma flying_commands (loops : nat) (input : Input) (g g1 g2 h : Game.t) :
  Game.thrust_input input g = Some g1 ->
  Game.rotate_left_input loops input g1 = Some g2 ->
  Game.rotate_right_input loops input g2 = Some h ->
  exists l l',
    g.(Game.mLander) = Some l /\ commanded loops l l' /\
    h = Game.with_mLander (Some l') g.
Proof.
  intros E1 E2 E3.
  destruct (thrust_input_fields _ _ _ E1) as [l [Hl ->]].
  exists l.
  destruct (rotate_left_input_fields _ _ _ _ E2) as [[_ ->]|[l1 [l2 [_ [H1 [R1 ->]]]]]];
    destruct (rotate_right_input_fields _ _ _ _ E3) as [[_ ->]|[l3 [l4 [_ [H3 [R3 ->]]]]]];
    cbn [Game.mLander Game.with_mLander] in *;
    try (apply Some_inj in H1; subst l1); try (apply Some_inj in H3; subst l3).
  - eexists. split; [exact Hl|]. split; [|reflexivity].
    eexists _, _. split; [|split; [left; reflexivity | left; reflexivity]].
    destruct (IsThrustActive input); auto.
  - exists l4. split; [exact Hl|]. split; [|destruct g; reflexivity].
    eexists _, _. split; [|split; [left; reflexivity | right; exact R3]].
    destruct (IsThrustActive input); auto.
  - exists l2. split; [exact Hl|]. split; [|destruct g; reflexivity].
    eexists _, _. split; [|split; [right; exact R1 | left; reflexivity]].
    destruct (IsThrustActive input); auto.
  - exists l4. split; [exact Hl|]. split; [|destruct g; reflexivity].
    eexists _, _. split; [|split; [right; exact R1 | right; exact R3]].
    destruct (IsThrustActive input); auto.
Qed.

(** [Game::ProcessInput], state by state. *)
Lemma ProcessInput_by_state (loops : nat) (input : Input) (g g' : Game.t) :
  Game.ProcessInput X loops input g = Some g' ->
  (g.(Game.mInputHandler) = false /\ g' = g) \/
  exists h,
    g.(Game.mInputHandler) = true /\
    g' = (if input.(IsQuitActive) then Game.with_mIsRunning false h else h) /\
    match g.(Game.mGameState) with
    | READY => h = if input.(IsStartActive) then Game.with_mGameState FLYING g else g
    | FLYING =>
      exists l l', g.(Game.mLander) = Some l /\ commanded loops l l' /\
                   h = Game.with_mLander (Some l') g
    | LANDED | CRASHED =>
      if input.(IsResetActive) then Game.Reset X g = Some h else h = g
    end.
Proof.
  unfold Game.ProcessInput. intros H.
  destruct (Game.mInputHandler g); [|left; split; [reflexivity|]; symmetry; exact (Some_inj _ _ H)].
  right. apply bind_Some in H. destruct H as [h [E H]].
  exists h. split; [reflexivity|]. split; [symmetry; exact (Some_inj _ _ H)|].
  destruct (Game.mGameState g).
  - symmetry. exact (Some_inj _ _ E).
  - apply bind_Some in E. destruct E as [g1 [E1 E]].
    apply bind_Some in E. destruct E as [g2 [E2 E]].
    apply (flying_commands loops input g g1 g2 h E1 E2 E).
  - destruct (IsResetActive input); [exact E | symmetry; exact (Some_inj _ _ E)].
  - destruct (IsResetActive input); [exact E | symmetry; exact (Some_inj _ _ E)].
Qed.

Lemma effect_ProcessInput (loops : nat) (input : Input) (g g' : Game.t) :
  Game.ProcessInput X loops input g = Some g' -> effect g g'.
Proof.
  intros H.
  destruct (ProcessInput_by_state _ _ _ _ H) as [[_ ->]|[h [_ [-> Hh]]]].
  - apply effect_kept, kept_all_refl.
  - assert (effect g h) as Hs.
    { destruct (Game.mGameState g) eqn:Hst.
      - subst h. destruct (IsStartActive input).
        + apply effect_started; auto.
        + apply effect_kept, kept_all_refl.
      - destruct Hh as [l [l' [Hl [Hc ->]]]].
        apply (effect_commanded g _ loops l l' Hst);
          [unfold kept; auto | exact Hl | reflexivity | exact Hc | reflexivity].
      - destruct (IsResetActive input); [apply (effect_Reset _ _ Hh)|].
        subst h. apply effect_kept, kept_all_refl.
      - destruct (IsResetActive input); [apply (effect_Reset _ _ Hh)|].
        subst h. apply effect_kept, kept_all_refl. }
    destruct (IsQuitActive input); [|exact Hs].
    apply (effect_same g h); try reflexivity. exact Hs.
Qed.

Lemma update_flying_mDifficulty (deltaTime : float) (g : Game.t) :
  (Game.update_flying X deltaTime g).(Game.mDifficulty) = g.(Game.mDifficulty) /\
  (Game.update_flying X deltaTime g).(Game.m3DMode) = g.(Game.m3DMode) /\
  (Game.update_flying X deltaTime g).(Game.mIsRunning) = g.(Game.mIsRunning).
Proof.
  unfold Game.update_flying.
  destruct (Game.mGameState g); auto.
  destruct (Game.mPhysics g) as [p|].
  - destruct (Physics.Update X p (Game.mLander g) (Game.mTerrain g) deltaTime) as [l|];
      cbn [Game.mLander Game.with_mLander]; [|auto].
    destruct (mLanded (Lander.Update deltaTime l)); [auto|].
    destruct (mCrashed (Lander.Update deltaTime l)); auto.
  - destruct (Game.mLander g) as [l|]; [|auto].
    destruct (mLanded (Lander.Update deltaTime l)); [auto|].
    destruct (mCrashed (Lander.Update deltaTime l)); auto.
Qed.

Lemma effect_Update (deltaTime : float) (g g' : Game.t) :
  Game.Update X deltaTime g = Some g' -> effect g g'.
Proof.
  intros H.
  destruct (Update_returns X deltaTime g g' H)
    as [E1 [E2 [E3 [E4 [E5 [E6 [_ [_ [_ N]]]]]]]]].
  destruct (update_flying_mDifficulty deltaTime g) as [D _].
  destruct (Game.mGameState g) eqn:Hs;
    try (assert (U : Game.update_flying X deltaTime g = g)
           by (apply update_flying_not_flying; rewrite Hs; discriminate);
         rewrite U in E1, E2, E3, E4, E5, E6;
         apply effect_kept; unfold kept_all, kept; auto 10).
  destruct (Game.mLander g) as [l|] eqn:Hl.
  - destruct (update_flying_lander X g l deltaTime Hs Hl)
      as [Fl [Fe [_ [Fp [_ [FL [FC FN]]]]]]].
    apply (effect_flown g g' deltaTime l Hs Hl); try congruence.
    cbv zeta. rewrite E1, E2.
    destruct (mLanded (inspected X g l deltaTime)); [apply FL; reflexivity|].
    destruct (mCrashed (inspected X g l deltaTime)); [apply FC; reflexivity|].
    apply FN; reflexivity.
  - assert (N' : Game.Update X deltaTime g = None).
    { apply Update_None_iff. auto. }
    congruence.
Qed.

Lemma effect_OnKeyDown (keyCode : KeyCode) (rendererOk : bool) (ticks : Z)
    (g g' : Game.t) :
  Game.OnKeyDown X keyCode rendererOk ticks g = Some g' -> effect g g'.
Proof.
  destruct keyCode; cbn [Game.OnKeyDown]; intros H.
  - apply (effect_Reset _ _ H).
  - apply Some_inj in H. subst g'.
    apply (effect_same g g); try reflexivity. apply effect_kept, kept_all_refl.
  - apply (effect_SetDifficulty _ _ _ H).
  - apply (effect_SetDifficulty _ _ _ H).
  - apply (effect_SetDifficulty _ _ _ H).
  - apply (effect_SetRenderingMode _ _ _ _ _ H).
  - apply Some_inj in H. subst g'. apply effect_kept, kept_all_refl.
Qed.

(** Every call has one of the effects. *)
Lemma exec_effect (c : Game.call) (g g' : Game.t) :
  Game.exec X c g = Some g' -> effect g g'.
Proof.
  destruct c; cbn [Game.exec]; intros H.
  - apply bind_Some in H. destruct H as [r [E H]].
    apply Some_inj in H. subst g'. apply (effect_Initialize _ _ _ _ E).
  - apply Some_inj in H. subst g'.
    destruct (Shutdown_fields g) as [Hk [Hl [Hp _]]].
    apply (effect_shutdown g _ Hk Hl Hp).
  - apply (effect_Reset _ _ H).
  - apply (effect_SetDifficulty _ _ _ H).
  - apply (effect_SetRenderingMode _ _ _ _ _ H).
  - apply (effect_ProcessInput _ _ _ _ H).
  - apply (effect_Update _ _ _ H).
  - apply (effect_OnKeyDown _ _ _ _ _ H).
Qed.

(** *** The state machine *)

(** The transitions of the game state that the code allows. *)
Definition transition (s s' : GameState) : bool :=
  match s, s' with
  | READY, (READY | FLYING) => true
  | FLYING, (FLYING | LANDED | CRASHED) => true
  | LANDED, (LANDED | FLYING) => true
  | CRASHED, (CRASHED | FLYING) => true
  | _, _ => false
  end.

Lemma transition_refl (s : GameState) : transition s s = true.
Proof. destruct s; reflexivity. Qed.

Lemma transition_FLYING (s : GameState) : transition s FLYING = true.
Proof. destruct s; reflexivity. Qed.

Lemma effect_transition (g h : Game.t) :
  effect g h -> transition g.(Game.mGameState) h.(Game.mGameState) = true.
Proof.
  intros H.
  destruct H as [[[E _] _]|[E _]|[E _]|k [E _]|l [E _]|d p l k [E _]|E E'|
                 loops l l' E [E' _]|deltaTime l E _ _ _ _ _ F];
    rewrite ?E', ?E; try apply transition_refl; try apply transition_FLYING.
  - cbv zeta in F.
    destruct (mLanded (inspected X g l deltaTime));
      [|destruct (mCrashed (inspected X g l deltaTime))];
      destruct F as [-> _]; reflexivity.
Qed.

(** X4.  The game state moves only along READY -> FLYING, FLYING -> LANDED,
    FLYING -> CRASHED, LANDED -> FLYING and CRASHED -> FLYING, whatever
    method is called: READY is never entered again, and a landed game never
    turns into a crashed one or back without a new flight. *)
Theorem state_machine (c : Game.call) (g g' : Game.t) :
  Game.exec X c g = Some g' ->
  transition g.(Game.mGameState) g'.(Game.mGameState) = true.
Proof. intros H. apply effect_transition, (exec_effect c g g' H). Qed.

(** *** The outcome of a flight is recorded *)

(** The flags of the lander and the state and score of the game agree. *)
Definition outcome_recorded (g : Game.t) : Prop :=
  forall l, g.(Game.mLander) = Some l ->
    match l.(mLanded), l.(mCrashed) with
    | true, _ =>
      g.(Game.mGameState) = LANDED /\
      g.(Game.mScore) = (l.(mFuel) / l.(mMaxFuel) * of_Z 1000)%f32
    | false, true =>
      g.(Game.mGameState) = CRASHED /\ g.(Game.mScore) = zero
    | false, false => True
    end.

Lemma outcome_recorded_flags (g : Game.t) :
  (forall l, g.(Game.mLander) = Some l -> l.(mLanded) = false /\ l.(mCrashed) = false) ->
  outcome_recorded g.
Proof.
  intros H l Hl. destruct (H l Hl) as [-> ->]. exact I.
Qed.

Lemma outcome_recorded_flying (g : Game.t) (l : Lander) :
  outcome_recorded g -> g.(Game.mLander) = Some l ->
  g.(Game.mGameState) = READY \/ g.(Game.mGameState) = FLYING ->
  l.(mLanded) = false /\ l.(mCrashed) = false.
Proof.
  intros H Hl Hs. specialize (H l Hl).
  destruct (mLanded l), (mCrashed l); auto;
    destruct H as [H _]; destruct Hs; congruence.
Qed.

Lemma commanded_flags (loops : nat) (l l' : Lander) :
  commanded loops l l' ->
  l'.(mLanded) = l.(mLanded) /\ l'.(mCrashed) = l.(mCrashed).
Proof.
  intros [amount [l2 [_ [H2 H']]]].
  assert (A : mLanded (Lander.ApplyThrust amount l) = mLanded l /\
              mCrashed (Lander.ApplyThrust amount l) = mCrashed l).
  { unfold Lander.ApplyThrust. destruct (mFuel l <=? zero)%f32; auto. }
  assert (B : mLanded l2 = mLanded l /\ mCrashed l2 = mCrashed l).
  { destruct H2 as [->|H2]; [exact A|].
    unfold Lander.RotateLeft in H2.
    match type of H2 with
    | match ?a with _ => _ end = _ => destruct a; [|discriminate]
    end.
    apply Some_inj in H2. subst l2. exact A. }
  destruct H' as [->|H']; [exact B|].
  unfold Lander.RotateRight in H'.
  match type of H' with
  | match ?a with _ => _ end = _ => destruct a; [|discriminate]
  end.
  apply Some_inj in H'. subst l'. exact B.
Qed.

Lemma reset_lander_flags (k : Game.t) (l : Lander) :
  (Game.reset_lander X k l).(mLanded) = false /\
  (Game.reset_lander X k l).(mCrashed) = false.
Proof.
  destruct (reset_lander_values X k l) as [_ [_ [_ [_ [_ [_ [_ [_ [HL [HC _]]]]]]]]]].
  auto.
Qed.

Lemma effect_outcome_recorded (g h : Game.t) :
  effect g h -> outcome_recorded g -> outcome_recorded h.
Proof.
  intros H Hg.
  destruct H as [[[E1 [E2 _]] [El _]]|_ El _|_ El _|k _ _ El _|l _ _ _ El _|
                 d p l k _ _ _ _ El _|Es Es' Esc _ _ El _|
                 loops l l' Es [E1 [E2 _]] Hl El Hc _|deltaTime l Es Hl El _ _ _ F].
  - intros l Hl. unfold outcome_recorded in Hg. rewrite E1, E2.
    apply Hg. rewrite <- El. exact Hl.
  - intros l Hl. congruence.
  - apply outcome_recorded_flags. intros l Hl. rewrite El in Hl.
    apply Some_inj in Hl. subst l. auto.
  - apply outcome_recorded_flags. intros l Hl. rewrite El in Hl.
    apply Some_inj in Hl. subst l. apply reset_lander_flags.
  - apply outcome_recorded_flags. intros x Hx. rewrite El in Hx.
    apply Some_inj in Hx. subst x. apply reset_lander_flags.
  - apply outcome_recorded_flags. intros x Hx. rewrite El in Hx.
    apply Some_inj in Hx. subst x. apply reset_lander_flags.
  - apply outcome_recorded_flags. intros x Hx. rewrite El in Hx.
    apply (outcome_recorded_flying g x Hg Hx). auto.
  - apply outcome_recorded_flags. intros x Hx. rewrite El in Hx.
    apply Some_inj in Hx. subst x.
    destruct (commanded_flags loops l l' Hc) as [-> ->].
    apply (outcome_recorded_flying g l Hg Hl). auto.
  - intros x Hx. rewrite El in Hx. apply Some_inj in Hx. subst x.
    cbv zeta in F.
    destruct (mLanded (inspected X g l deltaTime)); [exact F|].
    destruct (mCrashed (inspected X g l deltaTime)); [exact F|exact I].
Qed.

(** X5.  In every reachable state of the game the flags of the lander are
    recorded in the game: a landed lander means the state LANDED and the
    score fuel / max fuel * 1000 of the fuel it still has, a crashed one the
    state CRASHED and the score 0. *)
Theorem lander_flags_recorded (g : Game.t) (l : Lander) :
  Game.reachable X g -> g.(Game.mLander) = Some l ->
  (l.(mLanded) = true ->
   g.(Game.mGameState) = LANDED /\
   g.(Game.mScore) = (l.(mFuel) / l.(mMaxFuel) * of_Z 1000)%f32) /\
  (l.(mLanded) = false -> l.(mCrashed) = true ->
   g.(Game.mGameState) = CRASHED /\ g.(Game.mScore) = zero).
Proof.
  intros Hr Hl.
  assert (outcome_recorded g) as H.
  { clear l Hl. induction Hr as [|c g g' _ IH E].
    - intros l Hl. discriminate Hl.
    - apply (effect_outcome_recorded g g' (exec_effect c g g' E) IH). }
  specialize (H l Hl).
  destruct (mLanded l), (mCrashed l); split; intros; try discriminate; auto.
Qed.

(** *** The score and the clock *)

Definition score_sound (g : Game.t) : Prop :=
  (g.(Game.mGameState) <> LANDED -> g.(Game.mScore) = zero) /\
  (g.(Game.mGameState) = READY -> g.(Game.mElapsedTime) = zero).

Lemma effect_score_sound (g h : Game.t) :
  effect g h -> score_sound g -> score_sound h.
Proof.
  intros H [Hsc Hel]. unfold score_sound.
  destruct H as [[[E1 [E2 [E3 _]]] _]|[E1 [E2 [E3 _]]] _ _|[E1 [E2 [E3 _]]] _ _|
                 k [E1 [E2 E3]] _ _ _|l [E1 [E2 E3]] _ _ _ _|
                 d p l k [E1 [E2 E3]] _ _ _ _ _|Es Es' Esc Eel _ _ _|
                 loops l l' Es [E1 [E2 [E3 _]]] _ _ _ _|deltaTime l Es _ _ _ _ _ F];
    try (rewrite E1, E2, E3; auto; fail);
    try (rewrite E1, E2; split; [auto | discriminate]; fail).
  - rewrite Es', Esc. split; [intros _; apply Hsc; congruence | discriminate].
  - cbv zeta in F.
    destruct (mLanded (inspected X g l deltaTime));
      [|destruct (mCrashed (inspected X g l deltaTime))];
      destruct F as [-> ->]; (split; [|discriminate]); try congruence.
    intros _. apply Hsc. congruence.
Qed.

(** X6.  In every reachable state the score is 0 unless the state is
    LANDED, and the elapsed time is 0 while the state is READY: a score is
    only ever given for a landing, and the clock only runs in flight. *)
Theorem score_only_when_landed (g : Game.t) :
  Game.reachable X g ->
  (g.(Game.mGameState) <> LANDED -> g.(Game.mScore) = zero) /\
  (g.(Game.mGameState) = READY -> g.(Game.mElapsedTime) = zero).
Proof.
  induction 1 as [|c g g' _ IH E].
  - split; reflexivity.
  - apply (effect_score_sound g g' (exec_effect c g g' E) IH).
Qed.

(** *** The engine of the game *)

(** The engines that a game can have: constructed and maybe registered,
    with the gravity of one of the difficulties. *)
Definition engine_of_game (p : Physics.t) : Prop :=
  exists d registered,
    p = Physics.mk (gravity_of d) zero false registered registered one.

Lemma effect_engine (g h : Game.t) :
  effect g h ->
  (forall p, g.(Game.mPhysics) = Some p -> engine_of_game p) ->
  forall p, h.(Game.mPhysics) = Some p -> engine_of_game p.
Proof.
  intros H Hg q Hq.
  destruct H as [[_ [_ Ep]]|_ _ Ep|_ _ Ep|k _ _ _ Ep|l _ _ _ _ Ep|
                 d p l k _ _ _ Eg _ Ep|_ _ _ _ _ _ Ep|
                 loops l l' _ _ _ _ _ Ep|deltaTime l _ _ _ Ep _ _ _];
    try (apply Hg; congruence); rewrite Ep in Hq; try discriminate Hq;
    apply Some_inj in Hq; subst q.
  - exists NORMAL, false. reflexivity.
  - exists NORMAL, true. reflexivity.
  - destruct (Hg p Eg) as [d' [r ->]]. exists d, r. reflexivity.
Qed.

(** X7.  The engine of every reachable game is the constructed one up to
    gravity and registration: it works in 2D (also when the game is in 3D
    mode), its air density is 0, so that drag never acts, its time scale is
    1, and its gravity is that of one of the three difficulties. *)
Theorem engine_configuration (g : Game.t) (p : Physics.t) :
  Game.reachable X g -> g.(Game.mPhysics) = Some p ->
  p.(Physics.m3DMode) = false /\
  p.(Physics.mAirDensity) = zero /\
  p.(Physics.mTimeScale) = one /\
  p.(Physics.mLander) = p.(Physics.mTerrain) /\
  exists d, p.(Physics.mGravity) = gravity_of d.
Proof.
  intros Hr Hp.
  assert (forall p, Game.mPhysics g = Some p -> engine_of_game p) as H.
  { clear p Hp. induction Hr as [|c g g' _ IH E].
    - intros p Hp. discriminate Hp.
    - apply (effect_engine g g' (exec_effect c g g' E) IH). }
  destruct (H p Hp) as [d [r ->]]. cbn. repeat split. exists d. reflexivity.
Qed.


(** *** Invariants of the lander of a game *)

Section FlightInvariant.

(** A property of landers that holds of a new lander and is kept by what a
    game does to its lander: the reset, the two thrust commands, the two
    rotations by 2 degrees, [Lander::Update] and the engine of a game. *)
Variable P : Lander -> Prop.

Hypothesis P_ctor : P Lander.ctor.
Hypothesis P_reset : forall k l, P l -> P (Game.reset_lander X k l).
Hypothesis P_thrust : forall amount l,
  amount = one \/ amount = zero -> P l -> P (Lander.ApplyThrust amount l).
Hypothesis P_RotateLeft : forall loops l l',
  Lander.RotateLeft loops (of_Z 2) l = Some l' -> P l -> P l'.
Hypothesis P_RotateRight : forall loops l l',
  Lander.RotateRight loops (of_Z 2) l = Some l' -> P l -> P l'.
Hypothesis P_Update : forall deltaTime l, P l -> P (Lander.Update deltaTime l).
Hypothesis P_Physics : forall p l l' t deltaTime,
  engine_of_game p ->
  Physics.Update X p (Some l) t deltaTime = Some l' -> P l -> P l'.

Definition in_order (g : Game.t) : Prop :=
  (forall p, g.(Game.mPhysics) = Some p -> engine_of_game p) /\
  (forall l, g.(Game.mLander) = Some l -> P l).

Lemma P_commanded (loops : nat) (l l' : Lander) :
  commanded loops l l' -> P l -> P l'.
Proof.
  intros [amount [l2 [Ha [H2 H']]]] Hl.
  assert (P l2) as H.
  { destruct H2 as [->|H2]; [apply P_thrust; assumption|].
    apply (P_RotateLeft _ _ _ H2). apply P_thrust; assumption. }
  destruct H' as [->|H']; [exact H|]. apply (P_RotateRight _ _ _ H' H).
Qed.

Lemma P_inspected (g : Game.t) (l : Lander) (deltaTime : float) :
  in_order g -> P l -> P (inspected X g l deltaTime).
Proof.
  intros [Hp _] Hl. unfold inspected. apply P_Update.
  destruct (Game.mPhysics g) as [p|]; [|exact Hl].
  destruct (Physics.Update X p (Some l) (Game.mTerrain g) deltaTime) as [l1|] eqn:E;
    [|exact Hl].
  apply (P_Physics p l l1 _ deltaTime (Hp p eq_refl) E Hl).
Qed.

Lemma effect_in_order (g h : Game.t) : effect g h -> in_order g -> in_order h.
Proof.
  intros H Hg. split; [apply (effect_engine g h H), Hg|].
  intros x Hx.
  destruct H as [[_ [El _]]|_ El _|_ El _|k _ _ El _|l _ _ Hl El _|
                 d p l k _ _ Hl _ El _|_ _ _ _ _ El _|
                 loops l l' _ _ Hl El Hc _|deltaTime l _ Hl El _ _ _ _];
    rewrite El in Hx; try discriminate Hx;
    try (apply Some_inj in Hx; subst x).
  - apply (proj2 Hg x Hx).
  - apply P_ctor.
  - apply P_reset, P_ctor.
  - apply P_reset, (proj2 Hg l Hl).
  - apply P_reset, P_thrust; [auto|]. apply (proj2 Hg l Hl).
  - apply (proj2 Hg x Hx).
  - apply (P_commanded loops l l' Hc), (proj2 Hg l Hl).
  - apply (P_inspected g l deltaTime Hg), (proj2 Hg l Hl).
Qed.

Lemma in_order_reachable (g : Game.t) : Game.reachable X g -> in_order g.
Proof.
  induction 1 as [|c g g' _ IH E].
  - split; discriminate.
  - apply (effect_in_order g g' (exec_effect c g g' E) IH).
Qed.

End FlightInvariant.


End Effects.

(** ** What the engine and the lander write *)

Section Frames.

Variable X : Externals.

(** A lander with its position, its velocity and its two flags blanked:
    two landers with the same rest differ in these members at most. *)
Definition rest (l : Lander) : Lander :=
  Lander.with_mCrashed false
    (Lander.with_mLanded false
       (Lander.with_mVelocity zero3 (Lander.with_mPosition zero3 l))).

Lemma rest_with_mVelocity (v : float3) (l : Lander) :
  rest (Lander.with_mVelocity v l) = rest l.
Proof. reflexivity. Qed.

Lemma rest_integrate (p : Physics.t) (l : Lander) (deltaTime : float) :
  rest (Physics.integrate2D X deltaTime l) = rest l /\
  rest (Physics.integrate3D deltaTime l) = rest l.
Proof.
  unfold Physics.integrate2D, Physics.integrate3D.
  destruct (Physics.grounded l); split; reflexivity.
Qed.

Lemma rest_moved (p : Physics.t) (l : Lander) (deltaTime : float) :
  rest (moved X p l deltaTime) = rest l.
Proof.
  unfold moved. destruct (forced_velocity X p l deltaTime) as [v [E _]].
  rewrite E.
  destruct (rest_integrate p (Lander.with_mVelocity v l) deltaTime) as [E2 E3].
  destruct (Physics.m3DMode p); [rewrite E3 | rewrite E2]; reflexivity.
Qed.

Lemma rest_touch_down (valid three_d : bool) (l : Lander) :
  rest (Physics.touch_down valid three_d l) = rest l.
Proof. destruct valid; reflexivity. Qed.

Lemma CheckCollisions_rest (p : Physics.t) (l l' : Lander) (t : option Terrain) :
  snd (Physics.CheckCollisions X p (Some l) t) = Some l' -> rest l' = rest l.
Proof.
  intros E.
  destruct (Physics.grounded l) eqn:Hg.
  - rewrite (CheckCollisions_grounded X p t l Hg) in E.
    apply Some_inj in E. subst l'. reflexivity.
  - destruct (Physics.mLander p) eqn:HL, (Physics.mTerrain p) eqn:HT, t as [t|];
      try (unfold Physics.CheckCollisions, Physics.CheckCollisions2D,
             Physics.CheckCollisions3D, Physics.deref in E;
           rewrite HL, ?HT in E; destruct (Physics.m3DMode p);
           apply Some_inj in E; subst l'; reflexivity).
    rewrite (CheckCollisions_flying X p t l Hg HL HT) in E.
    destruct (fst (reported X p t l)); apply Some_inj in E; subst l';
      [|reflexivity].
    rewrite rest_touch_down. reflexivity.
Qed.

Lemma Physics_Update_rest (p : Physics.t) (l l' : Lander) (t : option Terrain)
    (deltaTime : float) :
  Physics.Update X p (Some l) t deltaTime = Some l' -> rest l' = rest l.
Proof.
  intros E.
  destruct (Physics.mLander p) eqn:HL, (Physics.mTerrain p) eqn:HT, t as [t|];
    try (unfold Physics.Update, Physics.Update2D, Physics.Update3D,
           Physics.deref in E;
         rewrite HL, ?HT in E; destruct (Physics.m3DMode p);
         apply Some_inj in E; subst l'; reflexivity).
  rewrite (Update_as_moved X p l t deltaTime HL HT) in E.
  rewrite (CheckCollisions_rest p _ l' (Some t) E). apply rest_moved.
Qed.

(** X8.  The engine writes four members of the lander and no other:
    [Physics::Update] and [Physics::CheckCollisions], in 2D and in 3D and
    whatever they decide, return a lander that differs from the one they
    were given in its position, its velocity and its landed and crashed
    flags at most; rotation, fuel, thrust and dimensions are left alone. *)
Theorem engine_writes_motion_only (p : Physics.t) (l l1 l2 : Lander)
    (t : option Terrain) (deltaTime : float) :
  Physics.Update X p (Some l) t deltaTime = Some l1 ->
  snd (Physics.CheckCollisions X p (Some l) t) = Some l2 ->
  rest l1 = rest l /\ rest l2 = rest l.
Proof.
  intros H1 H2.
  split; [apply (Physics_Update_rest p l l1 t deltaTime H1)
         |apply (CheckCollisions_rest p l l2 t H2)].
Qed.

(** X9.  An engine whose lander or terrain pointer is null does nothing:
    [Physics::Update] and [Physics::CheckCollisions], in both modes, leave
    the lander as it is and report no collision. *)
Theorem engine_without_entities_idle (p : Physics.t) (lander : option Lander)
    (terrain : option Terrain) (deltaTime : float) :
  p.(Physics.mLander) = false \/ p.(Physics.mTerrain) = false ->
  Physics.Update X p lander terrain deltaTime = lander /\
  Physics.CheckCollisions X p lander terrain = (false, lander).
Proof.
  intros H.
  unfold Physics.Update, Physics.Update2D, Physics.Update3D,
    Physics.CheckCollisions, Physics.CheckCollisions2D,
    Physics.CheckCollisions3D, Physics.deref.
  destruct (Physics.m3DMode p), (Physics.mLander p), (Physics.mTerrain p),
    lander as [l|], terrain as [t|]; try (split; reflexivity);
    destruct H as [H|H]; discriminate H.
Qed.

End Frames.

(** ** Invariants of the lander in a game *)

Section LanderFacts.

Variable X : Externals.

Lemma rest_mThrust (l l' : Lander) :
  rest l' = rest l ->
  l'.(mThrustLevel) = l.(mThrustLevel) /\ l'.(mThrustActive) = l.(mThrustActive) /\
  l'.(mFuel) = l.(mFuel) /\ l'.(mRotation) = l.(mRotation).
Proof.
  intros H.
  change (mThrustLevel (rest l') = mThrustLevel (rest l) /\
          mThrustActive (rest l') = mThrustActive (rest l) /\
          mFuel (rest l') = mFuel (rest l) /\
          mRotation (rest l') = mRotation (rest l)).
  rewrite H. auto.
Qed.

(** The members that no method writes after construction, and the two
    rotation angles that no command turns. *)
Definition constants (l : Lander) :=
  (l.(mActive), l.(mScale), l.(mAcceleration),
   (l.(mWidth), l.(mHeight), l.(mDepth), l.(mMass)),
   (l.(mMaxThrustForce), l.(mMaxFuel), l.(mFuelConsumptionRate)),
   (l.(mRotation).(at0), l.(mRotation).(at1))).

Lemma constants_rest (l l' : Lander) : rest l' = rest l -> constants l' = constants l.
Proof.
  intros H. change (constants (rest l') = constants (rest l)). rewrite H. reflexivity.
Qed.

Lemma constants_ApplyThrust (amount : float) (l : Lander) :
  constants (Lander.ApplyThrust amount l) = constants l.
Proof. unfold Lander.ApplyThrust. destruct (mFuel l <=? zero)%f32; reflexivity. Qed.

Lemma RotateLeft_fields (loops : nat) (amount : float) (l l' : Lander) :
  Lander.RotateLeft loops amount l = Some l' ->
  exists z,
    Lander.wrap_down loops (l.(mRotation).(at2) + amount)%f32 = Some z /\
    l' = Lander.with_mRotation (Float3 l.(mRotation).(at0) l.(mRotation).(at1) z) l.
Proof.
  unfold Lander.RotateLeft. intros H.
  destruct (Lander.wrap_down loops (at2 (mRotation l) + amount)%f32) as [z|];
    [|discriminate].
  apply Some_inj in H. exists z. auto.
Qed.

Lemma RotateRight_fields (loops : nat) (amount : float) (l l' : Lander) :
  Lander.RotateRight loops amount l = Some l' ->
  exists z,
    Lander.wrap_up loops (l.(mRotation).(at2) - amount)%f32 = Some z /\
    l' = Lander.with_mRotation (Float3 l.(mRotation).(at0) l.(mRotation).(at1) z) l.
Proof.
  unfold Lander.RotateRight. intros H.
  destruct (Lander.wrap_up loops (at2 (mRotation l) - amount)%f32) as [z|];
    [|discriminate].
  apply Some_inj in H. exists z. auto.
Qed.

Lemma constants_Lander_Update (deltaTime : float) (l : Lander) :
  constants (Lander.Update deltaTime l) = constants l.
Proof.
  unfold Lander.Update, Lander.burn.
  change (mThrustActive (Lander.advance deltaTime l)) with (mThrustActive l).
  change (mFuel (Lander.advance deltaTime l)) with (mFuel l).
  destruct (mThrustActive l && (mFuel l >? zero)%f32); [|reflexivity].
  match goal with |- context [if ?b then _ else _] => destruct b end; reflexivity.
Qed.

Lemma constants_reset_lander (k : Game.t) (l : Lander) :
  constants l = constants Lander.ctor ->
  constants (Game.reset_lander X k l) = constants Lander.ctor.
Proof.
  intros H. unfold Game.reset_lander.
  assert (E : forall x y z,
             constants (Lander.SetPosition x y z
                          (Lander.with_mActive true (Lander.Reset l)))
             = (true, mScale l, zero3,
                (mWidth l, mHeight l, mDepth l, mMass l),
                (mMaxThrustForce l, mMaxFuel l, mFuelConsumptionRate l),
                (zero, zero))) by reflexivity.
  unfold constants in H.
  injection H as H1 H2 H3 H4 H5 H6 H7 H8 H9 H10 H11 H12.
  destruct (Game.m3DMode k); rewrite E, H2, H4, H5, H6, H7, H8, H9, H10; reflexivity.
Qed.

(** X10.  In every reachable state the lander has the dimensions, the
    mass, the scale, the fuel capacity, the consumption rate and the
    maximal thrust force of its constructor, it is active, its acceleration
    is 0 and so are its first two rotation angles: no method writes these
    members (the acceleration is never used), and only the third angle is
    ever turned. *)
Theorem lander_constants (g : Game.t) (l : Lander) :
  Game.reachable X g -> g.(Game.mLander) = Some l ->
  constants l = constants Lander.ctor.
Proof.
  intros Hr Hl.
  apply (proj2 (in_order_reachable X
                  (fun l => constants l = constants Lander.ctor)
                  eq_refl
                  constants_reset_lander
                  (fun amount l _ H => eq_trans (constants_ApplyThrust amount l) H)
                  (fun loops l l' E H =>
                     match RotateLeft_fields loops (of_Z 2) l l' E with
                     | ex_intro _ z (conj _ E') =>
                       eq_trans (f_equal constants E') H
                     end)
                  (fun loops l l' E H =>
                     match RotateRight_fields loops (of_Z 2) l l' E with
                     | ex_intro _ z (conj _ E') =>
                       eq_trans (f_equal constants E') H
                     end)
                  (fun deltaTime l H => eq_trans (constants_Lander_Update deltaTime l) H)
                  (fun p l l' t deltaTime _ E H =>
                     eq_trans (constants_rest l l'
                                 (Physics_Update_rest X p l l' t deltaTime E)) H)
                  g Hr) l Hl).
Qed.


(** *** The lander moves along the vertical only *)

(** In 2D and without air the three forces write the second velocity
    component only. *)
Lemma forces_2D_no_air (p : Physics.t) (l : Lander) (step : float) :
  p.(Physics.m3DMode) = false -> (p.(Physics.mAirDensity) <=? zero)%f32 = true ->
  exists vy,
    forces X p (Some l) step
    = Some (Lander.with_mVelocity
              (Float3 l.(mVelocity).(at0) vy l.(mVelocity).(at2)) l).
Proof.
  intros H3 Ha.
  destruct l as [a pos r sc [v0 v1 v2] acc w h d m tl ta mt f mf fr la cr].
  unfold forces, Physics.ApplyGravity, Physics.ApplyThrust, Physics.ApplyDrag,
    Physics.grounded.
  cbn [mLanded mCrashed mVelocity mThrustActive Lander.with_mVelocity at0 at1 at2].
  rewrite H3.
  destruct la, cr, ta;
    cbn [mLanded mCrashed mVelocity mThrustActive Lander.with_mVelocity
         at0 at1 at2 orb negb];
    rewrite ?Ha;
    cbn [mLanded mCrashed mVelocity mThrustActive Lander.with_mVelocity
         at0 at1 at2 orb negb];
    eexists; reflexivity.
Qed.

Definition sideways_still (l : Lander) : Prop :=
  l.(mVelocity).(at0) = zero /\ l.(mVelocity).(at2) = zero.

Lemma engine_of_game_2D_no_air (p : Physics.t) :
  engine_of_game p ->
  p.(Physics.m3DMode) = false /\ (p.(Physics.mAirDensity) <=? zero)%f32 = true.
Proof. intros [d [r ->]]. split; reflexivity. Qed.

Lemma sideways_still_Physics (p : Physics.t) (l l' : Lander) (t : option Terrain)
    (deltaTime : float) :
  engine_of_game p ->
  Physics.Update X p (Some l) t deltaTime = Some l' ->
  sideways_still l -> sideways_still l'.
Proof.
  intros Hp E [H0 H2]. destruct (engine_of_game_2D_no_air p Hp) as [H3 Ha].
  destruct (Physics.mLander p) eqn:HL, (Physics.mTerrain p) eqn:HT, t as [t|];
    try (unfold Physics.Update, Physics.Update2D, Physics.deref in E;
         rewrite H3, HL, ?HT in E; apply Some_inj in E; subst l'; split; assumption).
  rewrite (Update_as_moved X p l t deltaTime HL HT) in E.
  assert (Hm : sideways_still (moved X p l deltaTime)).
  { unfold moved, forced. rewrite H3.
    destruct (forces_2D_no_air p l (deltaTime * Physics.mTimeScale p)%f32 H3 Ha)
      as [vy Ev].
    rewrite Ev. unfold Physics.integrate2D.
    destruct (Physics.grounded (Lander.with_mVelocity _ l)); split; assumption. }
  destruct (Physics.grounded (moved X p l deltaTime)) eqn:Hg.
  - rewrite (CheckCollisions_grounded X p (Some t) _ Hg) in E.
    apply Some_inj in E. subst l'. exact Hm.
  - rewrite (CheckCollisions_flying X p t _ Hg HL HT) in E.
    destruct (fst (reported X p t (moved X p l deltaTime)));
      apply Some_inj in E; subst l'; [|exact Hm].
    rewrite H3. destruct Hm as [_ Hm2].
    unfold sideways_still, Physics.touch_down.
    destruct (verdict X p t (moved X p l deltaTime)); split; try reflexivity;
      exact Hm2.
Qed.

Lemma sideways_still_rest (l l' : Lander) :
  l'.(mVelocity) = l.(mVelocity) -> sideways_still l -> sideways_still l'.
Proof. unfold sideways_still. intros ->. auto. Qed.

Lemma ApplyThrust_mVelocity (amount : float) (l : Lander) :
  (Lander.ApplyThrust amount l).(mVelocity) = l.(mVelocity).
Proof. unfold Lander.ApplyThrust. destruct (mFuel l <=? zero)%f32; reflexivity. Qed.

(** X11.  In every reachable state the first and the third velocity
    component of the lander are exactly 0: the engine of a game works in 2D
    without air, where gravity and thrust act on the second component only
    and the rotation of the lander does not steer the thrust, so the lander
    never moves sideways. *)
Theorem lander_never_moves_sideways (g : Game.t) (l : Lander) :
  Game.reachable X g -> g.(Game.mLander) = Some l ->
  l.(mVelocity).(at0) = zero /\ l.(mVelocity).(at2) = zero.
Proof.
  intros Hr Hl.
  apply (proj2 (in_order_reachable X sideways_still
                  (conj eq_refl eq_refl)
                  (fun k l _ =>
                     match reset_lander_values X k l with
                     | conj _ (conj _ (conj Hv _)) =>
                       conj (f_equal at0 Hv) (f_equal at2 Hv)
                     end)
                  (fun amount l _ =>
                     sideways_still_rest l _ (ApplyThrust_mVelocity amount l))
                  (fun loops l l' E =>
                     match RotateLeft_fields loops (of_Z 2) l l' E with
                     | ex_intro _ z (conj _ E') =>
                       sideways_still_rest l l' (f_equal mVelocity E')
                     end)
                  (fun loops l l' E =>
                     match RotateRight_fields loops (of_Z 2) l l' E with
                     | ex_intro _ z (conj _ E') =>
                       sideways_still_rest l l' (f_equal mVelocity E')
                     end)
                  (fun deltaTime l =>
                     sideways_still_rest l _ (proj1 (Lander_Update_keeps deltaTime l)))
                  sideways_still_Physics
                  g Hr) l Hl).
Qed.

(** *** Thrust is all or nothing *)

Definition all_or_nothing (l : Lander) : Prop :=
  (l.(mThrustLevel) = zero \/ l.(mThrustLevel) = one) /\
  (l.(mThrustActive) = true -> l.(mThrustLevel) = one).

Lemma all_or_nothing_same (l l' : Lander) :
  l'.(mThrustLevel) = l.(mThrustLevel) ->
  l'.(mThrustActive) = l.(mThrustActive) \/ l'.(mThrustActive) = false ->
  all_or_nothing l -> all_or_nothing l'.
Proof.
  unfold all_or_nothing. intros -> [-> | ->] [H1 H2]; split; auto; discriminate.
Qed.

Lemma all_or_nothing_ApplyThrust (amount : float) (l : Lander) :
  amount = one \/ amount = zero -> all_or_nothing (Lander.ApplyThrust amount l).
Proof.
  intros Ha. unfold Lander.ApplyThrust, all_or_nothing.
  destruct (mFuel l <=? zero)%f32.
  - split; [left; reflexivity | discriminate].
  - destruct Ha as [-> | ->].
    + split; [right; reflexivity | reflexivity].
    + split; [left; reflexivity | discriminate].
Qed.

Lemma Lander_Update_thrust (deltaTime : float) (l : Lander) :
  (Lander.Update deltaTime l).(mThrustLevel) = l.(mThrustLevel) /\
  ((Lander.Update deltaTime l).(mThrustActive) = l.(mThrustActive) \/
   (Lander.Update deltaTime l).(mThrustActive) = false).
Proof.
  unfold Lander.Update, Lander.burn.
  change (mThrustActive (Lander.advance deltaTime l)) with (mThrustActive l).
  change (mFuel (Lander.advance deltaTime l)) with (mFuel l).
  destruct (mThrustActive l && (mFuel l >? zero)%f32); [|auto].
  match goal with |- context [if ?b then _ else _] => destruct b end; auto.
Qed.

Lemma all_or_nothing_reachable (g : Game.t) (l : Lander) :
  Game.reachable X g -> g.(Game.mLander) = Some l -> all_or_nothing l.
Proof.
  intros Hr Hl.
  apply (proj2 (in_order_reachable X all_or_nothing
                  (conj (or_introl eq_refl) (fun H => False_ind _ (diff_false_true H)))
                  (fun k l _ =>
                     match reset_lander_values X k l with
                     | conj _ (conj _ (conj _ (conj _ (conj _ (conj _
                         (conj Hl (conj Ha _))))))) =>
                       conj (or_introl Hl)
                            (fun H => False_ind _
                                        (diff_false_true (eq_trans (eq_sym Ha) H)))
                     end)
                  (fun amount l Ha _ => all_or_nothing_ApplyThrust amount l Ha)
                  (fun loops l l' E =>
                     match RotateLeft_fields loops (of_Z 2) l l' E with
                     | ex_intro _ z (conj _ E') =>
                       all_or_nothing_same l l' (f_equal mThrustLevel E')
                         (or_introl (f_equal mThrustActive E'))
                     end)
                  (fun loops l l' E =>
                     match RotateRight_fields loops (of_Z 2) l l' E with
                     | ex_intro _ z (conj _ E') =>
                       all_or_nothing_same l l' (f_equal mThrustLevel E')
                         (or_introl (f_equal mThrustActive E'))
                     end)
                  (fun deltaTime l =>
                     all_or_nothing_same l _
                       (proj1 (Lander_Update_thrust deltaTime l))
                       (proj2 (Lander_Update_thrust deltaTime l)))
                  (fun p l l' t deltaTime _ E =>
                     match rest_mThrust l l' (Physics_Update_rest X p l l' t deltaTime E)
                     with
                     | conj E1 (conj E2 _) => all_or_nothing_same l l' E1 (or_introl E2)
                     end)
                  g Hr) l Hl).
Qed.

(** X12.  In every reachable state the thrust level of the lander is
    exactly 0 or exactly 1, and a lander whose thrust is active has the
    level 1 and fuel above 0: the game only commands full or no thrust, and
    the engine is switched off with the last fuel. *)
Theorem thrust_all_or_nothing (g : Game.t) (l : Lander) :
  Game.reachable X g -> g.(Game.mLander) = Some l ->
  (l.(mThrustLevel) = zero \/ l.(mThrustLevel) = one) /\
  (l.(mThrustActive) = true ->
   l.(mThrustLevel) = one /\ (l.(mFuel) >? zero)%f32 = true).
Proof.
  intros Hr Hl.
  destruct (all_or_nothing_reachable g l Hr Hl) as [H1 H2].
  split; [exact H1|]. intros Ha. split; [exact (H2 Ha)|].
  destruct (proj2 (fuelled_reachable X g Hr) l Hl) as [_ [_ [_ [_ [_ [_ Hf]]]]]].
  exact (Hf Ha).
Qed.


(** *** The heading *)

(** The normalisation loops.  More turns do not change a result. *)
Lemma wrap_down_more (n : nat) (r z : float) :
  Lander.wrap_down n r = Some z -> Lander.wrap_down (S n) r = Some z.
Proof.
  revert r. induction n as [|n IH]; intros r.
  - cbn [Lander.wrap_down]. destruct (of_Z 360 <=? r)%f32; [discriminate|auto].
  - intros H. cbn [Lander.wrap_down] in H.
    change (Lander.wrap_down (S (S n)) r)
      with (if (of_Z 360 <=? r)%f32
            then Lander.wrap_down (S n) (r - of_Z 360)%f32 else Some r).
    destruct (of_Z 360 <=? r)%f32; [|exact H]. apply IH, H.
Qed.

Lemma wrap_up_more (n : nat) (r z : float) :
  Lander.wrap_up n r = Some z -> Lander.wrap_up (S n) r = Some z.
Proof.
  revert r. induction n as [|n IH]; intros r.
  - cbn [Lander.wrap_up]. destruct (r <? zero)%f32; [discriminate|auto].
  - intros H. cbn [Lander.wrap_up] in H.
    change (Lander.wrap_up (S (S n)) r)
      with (if (r <? zero)%f32
            then Lander.wrap_up (S n) (r + of_Z 360)%f32 else Some r).
    destruct (r <? zero)%f32; [|exact H]. apply IH, H.
Qed.

Lemma wrap_down_le (n m : nat) (r z : float) :
  (n <= m)%nat -> Lander.wrap_down n r = Some z -> Lander.wrap_down m r = Some z.
Proof.
  induction 1 as [|m _ IH]; [auto|]. intros H. apply wrap_down_more, IH, H.
Qed.

Lemma wrap_up_le (n m : nat) (r z : float) :
  (n <= m)%nat -> Lander.wrap_up n r = Some z -> Lander.wrap_up m r = Some z.
Proof.
  induction 1 as [|m _ IH]; [auto|]. intros H. apply wrap_up_more, IH, H.
Qed.

(** What the loops return is in range. *)
Lemma wrap_down_range (n : nat) (r z : float) :
  Lander.wrap_down n r = Some z -> (of_Z 360 <=? z)%f32 = false.
Proof.
  revert r. induction n as [|n IH]; intros r; cbn [Lander.wrap_down];
    destruct (of_Z 360 <=? r)%f32 eqn:E; intros H;
    try discriminate H; try (apply Some_inj in H; subst z; exact E).
  apply (IH _ H).
Qed.

Lemma wrap_up_range (n : nat) (r z : float) :
  Lander.wrap_up n r = Some z -> (z <? zero)%f32 = false.
Proof.
  revert r. induction n as [|n IH]; intros r; cbn [Lander.wrap_up];
    destruct (r <? zero)%f32 eqn:E; intros H;
    try discriminate H; try (apply Some_inj in H; subst z; exact E).
  apply (IH _ H).
Qed.

(** A loop that does not change the angle never ends. *)
Lemma wrap_down_stuck (n : nat) (r : float) :
  (of_Z 360 <=? r)%f32 = true -> (r - of_Z 360)%f32 = r ->
  Lander.wrap_down n r = None.
Proof.
  intros H1 H2. induction n as [|n IH]; cbn [Lander.wrap_down]; rewrite H1;
    [reflexivity|]. rewrite H2. exact IH.
Qed.

Lemma wrap_up_stuck (n : nat) (r : float) :
  (r <? zero)%f32 = true -> (r + of_Z 360)%f32 = r ->
  Lander.wrap_up n r = None.
Proof.
  intros H1 H2. induction n as [|n IH]; cbn [Lander.wrap_up]; rewrite H1;
    [reflexivity|]. rewrite H2. exact IH.
Qed.

(** X14.  When [Lander::RotateLeft] returns, the third rotation angle is
    not 360 or more, and when [Lander::RotateRight] returns it is not below
    0; neither of them writes anything but that angle.  The two statements
    are independent: each holds whether or not the other method returns on
    the same lander. *)
Theorem rotation_loops_range (loops : nat) (amount : float) (l l' : Lander) :
  (Lander.RotateLeft loops amount l = Some l' ->
   (of_Z 360 <=? l'.(mRotation).(at2))%f32 = false /\
   l' = Lander.with_mRotation
          (Float3 l.(mRotation).(at0) l.(mRotation).(at1) l'.(mRotation).(at2)) l) /\
  (Lander.RotateRight loops amount l = Some l' ->
   (l'.(mRotation).(at2) <? zero)%f32 = false /\
   l' = Lander.with_mRotation
          (Float3 l.(mRotation).(at0) l.(mRotation).(at1) l'.(mRotation).(at2)) l).
Proof.
  split; intros H.
  - destruct (RotateLeft_fields loops amount l l' H) as [z [W ->]].
    split; [apply (wrap_down_range _ _ _ W) | reflexivity].
  - destruct (RotateRight_fields loops amount l l' H) as [z [W ->]].
    split; [apply (wrap_up_range _ _ _ W) | reflexivity].
Qed.

(** X15.  [Lander::RotateLeft] and [Lander::RotateRight] need not return:
    on an angle so large that taking 360 away from it, or adding 360 to it,
    does not change it, the normalisation loop runs for ever, whatever
    number of turns it is given. *)
Theorem rotation_loops_may_hang (loops : nat) (amount : float) (l l' : Lander) :
  (of_Z 360 <=? l.(mRotation).(at2) + amount)%f32 = true ->
  (l.(mRotation).(at2) + amount - of_Z 360)%f32 = (l.(mRotation).(at2) + amount)%f32 ->
  (l'.(mRotation).(at2) - amount <? zero)%f32 = true ->
  (l'.(mRotation).(at2) - amount + of_Z 360)%f32 = (l'.(mRotation).(at2) - amount)%f32 ->
  Lander.RotateLeft loops amount l = None /\
  Lander.RotateRight loops amount l' = None.
Proof.
  intros H1 H2 H3 H4. unfold Lander.RotateLeft, Lander.RotateRight.
  rewrite (wrap_down_stuck loops _ H1 H2), (wrap_up_stuck loops _ H3 H4).
  split; reflexivity.
Qed.

(** Structural equality of binary32 numbers. *)
Definition same_float (x y : float) : bool :=
  match x, y with
  | S754_zero a, S754_zero b => Bool.eqb a b
  | S754_infinity a, S754_infinity b => Bool.eqb a b
  | S754_nan, S754_nan => true
  | S754_finite a m e, S754_finite b n f =>
    Bool.eqb a b && Pos.eqb m n && Z.eqb e f
  | _, _ => false
  end.

Lemma same_float_eq (x y : float) : same_float x y = true -> x = y.
Proof.
  destruct x as [a|a| |a m e], y as [b|b| |b n f]; cbn [same_float];
    intros H; try discriminate H; try reflexivity.
  - apply Bool.eqb_prop in H. congruence.
  - apply Bool.eqb_prop in H. congruence.
  - apply andb_prop in H. destruct H as [H He].
    apply andb_prop in H. destruct H as [Ha Hm].
    apply Bool.eqb_prop in Ha. apply Pos.eqb_eq in Hm. apply Z.eqb_eq in He.
    congruence.
Qed.

(** The headings of a game: the even whole angles from 0 to 358. *)
Definition heading (k : nat) : float := of_Z (2 * Z.of_nat k).

(** One turn to the left and one to the right from heading [k], with a
    single turn of the loop allowed. *)
Definition turns_in_step (k : nat) : bool :=
  match Lander.wrap_down 1 (heading k + of_Z 2)%f32,
        Lander.wrap_up 1 (heading k - of_Z 2)%f32 with
  | Some a, Some b =>
    same_float a (heading (Nat.modulo (k + 1) 180)) &&
    same_float b (heading (Nat.modulo (k + 179) 180))
  | _, _ => false
  end.

Lemma all_turns_in_step : forallb turns_in_step (seq 0 180) = true.
Proof. vm_compute. reflexivity. Qed.

Lemma turn_of_heading (k : nat) :
  (k < 180)%nat ->
  Lander.wrap_down 1 (heading k + of_Z 2)%f32
  = Some (heading (Nat.modulo (k + 1) 180)) /\
  Lander.wrap_up 1 (heading k - of_Z 2)%f32
  = Some (heading (Nat.modulo (k + 179) 180)).
Proof.
  intros Hk.
  assert (H : turns_in_step k = true).
  { apply (proj1 (forallb_forall turns_in_step (seq 0 180)) all_turns_in_step).
    apply in_seq. lia. }
  unfold turns_in_step in H.
  destruct (Lander.wrap_down 1 (heading k + of_Z 2)%f32) as [a|]; [|discriminate].
  destruct (Lander.wrap_up 1 (heading k - of_Z 2)%f32) as [b|]; [|discriminate].
  apply andb_prop in H. destruct H as [Ha Hb].
  rewrite (same_float_eq _ _ Ha), (same_float_eq _ _ Hb). auto.
Qed.

Definition on_heading (l : Lander) : Prop :=
  exists k, (k < 180)%nat /\ l.(mRotation).(at2) = heading k.

Lemma on_heading_same (l l' : Lander) :
  l'.(mRotation) = l.(mRotation) -> on_heading l -> on_heading l'.
Proof. unfold on_heading. intros ->. auto. Qed.

Lemma on_heading_RotateLeft (loops : nat) (l l' : Lander) :
  Lander.RotateLeft loops (of_Z 2) l = Some l' -> on_heading l -> on_heading l'.
Proof.
  intros E [k [Hk Hr]].
  destruct (RotateLeft_fields loops (of_Z 2) l l' E) as [z [W ->]].
  rewrite Hr in W. destruct (turn_of_heading k Hk) as [T _].
  apply (wrap_down_le loops (loops + 1)) in W; [|lia].
  apply (wrap_down_le 1 (loops + 1)) in T; [|lia].
  rewrite W in T. apply Some_inj in T. subst z.
  exists (Nat.modulo (k + 1) 180). split; [|reflexivity].
  apply Nat.mod_upper_bound. discriminate.
Qed.

Lemma on_heading_RotateRight (loops : nat) (l l' : Lander) :
  Lander.RotateRight loops (of_Z 2) l = Some l' -> on_heading l -> on_heading l'.
Proof.
  intros E [k [Hk Hr]].
  destruct (RotateRight_fields loops (of_Z 2) l l' E) as [z [W ->]].
  rewrite Hr in W. destruct (turn_of_heading k Hk) as [_ T].
  apply (wrap_up_le loops (loops + 1)) in W; [|lia].
  apply (wrap_up_le 1 (loops + 1)) in T; [|lia].
  rewrite W in T. apply Some_inj in T. subst z.
  exists (Nat.modulo (k + 179) 180). split; [|reflexivity].
  apply Nat.mod_upper_bound. discriminate.
Qed.

Lemma ApplyThrust_mRotation (amount : float) (l : Lander) :
  (Lander.ApplyThrust amount l).(mRotation) = l.(mRotation).
Proof. unfold Lander.ApplyThrust. destruct (mFuel l <=? zero)%f32; reflexivity. Qed.

Lemma Lander_Update_mRotation (deltaTime : float) (l : Lander) :
  (Lander.Update deltaTime l).(mRotation) = l.(mRotation).
Proof.
  unfold Lander.Update, Lander.burn.
  change (mThrustActive (Lander.advance deltaTime l)) with (mThrustActive l).
  change (mFuel (Lander.advance deltaTime l)) with (mFuel l).
  destruct (mThrustActive l && (mFuel l >? zero)%f32); [|reflexivity].
  match goal with |- context [if ?b then _ else _] => destruct b end; reflexivity.
Qed.

Lemma on_heading_reset_lander (k : Game.t) (l : Lander) :
  on_heading (Game.reset_lander X k l).
Proof.
  exists 0%nat. split; [lia|].
  destruct (reset_lander_values X k l) as [_ [Hr _]]. rewrite Hr. reflexivity.
Qed.

Lemma on_heading_in_order (g : Game.t) :
  Game.reachable X g -> in_order on_heading g.
Proof.
  apply (in_order_reachable X on_heading).
  - exists 0%nat. split; [lia | reflexivity].
  - intros k l _. apply on_heading_reset_lander.
  - intros amount l _. apply on_heading_same, ApplyThrust_mRotation.
  - apply on_heading_RotateLeft.
  - apply on_heading_RotateRight.
  - intros deltaTime l. apply on_heading_same, Lander_Update_mRotation.
  - intros p l l' t deltaTime _ E. apply on_heading_same.
    apply (rest_mThrust l l' (Physics_Update_rest X p l l' t deltaTime E)).
Qed.

(** X16.  In every reachable state the third rotation angle of the lander
    is one of the 180 even whole angles 0, 2, ..., 358: the left and right
    commands turn by 2 degrees and wrap around at 360 without rounding. *)
Theorem heading_is_even_angle (g : Game.t) (l : Lander) :
  Game.reachable X g -> g.(Game.mLander) = Some l ->
  exists k, (k < 180)%nat /\ l.(mRotation).(at2) = of_Z (2 * Z.of_nat k).
Proof.
  intros Hr Hl. apply (proj2 (on_heading_in_order g Hr) l Hl).
Qed.


(** *** The main loop never gets stuck *)

Lemma thrust_input_total (input : Input) (g : Game.t) (l : Lander) :
  g.(Game.mLander) = Some l ->
  Game.thrust_input input g
  = Some (Game.with_mLander
            (Some (Lander.ApplyThrust
                     (if input.(IsThrustActive) then one else zero) l)) g).
Proof.
  intros Hl. unfold Game.thrust_input.
  destruct (IsThrustActive input); rewrite Hl; cbn [bind];
    rewrite ?track_fuel_same; reflexivity.
Qed.

Lemma rotate_left_input_total (loops : nat) (input : Input) (g : Game.t)
    (l : Lander) :
  (1 <= loops)%nat -> g.(Game.mLander) = Some l -> on_heading l ->
  exists l',
    Game.rotate_left_input loops input g = Some (Game.with_mLander (Some l') g) /\
    on_heading l'.
Proof.
  intros Hn Hl Hh. unfold Game.rotate_left_input.
  destruct (IsRotateLeftActive input).
  - destruct Hh as [k [Hk Hr]].
    destruct (turn_of_heading k Hk) as [T _].
    apply (wrap_down_le 1 loops) in T; [|exact Hn].
    assert (E : Lander.RotateLeft loops (of_Z 2) l
                = Some (Lander.with_mRotation
                          (Float3 l.(mRotation).(at0) l.(mRotation).(at1)
                                  (heading (Nat.modulo (k + 1) 180))) l)).
    { unfold Lander.RotateLeft. rewrite Hr, T. reflexivity. }
    eexists. rewrite Hl. cbn [bind]. rewrite E. cbn [bind].
    split; [reflexivity|].
    exists (Nat.modulo (k + 1) 180). split; [|reflexivity].
    apply Nat.mod_upper_bound. discriminate.
  - exists l. split; [|exact Hh]. rewrite <- Hl. destruct g; reflexivity.
Qed.

Lemma rotate_right_input_total (loops : nat) (input : Input) (g : Game.t)
    (l : Lander) :
  (1 <= loops)%nat -> g.(Game.mLander) = Some l -> on_heading l ->
  exists l',
    Game.rotate_right_input loops input g = Some (Game.with_mLander (Some l') g) /\
    on_heading l'.
Proof.
  intros Hn Hl Hh. unfold Game.rotate_right_input.
  destruct (IsRotateRightActive input).
  - destruct Hh as [k [Hk Hr]].
    destruct (turn_of_heading k Hk) as [_ T].
    apply (wrap_up_le 1 loops) in T; [|exact Hn].
    assert (E : Lander.RotateRight loops (of_Z 2) l
                = Some (Lander.with_mRotation
                          (Float3 l.(mRotation).(at0) l.(mRotation).(at1)
                                  (heading (Nat.modulo (k + 179) 180))) l)).
    { unfold Lander.RotateRight. rewrite Hr, T. reflexivity. }
    eexists. rewrite Hl. cbn [bind]. rewrite E. cbn [bind].
    split; [reflexivity|].
    exists (Nat.modulo (k + 179) 180). split; [|reflexivity].
    apply Nat.mod_upper_bound. discriminate.
  - exists l. split; [|exact Hh]. rewrite <- Hl. destruct g; reflexivity.
Qed.

Lemma ProcessInput_total (loops : nat) (input : Input) (g : Game.t) (l : Lander) :
  (1 <= loops)%nat -> g.(Game.mLander) = Some l -> on_heading l ->
  exists g',
    Game.ProcessInput X loops input g = Some g' /\ g'.(Game.mLander) <> None.
Proof.
  intros Hn Hl Hh. unfold Game.ProcessInput.
  destruct (Game.mInputHandler g).
  2:{ exists g. split; [reflexivity|]. rewrite Hl. discriminate. }
  assert (Q : forall h : Game.t,
             h.(Game.mLander) <> None ->
             (if IsQuitActive input then Game.with_mIsRunning false h else h)
               .(Game.mLander) <> None).
  { intros h Hh'. destruct (IsQuitActive input); exact Hh'. }
  destruct (Game.mGameState g).
  - cbn [bind]. eexists. split; [reflexivity|]. apply Q.
    destruct (IsStartActive input); cbn [Game.mLander Game.with_mGameState];
      rewrite Hl; discriminate.
  - rewrite (thrust_input_total input g l Hl). cbn [bind].
    set (l1 := Lander.ApplyThrust (if IsThrustActive input then one else zero) l).
    assert (H1 : on_heading l1)
      by (apply (on_heading_same l); [apply ApplyThrust_mRotation | exact Hh]).
    destruct (rotate_left_input_total loops input
                (Game.with_mLander (Some l1) g) l1 Hn eq_refl H1) as [l2 [E2 H2]].
    rewrite E2. cbn [bind].
    destruct (rotate_right_input_total loops input
                (Game.with_mLander (Some l2) (Game.with_mLander (Some l1) g))
                l2 Hn eq_refl H2) as [l3 [E3 H3]].
    rewrite E3. cbn [bind].
    eexists. split; [reflexivity|]. apply Q. discriminate.
  - destruct (IsResetActive input).
    + destruct (Reset_result X g l Hl) as [h [E [_ [_ [_ [_ [El _]]]]]]].
      rewrite E. cbn [bind]. eexists. split; [reflexivity|]. apply Q.
      rewrite El. discriminate.
    + cbn [bind]. eexists. split; [reflexivity|]. apply Q. rewrite Hl. discriminate.
  - destruct (IsResetActive input).
    + destruct (Reset_result X g l Hl) as [h [E [_ [_ [_ [_ [El _]]]]]]].
      rewrite E. cbn [bind]. eexists. split; [reflexivity|]. apply Q.
      rewrite El. discriminate.
    + cbn [bind]. eexists. split; [reflexivity|]. apply Q. rewrite Hl. discriminate.
Qed.

(** X17.  One turn of the main loop of [Game::Run] goes through in every
    reachable state that has a lander, for all answers of the input handler
    and every tick count: [ProcessInput] and [Update] read no null pointer,
    and each of the two normalisation loops of the rotation commands ends
    within one turn.  The game still has its lander afterwards. *)
Theorem frame_goes_through (loops : nat) (input : Input) (currentTime : Z)
    (g : Game.t) :
  Game.reachable X g -> g.(Game.mLander) <> None -> (1 <= loops)%nat ->
  exists g',
    Game.frame X loops input currentTime g = Some g' /\
    g'.(Game.mLander) <> None.
Proof.
  intros Hr Hl Hn.
  destruct (Game.mLander g) as [l|] eqn:El; [clear Hl | congruence].
  pose proof (proj2 (on_heading_in_order g Hr) l El) as Hh.
  unfold Game.frame.
  destruct (ProcessInput_total loops input
              (Game.with_mLastFrameTime currentTime g) l Hn El Hh) as [g1 [E1 L1]].
  rewrite E1. cbn [bind].
  destruct (Game.Update X (Game.frame_deltaTime currentTime (Game.mLastFrameTime g)) g1)
    as [g2|] eqn:E2.
  - exists g2. split; [reflexivity|].
    destruct (Update_returns X _ _ _ E2) as [_ [_ [L2 [_ [_ [_ [_ [_ [_ N]]]]]]]]].
    rewrite L2.
    destruct (Game.mGameState g1) eqn:Hs;
      try (rewrite update_flying_not_flying; [exact L1 | rewrite Hs; discriminate]).
    destruct (Game.mLander g1) as [l1|] eqn:El1; [|congruence].
    destruct (update_flying_lander X g1 l1
                (Game.frame_deltaTime currentTime (Game.mLastFrameTime g)) Hs El1)
      as [F _].
    rewrite F. discriminate.
  - apply Update_None_iff in E2. destruct E2 as [_ E2]. congruence.
Qed.


End LanderFacts.

(** ** Difficulty, rendering mode and initialisation *)

Section Settings.

Variable X : Externals.

Lemma reset_lander_ApplyThrust (k : Game.t) (amount : float) (l : Lander) :
  Game.reset_lander X k (Lander.ApplyThrust amount l) = Game.reset_lander X k l.
Proof.
  unfold Game.reset_lander, Lander.ApplyThrust.
  destruct (mFuel l <=? zero)%f32, (Game.m3DMode k); reflexivity.
Qed.

(** X18.  [Game::SetDifficulty] fails exactly when the game has no engine
    or no lander.  Otherwise it stores the difficulty, gives the engine the
    gravity 1.0, 1.62 or 2.0 of that difficulty, and restarts the flight,
    also in the middle of one: the state is FLYING, score and clock are 0
    and the lander is the reset one, refuelled; the thrust command that
    precedes the reset makes no difference. *)
Theorem SetDifficulty_restarts (d : Difficulty) (g : Game.t) :
  (Game.SetDifficulty X d g = None <->
   g.(Game.mPhysics) = None \/ g.(Game.mLander) = None) /\
  forall g', Game.SetDifficulty X d g = Some g' ->
    g'.(Game.mDifficulty) = d /\
    option_map Physics.mGravity g'.(Game.mPhysics) = Some (gravity_of d) /\
    g'.(Game.mGameState) = FLYING /\
    g'.(Game.mScore) = zero /\
    g'.(Game.mElapsedTime) = zero /\
    g'.(Game.mLander) = option_map (Game.reset_lander X g) g.(Game.mLander).
Proof.
  split.
  - split.
    + intros H.
      destruct (Game.mPhysics g) as [p|] eqn:Hp; [|auto].
      destruct (Game.mLander g) as [l|] eqn:Hl; [|auto].
      exfalso. revert H. unfold Game.SetDifficulty.
      cbn [Game.mPhysics Game.with_mDifficulty]. rewrite Hp. cbn [bind].
      cbn [Game.mLander Game.with_mPhysics Game.with_mDifficulty].
      rewrite Hl. cbn [bind].
      intros H. apply Reset_None_iff in H. discriminate H.
    + intros H.
      destruct (Game.SetDifficulty X d g) as [g'|] eqn:E; [|reflexivity].
      destruct (SetDifficulty_fields X d g g' E) as [p [l [Hp [Hl _]]]].
      destruct H; congruence.
  - intros g' E.
    destruct (SetDifficulty_fields X d g g' E)
      as [p [l [Hp [Hl [[Hs [Hsc He]] [Hd [Hp' [Hl' _]]]]]]]].
    rewrite Hp', Hl', Hl, reset_lander_ApplyThrust. cbn [option_map].
    repeat split; assumption.
Qed.

(** X19.  Switching the rendering mode of a running game shuts it down and
    initialises it again.  The engine is a new one: its gravity is 1.62
    whatever the difficulty, which is kept; a request for 3D ends in 2D
    when the build has no OpenGL; with a working renderer the flight
    restarts, and with a failing one the game is left stopped, in its old
    state, with an engine that has neither lander nor terrain. *)
Theorem SetRenderingMode_reinitialises (use3D rendererOk : bool) (ticks : Z)
    (g : Game.t) :
  g.(Game.m3DMode) = negb use3D -> g.(Game.mIsRunning) = true ->
  exists g',
    Game.SetRenderingMode X use3D rendererOk ticks g = Some g' /\
    g'.(Game.m3DMode) = use3D && X.(USE_OPENGL) /\
    g'.(Game.mDifficulty) = g.(Game.mDifficulty) /\
    option_map Physics.mGravity g'.(Game.mPhysics) = Some (literal 162 100) /\
    g'.(Game.mIsRunning) = rendererOk /\
    if rendererOk then
      g'.(Game.mGameState) = FLYING /\ g'.(Game.mScore) = zero /\
      g'.(Game.mPhysics) = Some engine_registered
    else
      g'.(Game.mGameState) = g.(Game.mGameState) /\
      g'.(Game.mScore) = g.(Game.mScore) /\
      g'.(Game.mPhysics) = Some Physics.ctor /\
      g'.(Game.mLander) = Some Lander.ctor.
Proof.
  intros H3 Hr.
  destruct (Initialize_fields X rendererOk ticks
              (Game.Shutdown (Game.with_m3DMode use3D g)))
    as [h [E [_ [_ [E3 [_ [_ [Ed F]]]]]]]].
  exists h. split.
  - unfold Game.SetRenderingMode. rewrite H3.
    replace (Bool.eqb (negb use3D) use3D) with false by (destruct use3D; reflexivity).
    cbn [negb Game.mIsRunning Game.with_m3DMode]. rewrite Hr, E. reflexivity.
  - split; [exact E3|]. split; [exact Ed|].
    destruct rendererOk.
    + destruct F as [[Hs [Hsc _]] [Hrun [_ [_ Hp]]]]. rewrite Hp. auto 6.
    + destruct F as [[Hs [Hsc _]] [Hrun [Hl Hp]]]. rewrite Hp. auto 8.
Qed.

(** X20.  [Game::Initialize] always returns, and its answer is the answer
    of the renderer.  The game it leaves is in 3D mode only if it was
    before and the build has OpenGL, its window is 800 by 600, and its
    engine has the gravity 1.62.  On success the game runs, the flight has
    started and the engine knows lander and terrain; on failure state,
    score and running flag are the old ones and the engine knows
    neither. *)
Theorem Initialize_answers_renderer (rendererOk : bool) (ticks : Z) (g : Game.t) :
  exists h,
    Game.Initialize X rendererOk ticks g = Some (rendererOk, h) /\
    h.(Game.m3DMode) = g.(Game.m3DMode) && X.(USE_OPENGL) /\
    (h.(Game.mWindowWidth), h.(Game.mWindowHeight)) = (800%Z, 600%Z) /\
    option_map Physics.mGravity h.(Game.mPhysics) = Some (literal 162 100) /\
    if rendererOk then
      h.(Game.mIsRunning) = true /\ h.(Game.mGameState) = FLYING /\
      h.(Game.mLastFrameTime) = ticks /\
      h.(Game.mPhysics) = Some engine_registered /\
      option_map mPosition h.(Game.mLander) = Some (initial_position X h)
    else
      h.(Game.mIsRunning) = g.(Game.mIsRunning) /\
      h.(Game.mGameState) = g.(Game.mGameState) /\
      h.(Game.mScore) = g.(Game.mScore) /\
      h.(Game.mPhysics) = Some Physics.ctor.
Proof.
  destruct (Initialize_fields X rendererOk ticks g)
    as [h [E [_ [_ [E3 [Ew [Eh [_ F]]]]]]]].
  exists h. split; [exact E|]. split; [exact E3|].
  split; [rewrite Ew, Eh; reflexivity|].
  destruct rendererOk.
  - destruct F as [[Hs _] [Hrun [Ht [Hl Hp]]]]. rewrite Hp, Hl.
    split; [reflexivity|]. repeat split; try assumption.
    cbn [option_map]. f_equal.
    destruct (reset_lander_values X
                (Game.register_entities X (Game.create_components X g)) Lander.ctor)
      as [Hpos _].
    rewrite Hpos. unfold initial_position.
    destruct (create_components_fields X g) as [_ [_ [_ [_ [_ [_ [C3 [Cw Ch]]]]]]]].
    destruct (register_entities_fields X (Game.create_components X g))
      as [_ [_ [_ [_ [_ [_ [R3 [Rw Rh]]]]]]]].
    rewrite R3, Rw, Rh, C3, Cw, Ch, E3, Ew, Eh. reflexivity.
  - destruct F as [[Hs [Hsc _]] [Hrun [_ Hp]]]. rewrite Hp. auto 6.
Qed.

(** X21.  After [Game::Shutdown] the game has neither lander nor engine nor
    input handler: [Reset] and [SetDifficulty] fail on it, [ProcessInput]
    does nothing, and [Update] fails exactly when the flight was still on.
    A new [Initialize] is needed first. *)
Theorem calls_after_Shutdown (g : Game.t) (d : Difficulty) (loops : nat)
    (input : Input) (deltaTime : float) :
  Game.Reset X (Game.Shutdown g) = None /\
  Game.SetDifficulty X d (Game.Shutdown g) = None /\
  Game.ProcessInput X loops input (Game.Shutdown g) = Some (Game.Shutdown g) /\
  (Game.Update X deltaTime (Game.Shutdown g) = None <->
   g.(Game.mGameState) = FLYING).
Proof.
  split; [apply Reset_None_iff; reflexivity|].
  split; [reflexivity|]. split; [reflexivity|].
  split.
  - intros H. apply Update_None_iff in H. destruct H as [H _]. exact H.
  - intros H. apply Update_None_iff. split; [exact H | reflexivity].
Qed.

(** X22.  In a game drag never acts and the 3D code of the engine never
    runs: for the engine of every reachable state, [Physics::ApplyDrag]
    returns the lander as it is, and [Physics::Update] is
    [Physics::Update2D], also when the game is in 3D mode. *)
Theorem drag_never_acts (g : Game.t) (p : Physics.t) (lander : option Lander)
    (terrain : option Terrain) (deltaTime : float) :
  Game.reachable X g -> g.(Game.mPhysics) = Some p ->
  Physics.ApplyDrag p lander deltaTime = lander /\
  Physics.Update X p lander terrain deltaTime
  = Physics.Update2D X p lander terrain deltaTime.
Proof.
  intros Hr Hp.
  destruct (proj1 (in_order_reachable X (fun _ => True) I
                     (fun _ _ _ => I) (fun _ _ _ _ => I) (fun _ _ _ _ _ => I)
                     (fun _ _ _ _ _ => I) (fun _ _ _ => I)
                     (fun _ _ _ _ _ _ _ _ => I) g Hr) p Hp) as [d' [r ->]].
  split; [|reflexivity].
  unfold Physics.ApplyDrag. destruct lander as [l|]; [|reflexivity].
  cbn [Physics.mAirDensity].
  replace (zero <=? zero)%f32 with true by reflexivity.
  rewrite orb_true_r. reflexivity.
Qed.

(** X23.  A landed or crashed game waits for a reset: a turn of the main
    loop in which the input handler does not answer "reset" goes through
    and leaves the state, the score, the clock and the lander as they are,
    whatever its other answers are and however much time passes. *)
Theorem landed_game_waits (loops : nat) (input : Input) (currentTime : Z)
    (g : Game.t) :
  g.(Game.mGameState) = LANDED \/ g.(Game.mGameState) = CRASHED ->
  input.(IsResetActive) = false ->
  exists g',
    Game.frame X loops input currentTime g = Some g' /\
    g'.(Game.mGameState) = g.(Game.mGameState) /\
    g'.(Game.mScore) = g.(Game.mScore) /\
    g'.(Game.mElapsedTime) = g.(Game.mElapsedTime) /\
    g'.(Game.mLander) = g.(Game.mLander).
Proof.
  intros Hs Hk. unfold Game.frame.
  set (g0 := Game.with_mLastFrameTime currentTime g).
  assert (E1 : exists g1,
             Game.ProcessInput X loops input g0 = Some g1 /\
             g1.(Game.mGameState) = g.(Game.mGameState) /\
             g1.(Game.mScore) = g.(Game.mScore) /\
             g1.(Game.mElapsedTime) = g.(Game.mElapsedTime) /\
             g1.(Game.mLander) = g.(Game.mLander)).
  { unfold Game.ProcessInput.
    change (Game.mInputHandler g0) with (Game.mInputHandler g).
    change (Game.mGameState g0) with (Game.mGameState g).
    destruct (Game.mInputHandler g); [|exists g0; auto 6].
    rewrite Hk.
    assert (Hm : forall (A : Type) (a b c : A),
               match Game.mGameState g with
               | READY => a | FLYING => b | LANDED => c | CRASHED => c
               end = c)
      by (intros; destruct Hs as [-> | ->]; reflexivity).
    rewrite Hm. cbn [bind].
    eexists; split; [reflexivity|].
    destruct (IsQuitActive input); auto 6. }
  destruct E1 as [g1 [E1 [S1 [S2 [S3 S4]]]]].
  rewrite E1. cbn [bind].
  assert (N : Game.mGameState g1 <> FLYING).
  { rewrite S1. destruct Hs as [-> | ->]; discriminate. }
  destruct (Update_after_flying X g1
              (Game.frame_deltaTime currentTime (Game.mLastFrameTime g)))
    as [g2 [E2 [U1 [U2 [U3 [_ [_ U5]]]]]]].
  { left. rewrite (update_flying_not_flying X g1 _ N). exact N. }
  exists g2. split; [exact E2|].
  rewrite (update_flying_not_flying X g1 _ N) in U1, U2, U3, U5.
  rewrite U1, U2, U3, U5. auto.
Qed.

End Settings.
(** ** The time step of the main loop *)

Section TimeStep.

Local Open Scope Z_scope.

(** A number that is 0, positive or plus infinity: not a NaN and not
    negative. *)
Definition not_negative (x : float) : Prop :=
  match x with
  | S754_zero s | S754_infinity s | S754_finite s _ _ => s = false
  | S754_nan => False
  end.

Lemma shr_fexp_not_negative (m e : Z) (l : location) :
  0 <= m -> 0 <= shr_m (fst (shr_fexp prec emax m e l)).
Proof.
  intros Hm. unfold shr_fexp.
  assert (H0 : 0 <= shr_m (shr_record_of_loc m l)).
  { destruct l as [|[ | | ]]; exact Hm. }
  destruct (shr_spec (shr_record_of_loc m l) e
              (fexp prec emax (Zdigits2 m + e) - e) H0) as [S1 _].
  rewrite S1. apply Z.div_pos; [exact H0|]. apply Z.pow_pos_nonneg; lia.
Qed.

(** Rounding a mantissa that is not negative gives no NaN. *)
Lemma binary_round_aux_not_negative (m e : Z) (l : location) :
  0 <= m -> not_negative (binary_round_aux prec emax false m e l).
Proof.
  intros Hm. unfold binary_round_aux.
  pose proof (shr_fexp_not_negative m e l Hm) as H1.
  destruct (shr_fexp prec emax m e l) as [mrs' e']. cbn [fst] in H1.
  pose proof (round_nearest_even_bounds (shr_m mrs') (loc_of_shr_record mrs')) as Hr.
  pose proof (shr_fexp_not_negative
                (round_nearest_even (shr_m mrs') (loc_of_shr_record mrs')) e'
                loc_Exact) as H2.
  destruct (shr_fexp prec emax _ e' loc_Exact) as [mrs'' e'']. cbn [fst] in H2.
  destruct (shr_m mrs'') as [|q|q].
  - reflexivity.
  - destruct (e'' <=? emax - prec); reflexivity.
  - assert (0 <= Z.neg q) by (apply H2; lia). lia.
Qed.

Lemma of_Z_not_negative (n : Z) : 0 <= n -> not_negative (of_Z n).
Proof.
  intros Hn. unfold of_Z, binary_normalize.
  destruct n as [|p|p]; [reflexivity| |lia].
  unfold binary_round.
  destruct (shl_align p 0 _) as [mz ez].
  apply binary_round_aux_not_negative. lia.
Qed.

Lemma div_not_negative (x : float) (my : positive) (ey : Z) :
  not_negative x -> not_negative (div x (S754_finite false my ey)).
Proof.
  destruct x as [s|s| |s mx ex]; cbn [not_negative]; intros H;
    try contradiction; subst s; try reflexivity.
  unfold div, SFdiv, SFdiv_core_binary. cbn [xorb].
  set (m' := match _ with 0 => _ | Z.pos _ => _ | Z.neg _ => _ end).
  assert (Hm' : 0 <= m').
  { subst m'.
    destruct (ex - ey - _) as [|s|s]; [lia| |lia].
    apply Z.shiftl_nonneg. lia. }
  pose proof (Z_div_mod m' (Z.pos my) ltac:(lia)) as Hd.
  destruct (Z.div_eucl m' (Z.pos my)) as [q r].
  apply binary_round_aux_not_negative.
  destruct Hd as [Hq Hr]. nia.
Qed.

Lemma not_negative_leb (x : float) : not_negative x -> (zero <=? x)%f32 = true.
Proof.
  destruct x as [s|s| |s m e]; cbn [not_negative]; intros H;
    try contradiction; subst s; reflexivity.
Qed.

(** Among the numbers that are not negative, what is not above a positive
    finite number is below it or equal to it. *)
Lemma not_above_leb (x : float) (m : positive) (e : Z) :
  not_negative x ->
  (x >? S754_finite false m e)%f32 = false ->
  (x <=? S754_finite false m e)%f32 = true.
Proof.
  destruct x as [s|s| |s mx ex]; cbn [not_negative]; intros H;
    try contradiction; subst s; try reflexivity; try discriminate.
  unfold gtb, leb, SFltb, SFleb, SFcompare.
  rewrite (Z.compare_antisym e ex).
  destruct (e ?= ex); cbn [CompOpp]; try reflexivity; try discriminate.
  change (Pos.compare_cont Eq mx m) with (Pos.compare mx m).
  change (Pos.compare_cont Eq m mx) with (Pos.compare m mx).
  rewrite (Pos.compare_antisym m mx).
  destruct (m ?= mx)%positive; cbn [CompOpp]; try reflexivity; discriminate.
Qed.

(** X13.  The time step that [Game::Run] hands to [ProcessInput] and
    [Update] lies between 0 and 0.1 and is a number, whatever the two tick
    counts are, also when the tick counter has wrapped around since the last
    frame. *)
Theorem frame_deltaTime_bounds (currentTime lastFrameTime : Z) :
  (zero <=? Game.frame_deltaTime currentTime lastFrameTime)%f32 = true /\
  (Game.frame_deltaTime currentTime lastFrameTime <=? literal 1 10)%f32 = true.
Proof.
  unfold Game.frame_deltaTime.
  set (n := (currentTime - lastFrameTime) mod 2 ^ 32).
  assert (Hn : 0 <= n) by (apply Z.mod_pos_bound; lia).
  assert (H : not_negative (of_Z n / of_Z 1000)%f32).
  { assert (E : of_Z 1000 = S754_finite false 16384000 (-14))
      by (vm_compute; reflexivity).
    rewrite E. apply div_not_negative, of_Z_not_negative, Hn. }
  assert (E : literal 1 10 = S754_finite false 13421773 (-27))
    by (vm_compute; reflexivity).
  rewrite E.
  destruct (of_Z n / of_Z 1000 >? S754_finite false 13421773 (-27))%f32 eqn:Hc.
  - split; reflexivity.
  - split; [apply not_negative_leb, H|].
    apply not_above_leb; assumption.
Qed.

End TimeStep.

(** ** The further properties on a flight over flat ground *)

Definition rotate_left_held : Input := mkInput false false true false false false.

(** The game one frame into its flight, and after a turn to the left. *)
Definition game_flown : Game.t :=
  state_after [Game.CallInitialize true 0; Game.CallUpdate (literal 1 10)].

Definition game_turned : Game.t :=
  state_after [Game.CallInitialize true 0; Game.CallProcessInput 1 rotate_left_held].

Definition lander_stepped : Lander :=
  match Physics.Update flat_ground physics_ready (Some lander_aloft)
          (Some terrain_flat) (literal 1 10) with
  | Some l => l
  | None => lander_aloft
  end.

(** A lander that faces 2 to the power 40 degrees, where a binary32 number
    no longer changes when 360 is taken away, and one that faces as far the
    other way. *)
Definition lander_spun : Lander :=
  Lander.SetRotation zero zero (of_Z (2 ^ 40)) Lander.ctor.

Definition lander_spun_back : Lander :=
  Lander.SetRotation zero zero (of_Z (- 2 ^ 40)) Lander.ctor.

Lemma Update_elapsed_time_witness :
  game_flown.(Game.mElapsedTime)
  = match game_started.(Game.mGameState) with
    | FLYING => (game_started.(Game.mElapsedTime) + literal 1 10)%f32
    | _ => game_started.(Game.mElapsedTime)
    end.
Proof.
  apply (Update_elapsed_time flat_ground (literal 1 10) game_started game_flown).
  vm_compute. reflexivity.
Defined.

Example one_frame_on_the_clock : game_flown.(Game.mElapsedTime) = literal 1 10.
Proof. vm_compute. reflexivity. Qed.

Lemma Update_outside_flight_witness :
  exists g',
    Game.Update flat_ground (literal 1 10) game_crashed = Some g' /\
    g'.(Game.mGameState) = game_crashed.(Game.mGameState) /\
    g'.(Game.mScore) = game_crashed.(Game.mScore) /\
    g'.(Game.mElapsedTime) = game_crashed.(Game.mElapsedTime) /\
    g'.(Game.mLander) = game_crashed.(Game.mLander) /\
    g'.(Game.mPhysics) = game_crashed.(Game.mPhysics) /\
    g'.(Game.mTerrain)
    = option_map (flat_ground.(Terrain_Update) (literal 1 10))
                 game_crashed.(Game.mTerrain).
Proof.
  apply (Update_outside_flight flat_ground (literal 1 10) game_crashed).
  vm_compute. discriminate.
Defined.

Lemma state_machine_witness :
  transition game_started.(Game.mGameState) game_flown.(Game.mGameState) = true.
Proof.
  apply (state_machine flat_ground (Game.CallUpdate (literal 1 10))
           game_started game_flown).
  vm_compute. reflexivity.
Defined.

Lemma lander_flags_recorded_witness :
  ((lander_of game_crashed).(mLanded) = true ->
   game_crashed.(Game.mGameState) = LANDED /\
   game_crashed.(Game.mScore)
   = ((lander_of game_crashed).(mFuel) / (lander_of game_crashed).(mMaxFuel)
      * of_Z 1000)%f32) /\
  ((lander_of game_crashed).(mLanded) = false ->
   (lander_of game_crashed).(mCrashed) = true ->
   game_crashed.(Game.mGameState) = CRASHED /\ game_crashed.(Game.mScore) = zero).
Proof.
  apply (lander_flags_recorded flat_ground game_crashed (lander_of game_crashed)).
  - apply reachable_state_after. vm_compute. discriminate.
  - vm_compute. reflexivity.
Defined.

Lemma score_only_when_landed_witness :
  (game_crashed.(Game.mGameState) <> LANDED -> game_crashed.(Game.mScore) = zero) /\
  (game_crashed.(Game.mGameState) = READY -> game_crashed.(Game.mElapsedTime) = zero).
Proof.
  apply (score_only_when_landed flat_ground game_crashed).
  apply reachable_state_after. vm_compute. discriminate.
Defined.

Lemma engine_configuration_witness :
  physics_ready.(Physics.m3DMode) = false /\
  physics_ready.(Physics.mAirDensity) = zero /\
  physics_ready.(Physics.mTimeScale) = one /\
  physics_ready.(Physics.mLander) = physics_ready.(Physics.mTerrain) /\
  exists d, physics_ready.(Physics.mGravity) = gravity_of d.
Proof.
  apply (engine_configuration flat_ground game_started physics_ready).
  - apply reachable_state_after. vm_compute. discriminate.
  - vm_compute. reflexivity.
Defined.

Lemma engine_writes_motion_only_witness :
  rest lander_stepped = rest lander_aloft /\ rest lander_aloft = rest lander_aloft.
Proof.
  apply (engine_writes_motion_only flat_ground physics_ready lander_aloft
           lander_stepped lander_aloft (Some terrain_flat) (literal 1 10));
    vm_compute; reflexivity.
Defined.

Lemma engine_without_entities_idle_witness :
  Physics.Update flat_ground Physics.ctor (Some lander_low) (Some terrain_flat)
    (literal 1 10) = Some lander_low /\
  Physics.CheckCollisions flat_ground Physics.ctor (Some lander_low)
    (Some terrain_flat) = (false, Some lander_low).
Proof.
  apply (engine_without_entities_idle flat_ground Physics.ctor (Some lander_low)
           (Some terrain_flat) (literal 1 10)).
  left. reflexivity.
Defined.

Lemma lander_constants_witness :
  constants (lander_of game_thrust) = constants Lander.ctor.
Proof.
  apply (lander_constants flat_ground game_thrust (lander_of game_thrust)).
  - apply reachable_state_after. vm_compute. discriminate.
  - vm_compute. reflexivity.
Defined.

Lemma lander_never_moves_sideways_witness :
  (lander_of game_thrust).(mVelocity).(at0) = zero /\
  (lander_of game_thrust).(mVelocity).(at2) = zero.
Proof.
  apply (lander_never_moves_sideways flat_ground game_thrust (lander_of game_thrust)).
  - apply reachable_state_after. vm_compute. discriminate.
  - vm_compute. reflexivity.
Defined.

Lemma thrust_all_or_nothing_witness :
  ((lander_of game_thrust).(mThrustLevel) = zero \/
   (lander_of game_thrust).(mThrustLevel) = one) /\
  ((lander_of game_thrust).(mThrustActive) = true ->
   (lander_of game_thrust).(mThrustLevel) = one /\
   ((lander_of game_thrust).(mFuel) >? zero)%f32 = true).
Proof.
  apply (thrust_all_or_nothing flat_ground game_thrust (lander_of game_thrust)).
  - apply reachable_state_after. vm_compute. discriminate.
  - vm_compute. reflexivity.
Defined.

Example thrust_is_on_in_game_thrust :
  (lander_of game_thrust).(mThrustActive) = true.
Proof. vm_compute. reflexivity. Qed.

Lemma rotation_loops_range_witness :
  let l1 := Lander.SetRotation zero zero (of_Z 2) Lander.ctor in
  let l2 := Lander.SetRotation zero zero (of_Z 358) Lander.ctor in
  let l3 := Lander.SetRotation zero zero (of_Z (- 2 ^ 40)) Lander.ctor in
  ((of_Z 360 <=? l1.(mRotation).(at2))%f32 = false /\
   l1 = Lander.with_mRotation
          (Float3 Lander.ctor.(mRotation).(at0) Lander.ctor.(mRotation).(at1)
                  l1.(mRotation).(at2)) Lander.ctor) /\
  ((l2.(mRotation).(at2) <? zero)%f32 = false /\
   l2 = Lander.with_mRotation
          (Float3 Lander.ctor.(mRotation).(at0) Lander.ctor.(mRotation).(at1)
                  l2.(mRotation).(at2)) Lander.ctor) /\
  ((of_Z 360 <=? l3.(mRotation).(at2))%f32 = false /\
   l3 = Lander.with_mRotation
          (Float3 lander_spun_back.(mRotation).(at0)
                  lander_spun_back.(mRotation).(at1)
                  l3.(mRotation).(at2)) lander_spun_back).
Proof.
  split; [|split].
  - apply (proj1 (rotation_loops_range 1 (of_Z 2) Lander.ctor
                    (Lander.SetRotation zero zero (of_Z 2) Lander.ctor))).
    vm_compute. reflexivity.
  - apply (proj2 (rotation_loops_range 1 (of_Z 2) Lander.ctor
                    (Lander.SetRotation zero zero (of_Z 358) Lander.ctor))).
    vm_compute. reflexivity.
  - apply (proj1 (rotation_loops_range 0 (of_Z 2) lander_spun_back
                    (Lander.SetRotation zero zero (of_Z (- 2 ^ 40)) Lander.ctor))).
    vm_compute. reflexivity.
Defined.

(** On the lander that faces far the other way [RotateLeft] returns at
    once, while [RotateRight] never does. *)
Example RotateLeft_returns_where_RotateRight_hangs :
  Lander.RotateLeft 0 (of_Z 2) lander_spun_back
  = Some (Lander.SetRotation zero zero (of_Z (- 2 ^ 40)) Lander.ctor) /\
  Lander.RotateRight 1000 (of_Z 2) lander_spun_back = None.
Proof. vm_compute. split; reflexivity. Qed.

Lemma rotation_loops_may_hang_witness :
  Lander.RotateLeft 1000 (of_Z 2) lander_spun = None /\
  Lander.RotateRight 1000 (of_Z 2) lander_spun_back = None.
Proof.
  apply (rotation_loops_may_hang 1000 (of_Z 2) lander_spun lander_spun_back);
    vm_compute; reflexivity.
Defined.

Lemma heading_is_even_angle_witness :
  exists k, (k < 180)%nat /\
            (lander_of game_turned).(mRotation).(at2) = of_Z (2 * Z.of_nat k).
Proof.
  apply (heading_is_even_angle flat_ground game_turned (lander_of game_turned)).
  - apply reachable_state_after. vm_compute. discriminate.
  - vm_compute. reflexivity.
Defined.

Example game_turned_faces_2 :
  (lander_of game_turned).(mRotation) = Float3 zero zero (of_Z 2).
Proof. vm_compute. reflexivity. Qed.

Lemma frame_goes_through_witness :
  exists g',
    Game.frame flat_ground 1 thrust_held 16 game_started = Some g' /\
    g'.(Game.mLander) <> None.
Proof.
  apply (frame_goes_through flat_ground 1 thrust_held 16 game_started).
  - apply reachable_state_after. vm_compute. discriminate.
  - vm_compute. discriminate.
  - apply le_n.
Defined.

Definition game_hard : Game.t :=
  state_after [Game.CallInitialize true 0;
               Game.CallProcessInput 1 thrust_held;
               Game.CallUpdate (literal 1 10);
               Game.CallSetDifficulty HARD].

Lemma SetDifficulty_restarts_witness :
  game_hard.(Game.mDifficulty) = HARD /\
  option_map Physics.mGravity game_hard.(Game.mPhysics) = Some (gravity_of HARD) /\
  game_hard.(Game.mGameState) = FLYING /\
  game_hard.(Game.mScore) = zero /\
  game_hard.(Game.mElapsedTime) = zero /\
  game_hard.(Game.mLander)
  = option_map (Game.reset_lander flat_ground game_thrust) game_thrust.(Game.mLander).
Proof.
  apply (proj2 (SetDifficulty_restarts flat_ground HARD game_thrust) game_hard).
  vm_compute. reflexivity.
Defined.

Example hard_flight_is_refuelled :
  (lander_of game_thrust).(mFuel) = of_Z 999 /\
  (lander_of game_hard).(mFuel) = of_Z 1000 /\
  option_map Physics.mGravity game_hard.(Game.mPhysics) = Some (of_Z 2).
Proof. vm_compute. repeat split; reflexivity. Qed.

Lemma SetRenderingMode_reinitialises_witness :
  exists g',
    Game.SetRenderingMode flat_ground true true 0 game_started = Some g' /\
    g'.(Game.m3DMode) = true && flat_ground.(USE_OPENGL) /\
    g'.(Game.mDifficulty) = game_started.(Game.mDifficulty) /\
    option_map Physics.mGravity g'.(Game.mPhysics) = Some (literal 162 100) /\
    g'.(Game.mIsRunning) = true /\
    g'.(Game.mGameState) = FLYING /\ g'.(Game.mScore) = zero /\
    g'.(Game.mPhysics) = Some (engine_registered).
Proof.
  apply (SetRenderingMode_reinitialises flat_ground true true 0 game_started);
    vm_compute; reflexivity.
Defined.

Lemma drag_never_acts_witness :
  Physics.ApplyDrag physics_ready (Some lander_aloft) (literal 1 10)
  = Some lander_aloft /\
  Physics.Update flat_ground physics_ready (Some lander_aloft) (Some terrain_flat)
    (literal 1 10)
  = Physics.Update2D flat_ground physics_ready (Some lander_aloft)
      (Some terrain_flat) (literal 1 10).
Proof.
  apply (drag_never_acts flat_ground game_started physics_ready (Some lander_aloft)
           (Some terrain_flat) (literal 1 10)).
  - apply reachable_state_after. vm_compute. discriminate.
  - vm_compute. reflexivity.
Defined.

Lemma landed_game_waits_witness :
  exists g',
    Game.frame flat_ground 1 thrust_held 16 game_crashed = Some g' /\
    g'.(Game.mGameState) = game_crashed.(Game.mGameState) /\
    g'.(Game.mScore) = game_crashed.(Game.mScore) /\
    g'.(Game.mElapsedTime) = game_crashed.(Game.mElapsedTime) /\
    g'.(Game.mLander) = game_crashed.(Game.mLander).
Proof.
  apply (landed_game_waits flat_ground 1 thrust_held 16 game_crashed).
  - right. vm_compute. reflexivity.
  - reflexivity.
Defined.

(** ** More on the methods of the game *)

Section GameTotal.

Variable X : Externals.

(** Lander and engine are created together and destroyed together. *)
Definition equipped (g : Game.t) : Prop :=
  g.(Game.mLander) <> None -> g.(Game.mPhysics) <> None.

Lemma effect_equipped (g h : Game.t) : effect X g h -> equipped g -> equipped h.
Proof.
  unfold equipped. intros H Hg.
  destruct H as [[_ [El Ep]]|_ El _|_ _ Ep|k _ _ _ Ep|l _ _ Hl _ Ep|
                 d p l k _ _ _ _ _ Ep|_ _ _ _ _ El Ep|
                 loops l l' _ _ Hl _ _ Ep|deltaTime l _ Hl _ Ep _ _ _];
    rewrite ?Ep, ?El; try discriminate; try exact Hg; try congruence;
    intros _; apply Hg; rewrite Hl; discriminate.
Qed.

Lemma equipped_reachable (g : Game.t) : Game.reachable X g -> equipped g.
Proof.
  induction 1 as [|c g g' _ IH E].
  - intros H. elim H. reflexivity.
  - apply (effect_equipped g g' (exec_effect X c g g' E) IH).
Qed.

(** A call that allows each normalisation loop of the rotations a turn. *)
Definition one_turn (c : Game.call) : Prop :=
  match c with
  | Game.CallProcessInput loops _ => (1 <= loops)%nat
  | _ => True
  end.

Lemma SetDifficulty_total (d : Difficulty) (g : Game.t) :
  g.(Game.mLander) <> None -> g.(Game.mPhysics) <> None ->
  exists g', Game.SetDifficulty X d g = Some g'.
Proof.
  intros Hl Hp.
  destruct (Game.SetDifficulty X d g) as [g'|] eqn:E; [exists g'; reflexivity|].
  exfalso. revert E. unfold Game.SetDifficulty.
  cbn [Game.mPhysics Game.with_mDifficulty].
  destruct (Game.mPhysics g) as [p|]; [|congruence]. cbn [bind].
  cbn [Game.mLander Game.with_mPhysics Game.with_mDifficulty].
  destruct (Game.mLander g) as [l|]; [|congruence]. cbn [bind].
  intros E. apply Reset_None_iff in E. discriminate E.
Qed.

Lemma SetRenderingMode_total (use3D rendererOk : bool) (ticks : Z) (g : Game.t) :
  exists g', Game.SetRenderingMode X use3D rendererOk ticks g = Some g'.
Proof.
  unfold Game.SetRenderingMode.
  destruct (negb (Bool.eqb (Game.m3DMode g) use3D)); [|eexists; reflexivity].
  cbn [Game.mIsRunning Game.with_m3DMode].
  destruct (Game.mIsRunning g); [|eexists; reflexivity].
  destruct (Initialize_fields X rendererOk ticks
              (Game.Shutdown (Game.with_m3DMode use3D g))) as [h [E _]].
  rewrite E. eexists; reflexivity.
Qed.

(** X24.  Once a game has its lander, that is after an [Initialize]
    and before the next [Shutdown], no method reads a null pointer or
    hangs: in every reachable state that has a lander, every call has a
    defined result, the rotation loops being allowed one turn each. *)
Theorem initialised_game_never_fails (c : Game.call) (g : Game.t) :
  Game.reachable X g -> g.(Game.mLander) <> None -> one_turn c ->
  exists g', Game.exec X c g = Some g'.
Proof.
  intros Hr Hl Hc.
  pose proof (equipped_reachable g Hr Hl) as Hp.
  assert (HR : exists g', Game.Reset X g = Some g').
  { destruct (Game.Reset X g) as [g'|] eqn:E; [exists g'; reflexivity|].
    apply Reset_None_iff in E. contradiction. }
  destruct c; cbn [Game.exec].
  - destruct (Initialize_fields X rendererOk ticks g) as [h [E _]].
    rewrite E. eexists; reflexivity.
  - eexists; reflexivity.
  - exact HR.
  - apply SetDifficulty_total; assumption.
  - apply SetRenderingMode_total.
  - destruct (Game.mLander g) as [l|] eqn:El; [|congruence].
    destruct (ProcessInput_total X loops input g l Hc El
                (proj2 (on_heading_in_order X g Hr) l El)) as [g' [E _]].
    exists g'. exact E.
  - destruct (Game.Update X deltaTime g) as [g'|] eqn:E; [exists g'; reflexivity|].
    apply Update_None_iff in E. destruct E as [_ E]. contradiction.
  - destruct keyCode; cbn [Game.OnKeyDown];
      try exact HR; try (eexists; reflexivity);
      try (apply SetDifficulty_total; assumption).
    apply SetRenderingMode_total.
Qed.

(** The lander that is still flying after the first block of
    [Game::Update] has none of its flags set. *)
Lemma update_flying_still_flying (deltaTime : float) (g : Game.t) (l : Lander) :
  (Game.update_flying X deltaTime g).(Game.mGameState) = FLYING ->
  (Game.update_flying X deltaTime g).(Game.mLander) = Some l ->
  l.(mLanded) = false /\ l.(mCrashed) = false.
Proof.
  intros Hs Hl.
  destruct (Game.mGameState g) eqn:Gs;
    try (rewrite update_flying_not_flying in Hs; [congruence | rewrite Gs; discriminate]).
  destruct (Game.mLander g) as [l0|] eqn:Gl.
  - destruct (update_flying_lander X g l0 deltaTime Gs Gl)
      as [El [_ [_ [_ [_ [HL [HC _]]]]]]].
    rewrite El in Hl. apply Some_inj in Hl. subst l.
    destruct (mLanded (inspected X g l0 deltaTime)) eqn:FL.
    + destruct (HL eq_refl) as [S _]. congruence.
    + destruct (mCrashed (inspected X g l0 deltaTime)) eqn:FC; [|auto].
      destruct (HC eq_refl eq_refl) as [S _]. congruence.
  - destruct (update_flying_no_lander X g deltaTime Gs Gl) as [_ N]. congruence.
Qed.

(** X25.  The fall timer of [Game::Update] follows the state: when
    [Update] returns, the timer runs exactly if the state is FLYING.  The
    lander of a game that is still FLYING then has neither flag set, so the
    branch of the timer block that reports the end of the fall, inside the
    test for FLYING, is never taken: the first block of [Update] has already
    left the FLYING state for a lander that has landed or crashed. *)
Theorem fall_timer_tracks_flight (deltaTime : float) (g g' : Game.t) :
  Game.Update X deltaTime g = Some g' ->
  g'.(Game.fallTimerStarted)
  = match g'.(Game.mGameState) with FLYING => true | _ => false end /\
  (g'.(Game.mGameState) = FLYING ->
   exists l, g'.(Game.mLander) = Some l /\ Physics.grounded l = false).
Proof.
  unfold Game.Update.
  pose proof (update_flying_still_flying deltaTime g) as F.
  revert F. generalize (Game.update_flying X deltaTime g). intros h F H.
  apply bind_Some in H. destruct H as [k [E H]].
  apply Some_inj in H. subst g'.
  cbn [Game.fallTimerStarted Game.mGameState Game.mLander Game.with_mTerrain].
  unfold Game.update_fall_timer in E.
  destruct (Game.mGameState h) eqn:Hs.
  - apply Some_inj in E. subst k.
    cbn [Game.fallTimerStarted Game.mGameState Game.with_fallTimer].
    rewrite Hs. split; [reflexivity|discriminate].
  - apply bind_Some in E. destruct E as [l [El E]].
    apply Some_inj in E. subst k.
    assert (Hl : Game.mLander h = Some l).
    { destruct (negb (Game.fallTimerStarted h)); exact El. }
    destruct (F l eq_refl Hl) as [FL FC].
    rewrite FL, FC. cbn [orb].
    destruct (Game.fallTimerStarted h) eqn:Ft; cbn [negb];
      cbn [Game.fallTimerStarted Game.mGameState Game.mLander Game.with_fallTimer];
      rewrite Hs, ?Ft; (split; [reflexivity|]); intros _; exists l;
      unfold Physics.grounded; rewrite FL, FC; auto.
  - apply Some_inj in E. subst k.
    cbn [Game.fallTimerStarted Game.mGameState Game.with_fallTimer].
    rewrite Hs. split; [reflexivity|discriminate].
  - apply Some_inj in E. subst k.
    cbn [Game.fallTimerStarted Game.mGameState Game.with_fallTimer].
    rewrite Hs. split; [reflexivity|discriminate].
Qed.

(** The members that the commands of [ProcessInput] leave alone. *)
Definition flight_data (l : Lander) :=
  (l.(mPosition), l.(mVelocity), l.(mFuel), (l.(mLanded), l.(mCrashed))).

Lemma flight_data_ApplyThrust (amount : float) (l : Lander) :
  flight_data (Lander.ApplyThrust amount l) = flight_data l.
Proof. unfold Lander.ApplyThrust. destruct (mFuel l <=? zero)%f32; reflexivity. Qed.

Lemma ApplyThrust_key (held : bool) (l : Lander) :
  (zero <=? l.(mFuel))%f32 = true ->
  let l' := Lander.ApplyThrust (if held then one else zero) l in
  l'.(mThrustActive) = held && (l.(mFuel) >? zero)%f32 /\
  l'.(mThrustLevel) = if l'.(mThrustActive) then one else zero.
Proof.
  intros Hf. cbv zeta. unfold Lander.ApplyThrust.
  destruct (mFuel l <=? zero)%f32 eqn:E.
  - cbn [mThrustActive mThrustLevel Lander.with_thrust].
    assert (G : (mFuel l >? zero)%f32 = false).
    { destruct (mFuel l >? zero)%f32 eqn:G; [|reflexivity].
      apply (leb_zero_false_iff _ (leb_zero_not_nan _ Hf)) in G. congruence. }
    rewrite G, andb_false_r. auto.
  - rewrite (positive_when_not_leb _ Hf E), andb_true_r.
    destruct held; cbn [mThrustActive mThrustLevel Lander.with_thrust]; auto.
Qed.

(** X26.  In flight the thrust follows the key: after [ProcessInput] in
    the state FLYING of a reachable game, the thrust of the lander is active
    exactly if the input handler reports thrust and there is fuel left, its
    level is 1 if it is active and 0 otherwise, and position, velocity, fuel
    and flags of the lander are the old ones; only the thrust members and
    the third rotation angle can have changed. *)
Theorem thrust_follows_key (loops : nat) (input : Input) (g g' : Game.t)
    (l : Lander) :
  Game.reachable X g ->
  g.(Game.mGameState) = FLYING -> g.(Game.mInputHandler) = true ->
  g.(Game.mLander) = Some l ->
  Game.ProcessInput X loops input g = Some g' ->
  exists l',
    g'.(Game.mLander) = Some l' /\
    l'.(mThrustActive) = input.(IsThrustActive) && (l.(mFuel) >? zero)%f32 /\
    l'.(mThrustLevel) = (if l'.(mThrustActive) then one else zero) /\
    flight_data l' = flight_data l.
Proof.
  intros Hr Hs Hh Hl H.
  destruct (proj2 (fuelled_reachable X g Hr) l Hl) as [_ [_ [Hf _]]].
  unfold Game.ProcessInput in H. rewrite Hh, Hs in H.
  apply bind_Some in H. destruct H as [h [E H]].
  apply bind_Some in E. destruct E as [g1 [E1 E]].
  apply bind_Some in E. destruct E as [g2 [E2 E3]].
  destruct (thrust_input_fields _ _ _ E1) as [l0 [Hl0 ->]].
  rewrite Hl in Hl0. apply Some_inj in Hl0. subst l0.
  set (l1 := Lander.ApplyThrust (if IsThrustActive input then one else zero) l) in *.
  destruct (ApplyThrust_key (IsThrustActive input) l Hf) as [A1 A2].
  fold l1 in A1, A2.
  pose proof (flight_data_ApplyThrust (if IsThrustActive input then one else zero) l)
    as A3.
  fold l1 in A3.
  assert (S2 : exists l2, Game.mLander g2 = Some l2 /\
                          mThrustActive l2 = mThrustActive l1 /\
                          mThrustLevel l2 = mThrustLevel l1 /\
                          flight_data l2 = flight_data l1).
  { destruct (rotate_left_input_fields _ _ _ _ E2) as [[_ ->]|[a [b [_ [Ha [R ->]]]]]].
    - exists l1. auto.
    - cbn [Game.mLander Game.with_mLander] in Ha. apply Some_inj in Ha. subst a.
      destruct (RotateLeft_fields _ _ _ _ R) as [z [_ ->]].
      eexists. split; [reflexivity|]. auto. }
  destruct S2 as [l2 [Hl2 [B1 [B2 B3]]]].
  assert (S3 : exists l3, Game.mLander h = Some l3 /\
                          mThrustActive l3 = mThrustActive l2 /\
                          mThrustLevel l3 = mThrustLevel l2 /\
                          flight_data l3 = flight_data l2).
  { destruct (rotate_right_input_fields _ _ _ _ E3) as [[_ ->]|[a [b [_ [Ha [R ->]]]]]].
    - exists l2. auto.
    - rewrite Hl2 in Ha. apply Some_inj in Ha. subst a.
      destruct (RotateRight_fields _ _ _ _ R) as [z [_ ->]].
      eexists. split; [reflexivity|]. auto. }
  destruct S3 as [l3 [Hl3 [C1 [C2 C3]]]].
  exists l3. apply Some_inj in H. subst g'.
  split; [destruct (IsQuitActive input); exact Hl3|].
  rewrite C1, C2, C3, B1, B2, B3, A3. auto.
Qed.

End GameTotal.

Lemma initialised_game_never_fails_witness :
  exists g',
    Game.exec flat_ground (Game.CallSetDifficulty EASY) game_thrust = Some g'.
Proof.
  apply (initialised_game_never_fails flat_ground (Game.CallSetDifficulty EASY)
           game_thrust).
  - apply reachable_state_after. vm_compute. discriminate.
  - vm_compute. discriminate.
  - exact I.
Defined.

Lemma fall_timer_tracks_flight_witness :
  game_flown.(Game.fallTimerStarted)
  = match game_flown.(Game.mGameState) with FLYING => true | _ => false end /\
  (game_flown.(Game.mGameState) = FLYING ->
   exists l, game_flown.(Game.mLander) = Some l /\ Physics.grounded l = false).
Proof.
  apply (fall_timer_tracks_flight flat_ground (literal 1 10) game_started game_flown).
  vm_compute. reflexivity.
Defined.

Lemma thrust_follows_key_witness :
  exists l',
    (state_after [Game.CallInitialize true 0; Game.CallProcessInput 1 thrust_held])
      .(Game.mLander) = Some l' /\
    l'.(mThrustActive)
    = thrust_held.(IsThrustActive) && ((lander_of game_started).(mFuel) >? zero)%f32 /\
    l'.(mThrustLevel) = (if l'.(mThrustActive) then one else zero) /\
    flight_data l' = flight_data (lander_of game_started).
Proof.
  apply (thrust_follows_key flat_ground 1 thrust_held game_started
           (state_after [Game.CallInitialize true 0;
                         Game.CallProcessInput 1 thrust_held])
           (lander_of game_started)).
  - apply reachable_state_after. vm_compute. discriminate.
  - vm_compute. reflexivity.
  - vm_compute. reflexivity.
  - vm_compute. reflexivity.
  - vm_compute. reflexivity.
Defined.

(** ** Rounding upwards *)

Section RoundingAbove.

Local Open Scope Z_scope.

(** Rounding a number that is not below a binary32 number [x] gives
    nothing below [x]. *)
Lemma binary_round_aux_above (mx : positive) (ex : Z) (mz : positive) (e1 : Z) :
  canonical_mantissa prec emax mx ex = true ->
  e1 <= ex ->
  e1 <= fexp prec emax (Zpos (digits2_pos mz) + e1) ->
  Zpos mx * 2 ^ (ex - e1) <= Zpos mz ->
  SFltb (binary_round_aux prec emax false (Zpos mz) e1 loc_Exact)
        (S754_finite false mx ex) = false.
Proof.
  intros Hc He He1 Hle.
  unfold canonical_mantissa in Hc. apply Z.eqb_eq in Hc. rewrite fexp_eq in Hc.
  unfold binary_round_aux, shr_fexp.
  change (Zdigits2 (Zpos mz)) with (Zpos (digits2_pos mz)).
  set (f := fexp prec emax (Zpos (digits2_pos mz) + e1)) in *.
  assert (Hf : f = Z.max (Zpos (digits2_pos mz) + e1 - 24) (-149)) by reflexivity.
  destruct (digits2_pos_bounds mx) as [Lx Ux].
  destruct (digits2_pos_bounds mz) as [Lz Uz].
  assert (P1 : 0 < 2 ^ (ex - e1)) by (apply Z.pow_pos_nonneg; lia).
  (* the digits of the two numbers *)
  assert (Hd : Zpos (digits2_pos mx) + ex <= Zpos (digits2_pos mz) + e1).
  { destruct (Z_le_gt_dec (Zpos (digits2_pos mx) + ex) (Zpos (digits2_pos mz) + e1))
      as [|Hgt]; [assumption|exfalso].
    assert (2 ^ Zpos (digits2_pos mz) <= 2 ^ (Zpos (digits2_pos mx) - 1 + (ex - e1)))
      by (apply Z.pow_le_mono_r; lia).
    rewrite Z.pow_add_r in H by lia. nia. }
  assert (Hfx : ex <= f) by lia.
  (* first shift *)
  set (rec0 := shr_record_of_loc (Zpos mz) loc_Exact).
  assert (H0 : 0 <= shr_m rec0) by (simpl; lia).
  destruct (shr_spec rec0 e1 (f - e1) H0) as [S1 [S2 S3]].
  destruct (shr rec0 e1 (f - e1)) as [mrs' e'] eqn:E1.
  simpl fst in S1, S3. simpl snd in S2.
  assert (He' : e' = f) by lia.
  rewrite Z.max_r in S1 by lia. simpl shr_m in S1.
  set (m2 := round_nearest_even (shr_m mrs') (loc_of_shr_record mrs')).
  pose proof (round_nearest_even_bounds (shr_m mrs') (loc_of_shr_record mrs')) as B.
  fold m2 in B. rewrite S1 in B.
  assert (P2 : 0 < 2 ^ (f - e1)) by (apply Z.pow_pos_nonneg; lia).
  assert (P3 : 0 < 2 ^ (f - ex)) by (apply Z.pow_pos_nonneg; lia).
  assert (Hm1 : Zpos mx <= Zpos mz / 2 ^ (f - e1) * 2 ^ (f - ex)).
  { destruct (Z.eq_dec f ex) as [Hfe|Hfe].
    - rewrite Hfe. replace (ex - ex) with 0 by lia. rewrite Z.pow_0_r, Z.mul_1_r.
      apply Z.div_le_lower_bound; [lia|]. rewrite Hfe in P2. lia.
    - assert (Hn : f = Zpos (digits2_pos mz) + e1 - 24) by lia.
      assert (2 ^ 23 <= Zpos mz / 2 ^ (f - e1)).
      { apply Z.div_le_lower_bound; [lia|].
        rewrite <- Z.pow_add_r by lia.
        replace (f - e1 + 23) with (Zpos (digits2_pos mz) - 1) by lia. lia. }
      assert (Zpos mx < 2 ^ 24).
      { assert (2 ^ Zpos (digits2_pos mx) <= 2 ^ 24)
          by (apply Z.pow_le_mono_r; lia). lia. }
      assert (2 ^ 1 <= 2 ^ (f - ex)) by (apply Z.pow_le_mono_r; lia).
      change (2 ^ 1) with 2 in *. change (2 ^ 23) with 8388608 in *.
      change (2 ^ 24) with 16777216 in *. nia. }
  assert (Hm2 : Zpos mx <= m2 * 2 ^ (f - ex)) by nia.
  assert (Hq : 0 < m2) by nia.
  clearbody m2. clear S2. subst e'.
  (* second shift *)
  set (rec1 := shr_record_of_loc m2 loc_Exact).
  assert (H1 : 0 <= shr_m rec1) by (simpl; lia).
  set (n2 := fexp prec emax (Zdigits2 m2 + f) - f).
  destruct (shr_spec rec1 f n2 H1) as [T1 [T2 T3]].
  destruct (shr rec1 f n2) as [mrs'' e''] eqn:E2.
  simpl fst in T1, T3. simpl snd in T2. simpl shr_m in T1.
  destruct m2 as [|q|q]; try lia.
  destruct (digits2_pos_bounds q) as [Lq Uq].
  assert (Hn2 : n2 = Z.max (Zpos (digits2_pos q) + f - 24) (-149) - f) by reflexivity.
  clearbody n2.
  assert (Hm3 : 0 < shr_m mrs'' /\ (Z.max 0 n2 = 0 -> shr_m mrs'' = Zpos q)).
  { rewrite T1. split.
    - apply Z.div_str_pos. split; [apply Z.pow_pos_nonneg; lia|].
      destruct (Z_le_gt_dec n2 0) as [Hn|Hn].
      + rewrite Z.max_l by lia. simpl. lia.
      + assert (2 ^ Z.max 0 n2 <= 2 ^ (Zpos (digits2_pos q) - 1))
          by (apply Z.pow_le_mono_r; lia).
        lia.
    - intros Hz. rewrite Hz. apply Z.div_1_r. }
  destruct Hm3 as [Hm3 Hm3'].
  destruct (shr_m mrs'') as [|m3|m3] eqn:E3; try lia.
  destruct (e'' <=? emax - prec); [|reflexivity].
  apply SFltb_finite_false; [lia|].
  intros Heq. assert (Hz : Z.max 0 n2 = 0) by lia.
  rewrite (Hm3' Hz).
  assert (Hfe : f = ex) by lia. rewrite Hfe in Hm2.
  replace (ex - ex) with 0 in Hm2 by lia. rewrite Z.pow_0_r in Hm2. lia.
Qed.

Lemma binary_round_above (mx : positive) (ex : Z) (D : positive) (ez : Z) :
  canonical_mantissa prec emax mx ex = true ->
  ez <= ex ->
  Zpos mx * 2 ^ (ex - ez) <= Zpos D ->
  SFltb (binary_round prec emax false D ez) (S754_finite false mx ex) = false.
Proof.
  intros Hc Hez Hle.
  unfold binary_round.
  pose proof (shl_align_spec D ez (fexp prec emax (Zpos (digits2_pos D) + ez))) as S.
  destruct (shl_align D ez _) as [mz e1].
  destruct S as [Se [Sm Sd]].
  apply binary_round_aux_above; try assumption.
  - lia.
  - rewrite Sd. lia.
  - rewrite Sm.
    replace (ex - e1) with ((ex - ez) + (ez - e1)) by lia.
    rewrite Z.pow_add_r by lia.
    assert (0 < 2 ^ (ez - e1)) by (apply Z.pow_pos_nonneg; lia).
    nia.
Qed.

(** Adding a number that is not negative to a binary32 number [x] that is
    not negative gives nothing below [x]. *)
Lemma add_not_below (x c : float) :
  valid_binary prec emax x = true ->
  leb zero x = true -> ltb c zero = false ->
  ltb (add x c) x = false.
Proof.
  intros Hv Hx Hc.
  destruct x as [sx|sx| |sx mx ex]; try discriminate Hx.
  - destruct c as [sc|sc| |sc mc ec]; try destruct sc; try discriminate Hc;
      destruct sx; reflexivity.
  - destruct sx; try discriminate Hx.
    destruct c as [sc|sc| |sc mc ec]; try destruct sc; try discriminate Hc;
      reflexivity.
  - destruct sx; try discriminate Hx.
    destruct c as [sc|sc| |sc mc ec]; try destruct sc; try discriminate Hc;
      try reflexivity.
    + unfold add, SFadd. apply ltb_irrefl.
    + unfold add, SFadd. apply ltb_irrefl.
    + simpl in Hv. unfold bounded in Hv. apply andb_prop in Hv.
      destruct Hv as [Hcan Hex].
      unfold add, SFadd. cbn [cond_Zopp].
      pose proof (shl_align_spec mx ex (Z.min ex ec)) as SX.
      destruct (shl_align mx ex (Z.min ex ec)) as [X eX]. simpl fst.
      destruct SX as [SXe [SXm _]].
      generalize (fst (shl_align mc ec (Z.min ex ec))). intros C.
      change (Zpos X + Zpos C) with (Zpos (X + C)).
      unfold binary_normalize.
      apply binary_round_above; try assumption; try lia.
      subst eX. replace (Z.min ex (Z.min ex ec)) with (Z.min ex ec) in SXm by lia.
      lia.
Qed.

End RoundingAbove.

(** ** Gravity and the clock only go one way *)

Section OneWay.

Variable X : Externals.

(** X27.  Gravity never slows the fall: for a gravity and a time step that
    are not negative, [Physics::ApplyGravity] returns a lander whose second
    velocity component is not below the old one, when that one is a
    binary32 number that is not negative; the other two components are
    unchanged. *)
Theorem gravity_never_slows (p : Physics.t) (l l' : Lander) (deltaTime : float) :
  valid_binary prec emax l.(mVelocity).(at1) = true ->
  (zero <=? l.(mVelocity).(at1))%f32 = true ->
  (p.(Physics.mGravity) <? zero)%f32 = false ->
  (deltaTime <? zero)%f32 = false ->
  Physics.ApplyGravity p (Some l) deltaTime = Some l' ->
  (l'.(mVelocity).(at1) <? l.(mVelocity).(at1))%f32 = false /\
  l'.(mVelocity).(at0) = l.(mVelocity).(at0) /\
  l'.(mVelocity).(at2) = l.(mVelocity).(at2).
Proof.
  intros Hv H0 Hg Hd H. unfold Physics.ApplyGravity in H.
  destruct (Physics.grounded l).
  - apply Some_inj in H. subst l'. split; [apply ltb_irrefl|auto].
  - apply Some_inj in H. subst l'.
    cbn [mVelocity Lander.with_mVelocity at0 at1 at2].
    split; [|auto].
    apply add_not_below; try assumption.
    apply mul_not_negative; [apply mul_not_negative; assumption|reflexivity].
Qed.

(** X28.  The clock never runs backwards: for a time step that is not
    negative, [Game::Update] returns a game whose elapsed time is not below
    the old one, when that one is a binary32 number that is not
    negative. *)
Theorem clock_never_runs_back (deltaTime : float) (g g' : Game.t) :
  valid_binary prec emax g.(Game.mElapsedTime) = true ->
  (zero <=? g.(Game.mElapsedTime))%f32 = true ->
  (deltaTime <? zero)%f32 = false ->
  Game.Update X deltaTime g = Some g' ->
  (g'.(Game.mElapsedTime) <? g.(Game.mElapsedTime))%f32 = false.
Proof.
  intros Hv H0 Hd H.
  destruct (Update_returns X deltaTime g g' H) as [_ [_ [_ [_ [E _]]]]].
  rewrite E, update_flying_mElapsedTime.
  destruct (Game.mGameState g); try apply ltb_irrefl.
  apply add_not_below; assumption.
Qed.

End OneWay.

Definition lander_pulled : Lander :=
  match Physics.ApplyGravity physics_ready (Some lander_aloft) (literal 1 10) with
  | Some l => l
  | None => lander_aloft
  end.

Lemma gravity_never_slows_witness :
  (lander_pulled.(mVelocity).(at1) <? lander_aloft.(mVelocity).(at1))%f32 = false /\
  lander_pulled.(mVelocity).(at0) = lander_aloft.(mVelocity).(at0) /\
  lander_pulled.(mVelocity).(at2) = lander_aloft.(mVelocity).(at2).
Proof.
  apply (gravity_never_slows physics_ready lander_aloft lander_pulled (literal 1 10));
    vm_compute; reflexivity.
Defined.

Example first_pull_of_gravity :
  lander_pulled.(mVelocity).(at1) = (literal 162 100 * literal 1 10 * literal 1031 100)%f32 /\
  (zero <? lander_pulled.(mVelocity).(at1))%f32 = true.
Proof. vm_compute. split; reflexivity. Qed.

Lemma clock_never_runs_back_witness :
  (game_flown.(Game.mElapsedTime) <? game_started.(Game.mElapsedTime))%f32 = false.
Proof.
  apply (clock_never_runs_back flat_ground (literal 1 10) game_started game_flown);
    vm_compute; reflexivity.
Defined.
